(** * highcharts option classes: validated setters and (de)serialisation

    A shallow embedding of the option classes [Zone], [Legend],
    [HoverState], [SelectState], [HeatmapOptions], [SankeyOptions] and
    [TreemapOptions].

    Python objects are attribute stores, setters are state transformers that
    may raise, and mappings are insertion-ordered association lists, as
    Python dicts are.  The validators are those of [validator_collection].
    What the option classes call in modules that are not modelled here is
    either a parameter ([Collaborators], the parent classes of the composed
    option classes) or a definition written after the specification
    ([validate_types], [class_sensitive], [trim_dict]). *)

From Stdlib Require Import String Ascii List ZArith QArith Bool Lia.
Import ListNotations.
Local Open Scope string_scope.
Local Open Scope Z_scope.

(** ** Exceptions *)

(** The exception classes the modelled code raises or catches.  The
    [validator_collection] errors keep the base class they have in that
    library: [EmptyValueError], [MinimumValueError] and [MaximumValueError]
    derive from [ValueError]; [CannotCoerceError] derives from [TypeError] and
    [NotAnIterableError] from [CannotCoerceError].
    [errors.HighchartsValueError] derives from [ValueError]; it carries the
    text of its message, in which the interpolated value stays the
    placeholder [{value}] of the f-string. *)
Inductive PyExc : Type :=
| EmptyValueError
| CannotCoerceError
| NotAnIterableError
| MinimumValueError
| MaximumValueError
| ValueError (msg : string)
| TypeError (msg : string)
| AttributeError (attr : string)
| HighchartsValueError (msg : string).

(** [except ValueError] catches exactly these. *)
Definition is_ValueError (e : PyExc) : bool :=
  match e with
  | EmptyValueError | MinimumValueError | MaximumValueError
  | ValueError _ | HighchartsValueError _ => true
  | CannotCoerceError | NotAnIterableError | TypeError _
  | AttributeError _ => false
  end.

Inductive Result (A : Type) : Type :=
| Ok (a : A)
| Raise (e : PyExc).
Arguments Ok {A} a.
Arguments Raise {A} e.

Definition bind {A B : Type} (r : Result A) (k : A -> Result B) : Result B :=
  match r with
  | Ok a => k a
  | Raise e => Raise e
  end.

Declare Scope py_scope.
Delimit Scope py_scope with py.
Notation "x <- c ;; k" := (bind c (fun x => k))
  (at level 61, c at next level, right associativity) : py_scope.
Local Open Scope py_scope.

(** [try: body except ValueError: handler]. *)
Definition try_except_ValueError {A : Type} (body handler : Result A) : Result A :=
  match body with
  | Ok a => Ok a
  | Raise e => if is_ValueError e then handler else Raise e
  end.

Definition succeeded {A : Type} (r : Result A) : bool :=
  match r with Ok _ => true | Raise _ => false end.

(** ** Values *)

(** The classes whose instances occur as values of the modelled fields. *)
Inductive Class : Type :=
| Gradient | Pattern
| AnimationOptions | ShadowOptions | CallbackFunction
| LegendAccessibilityOptions | LegendNavigation | BubbleLegend | LegendTitle
| Zone | Legend | HoverState | SelectState
| HeatmapOptions | SankeyOptions | TreemapOptions.

Definition Class_eqb (a b : Class) : bool :=
  match a, b with
  | Gradient, Gradient | Pattern, Pattern
  | AnimationOptions, AnimationOptions | ShadowOptions, ShadowOptions
  | CallbackFunction, CallbackFunction
  | LegendAccessibilityOptions, LegendAccessibilityOptions
  | LegendNavigation, LegendNavigation | BubbleLegend, BubbleLegend
  | LegendTitle, LegendTitle
  | Zone, Zone | Legend, Legend | HoverState, HoverState
  | SelectState, SelectState
  | HeatmapOptions, HeatmapOptions | SankeyOptions, SankeyOptions
  | TreemapOptions, TreemapOptions => true
  | _, _ => false
  end.

(** JSON-like Python values.  A [float] is the rational it denotes (every
    finite float is one); [Decimal], infinities and NaN are outside the
    model.  Mapping keys are strings.  An object is its class and its
    attribute dictionary ([self.__dict__]). *)
#[warnings="-register-all"]
Inductive PyVal : Type :=
| PyNone
| PyBool (b : bool)
| PyInt (n : Z)
| PyFloat (q : Q)
| PyStr (s : string)
| PyList (items : list PyVal)
| PyDict (entries : list (string * PyVal))
| PyObj (cls : Class) (attrs : list (string * PyVal)).

Definition Dict : Type := list (string * PyVal).

(** [bool(value)]: Python truthiness.  Instances of the option classes
    define neither [__bool__] nor [__len__] and are always true. *)
Definition truthy (v : PyVal) : bool :=
  match v with
  | PyNone => false
  | PyBool b => b
  | PyInt n => negb (n =? 0)
  | PyFloat q => negb (Qeq_bool q 0)
  | PyStr s => negb (s =? "")%string
  | PyList items => match items with [] => false | _ => true end
  | PyDict entries => match entries with [] => false | _ => true end
  | PyObj _ _ => true
  end.

(** [isinstance(value, types)] for a tuple of option classes. *)
Definition isinstance (v : PyVal) (types : list Class) : bool :=
  match v with
  | PyObj c _ => existsb (Class_eqb c) types
  | _ => false
  end.

Definition is_dict (v : PyVal) : bool :=
  match v with PyDict _ => true | _ => false end.

Definition is_str (v : PyVal) : bool :=
  match v with PyStr _ => true | _ => false end.

(** ** Mappings *)

Fixpoint dict_get (k : string) (d : Dict) : option PyVal :=
  match d with
  | [] => None
  | (k', v) :: rest => if (k' =? k)%string then Some v else dict_get k rest
  end.

Definition has_key (k : string) (d : Dict) : bool :=
  match dict_get k d with Some _ => true | None => false end.

(** [d[k] = v]: an existing key keeps its position, a new one goes last. *)
Fixpoint dict_set (k : string) (v : PyVal) (d : Dict) : Dict :=
  match d with
  | [] => [(k, v)]
  | (k', v') :: rest =>
      if (k' =? k)%string then (k', v) :: rest
      else (k', v') :: dict_set k v rest
  end.

Fixpoint dict_remove (k : string) (d : Dict) : Dict :=
  match d with
  | [] => []
  | (k', v') :: rest =>
      if (k' =? k)%string then rest else (k', v') :: dict_remove k rest
  end.

(** [d.pop(k, default)]: the value and the mapping left behind. *)
Definition dict_pop (k : string) (default : PyVal) (d : Dict) : PyVal * Dict :=
  match dict_get k d with
  | Some v => (v, dict_remove k d)
  | None => (default, d)
  end.

Definition dict_keys (d : Dict) : list string := map fst d.

(** ** Strings *)

(** [sub in s] for two strings. *)
Definition str_contains (sub s : string) : bool :=
  match index 0 sub s with
  | Some _ => true
  | None => false
  end.

(** [key in value] where [value] is a mapping (key membership) or a string
    (substring test); the callers guard it by [isinstance(value, (dict, str))]. *)
Definition py_in (key : string) (value : PyVal) : bool :=
  match value with
  | PyDict d => has_key key d
  | PyStr s => str_contains key s
  | _ => false
  end.

Definition lower_ascii (c : ascii) : ascii :=
  let n := nat_of_ascii c in
  if (Nat.leb 65 n && Nat.leb n 90)%bool then ascii_of_nat (n + 32) else c.

(** [s.lower()], on the ASCII letters. *)
Fixpoint lower (s : string) : string :=
  match s with
  | EmptyString => EmptyString
  | String c rest => String (lower_ascii c) (lower rest)
  end.

(** [value in allowed] for a list of strings. *)
Definition str_in (s : string) (allowed : list string) : bool :=
  existsb (String.eqb s) allowed.

(** [value in allowed] for an arbitrary value: only a string can equal one
    of the allowed strings. *)
Definition py_str_in (value : PyVal) (allowed : list string) : bool :=
  match value with
  | PyStr s => str_in s allowed
  | _ => false
  end.

(** [value.lower()]; only [str] has the method among the modelled values. *)
Definition py_lower (value : PyVal) : Result PyVal :=
  match value with
  | PyStr s => Ok (PyStr (lower s))
  | _ => Raise (AttributeError "lower")
  end.

(** The double-quote character of the error messages. *)
Definition dq : string := String (ascii_of_nat 34) EmptyString.

(** ** What the sources call but do not contain *)

(** Python's [float()] on a string, and the class methods of the option
    classes that are not among the sources ([Gradient], [Pattern] and the
    nested option classes).  A class method yields the attribute dictionary
    of the instance it builds, or raises; the model wraps the dictionary
    into an instance of that class.
    - [float_ s]: [None] stands for the [ValueError] of an unreadable text;
    - [cls_from_json c v]: [c.from_json(v)], the structured parse;
    - [cls_from_dict c d]: [c.from_dict(d)];
    - [cls_init c kwargs]: the constructor call of [c] on keyword arguments;
    - [cls_to_dict c attrs]: [to_dict()] of an instance of [c]. *)
Class Collaborators : Type := {
  float_ : string -> option Q;
  cls_from_json : Class -> PyVal -> Result Dict;
  cls_from_dict : Class -> Dict -> Result Dict;
  cls_init : Class -> Dict -> Result Dict;
  cls_to_dict : Class -> Dict -> Dict
}.

Section ClassMethods.
Context {env : Collaborators}.

Definition from_json (c : Class) (value : PyVal) : Result PyVal :=
  attrs <- cls_from_json c value ;;
  Ok (PyObj c attrs).

Definition from_dict (c : Class) (value : PyVal) : Result PyVal :=
  match value with
  | PyDict d => attrs <- cls_from_dict c d ;; Ok (PyObj c attrs)
  | _ => Raise (AttributeError "pop")
  end.

(** The constructor call of [c] with the entries of [value] as keyword
    arguments. *)
Definition construct (c : Class) (value : PyVal) : Result PyVal :=
  match value with
  | PyDict kwargs => attrs <- cls_init c kwargs ;; Ok (PyObj c attrs)
  | _ => Raise (TypeError "argument after ** must be a mapping")
  end.

End ClassMethods.

(** ** validator_collection *)

Module validators.
Section Validators.
Context {env : Collaborators}.

(** [validators.string(value, allow_empty)]: an empty (falsy) value is an
    error or [None]; anything else must already be a [str]. *)
Definition string (value : PyVal) (allow_empty : bool) : Result PyVal :=
  if (negb (truthy value) && negb allow_empty)%bool then Raise EmptyValueError
  else if negb (truthy value) then Ok PyNone
  else if is_str value then Ok value
  else Raise CannotCoerceError.

(** The number a numeric value denotes. *)
Definition as_Q (v : PyVal) : option Q :=
  match v with
  | PyBool b => Some (if b then 1%Q else 0%Q)
  | PyInt n => Some (inject_Z n)
  | PyFloat q => Some q
  | _ => None
  end.

(** [validators.numeric(value, allow_empty, minimum)]: only [None] is empty
    here; a [str] is read through [float()]; [bool] is an [int].  No modelled
    caller passes a maximum. *)
Definition numeric (value : PyVal) (allow_empty : bool) (minimum : option Q)
  : Result PyVal :=
  coerced <- match value with
             | PyNone => if allow_empty then Ok PyNone else Raise EmptyValueError
             | PyStr s => match float_ s with
                          | Some q => Ok (PyFloat q)
                          | None => Raise CannotCoerceError
                          end
             | PyBool _ | PyInt _ | PyFloat _ => Ok value
             | _ => Raise CannotCoerceError
             end ;;
  match as_Q coerced, minimum with
  | Some q, Some m =>
      if negb (Qle_bool m q) then Raise MinimumValueError else Ok coerced
  | _, _ => Ok coerced
  end.

(** [validators.iterable(value)] followed by iteration: the items a
    [for item in value] loop visits.  [str] is a forbidden literal. *)
Definition iterable (value : PyVal) : Result (list PyVal) :=
  if negb (truthy value) then Raise EmptyValueError
  else match value with
       | PyList items => Ok items
       | PyDict d => Ok (map (fun k => PyStr k) (dict_keys d))
       | _ => Raise NotAnIterableError
       end.

End Validators.
End validators.

(** ** highcharts.decorators and HighchartsMeta *)

Section Meta.
Context {env : Collaborators}.

(** Modelled from the spec: [validate_types] of [highcharts.decorators],
    which is not among the sources.  It is the nested-entity constructor of
    the option contract: [None] stays [None] where allowed (every attribute
    is nullable), an instance of one of the expected classes is kept, a
    mapping goes through [from_dict] of the first class and a string through
    its structured parse; anything else is rejected. *)
Definition validate_types (value : PyVal) (types : list Class)
    (allow_none : bool) : Result PyVal :=
  match value with
  | PyNone =>
      if allow_none then Ok PyNone
      else Raise (HighchartsValueError "value cannot be None")
  | PyObj _ _ =>
      if isinstance value types then Ok value
      else Raise (HighchartsValueError "value is not of a supported type")
  | PyDict _ =>
      match types with
      | primary :: _ => from_dict primary value
      | [] => Raise (HighchartsValueError "value is not of a supported type")
      end
  | PyStr _ =>
      match types with
      | primary :: _ => from_json primary value
      | [] => Raise (HighchartsValueError "value is not of a supported type")
      end
  | _ => Raise (HighchartsValueError "value is not of a supported type")
  end.

(** Modelled from the spec: the [@class_sensitive(cls)] decorator of
    [highcharts.decorators]: the value is validated against the class before
    the decorated setter stores it. *)
Definition class_sensitive (c : Class) (value : PyVal) : Result PyVal :=
  validate_types value [c] true.

Definition is_empty (v : PyVal) : bool :=
  match v with
  | PyNone => true
  | PyDict [] => true
  | PyList [] => true
  | _ => false
  end.

(** Modelled from the spec: [HighchartsMeta.trim_dict], which is not among
    the sources.  Nested entities are serialised through their own
    [to_dict]; then every key whose value is [None], an empty mapping or an
    empty sequence is dropped, at every nesting level. *)
Fixpoint trim_value (v : PyVal) : PyVal :=
  match v with
  | PyDict entries =>
      PyDict ((fix trim_entries (es : Dict) : Dict :=
                 match es with
                 | [] => []
                 | (k, x) :: rest =>
                     let x' := trim_value x in
                     if is_empty x' then trim_entries rest
                     else (k, x') :: trim_entries rest
                 end) entries)
  | PyList items => PyList (map trim_value items)
  | PyObj c attrs => PyDict (cls_to_dict c attrs)
  | _ => v
  end.

Fixpoint trim_dict (untrimmed : Dict) : Dict :=
  match untrimmed with
  | [] => []
  | (k, x) :: rest =>
      let x' := trim_value x in
      if is_empty x' then trim_dict rest else (k, x') :: trim_dict rest
  end.

End Meta.

(** ** Objects as attribute stores *)

(** [self.__dict__] of the instance a method runs on. *)
Definition Self : Type := Dict.

(** [self.<attr>]; an attribute that was never assigned is an
    [AttributeError]. *)
Definition getattr (self : Self) (attr : string) : Result PyVal :=
  match dict_get attr self with
  | Some v => Ok v
  | None => Raise (AttributeError attr)
  end.

(** [self.<attr> = v]. *)
Definition setattr (self : Self) (attr : string) (v : PyVal) : Self :=
  dict_set attr v self.

Definition Setter : Type := Self -> PyVal -> Result Self.

(** The assignments [self.<name> = kwargs.pop(<name>, <default>)] of an
    [__init__], in order; the keyword arguments left over are returned. *)
Fixpoint assign_kwargs (fields : list (string * PyVal * Setter))
    (self : Self) (kwargs : Dict) : Result (Self * Dict) :=
  match fields with
  | [] => Ok (self, kwargs)
  | (name, default, setter) :: rest =>
      let '(value, kwargs') := dict_pop name default kwargs in
      self' <- setter self value ;;
      assign_kwargs rest self' kwargs'
  end.

(** The dict display [{<name>: as_dict.pop(<key>, <default>), ...}] of a
    [from_dict], evaluated entry by entry: the keyword arguments and what is
    left of [as_dict]. *)
Fixpoint pop_kwargs (fields : list (string * string * PyVal))
    (as_dict : Dict) (kwargs : Dict) : Dict * Dict :=
  match fields with
  | [] => (kwargs, as_dict)
  | (name, key, default) :: rest =>
      let '(value, as_dict') := dict_pop key default as_dict in
      pop_kwargs rest as_dict' (dict_set name value kwargs)
  end.

(** The dict display [{<key>: self.<property>, ...}] of a [to_dict]; every
    property getter of the modelled classes returns [self._<property>]. *)
Fixpoint read_properties (fields : list (string * string)) (self : Self)
    (untrimmed : Dict) : Result Dict :=
  match fields with
  | [] => Ok untrimmed
  | (key, attr) :: rest =>
      v <- getattr self attr ;;
      read_properties rest self (dict_set key v untrimmed)
  end.

(** The colour setters end in this error when no branch applies. *)
Definition unresolved_color : PyExc :=
  HighchartsValueError
    "Unable to resolve value to a string, Gradient, or Pattern. Value received was: {value}".

(** ** Zone  (highcharts/plot_options/zones.py) *)

(** Modelled from the spec: [constants.SUPPORTED_DASH_STYLE_VALUES] is not
    among the sources; the allowed set of this enum validator is the list of
    accepted values in the docstring of [Zone.dash_style]. *)
Definition SUPPORTED_DASH_STYLE_VALUES : list string :=
  ["Dash"; "DashDot"; "Dot"; "LongDash"; "LongDashDot"; "LongDashDotDot";
   "ShortDash"; "ShortDashDot"; "ShortDashDotDot"; "ShortDot"; "Solid"].

Section ZoneClass.
Context {env : Collaborators}.

Definition Zone_class_name_setter : Setter := fun self value =>
  v <- validators.string value true ;;
  Ok (setattr self "_class_name" v).

Definition Zone_color_setter : Setter := fun self value =>
  if negb (truthy value) then
    Ok (setattr self "_color" PyNone)
  else if isinstance value [Gradient; Pattern] then
    Ok (setattr self "_color" value)
  else if ((is_dict value || is_str value) && py_in "linearGradient" value)%bool then
    v <- try_except_ValueError (from_json Gradient value)
           (if is_dict value then from_dict Gradient value
            else validators.string value false) ;;
    Ok (setattr self "_color" v)
  else if (is_dict value && py_in "linear_gradient" value)%bool then
    v <- construct Gradient value ;;
    Ok (setattr self "_color" v)
  else if ((is_dict value || is_str value) && py_in "patternOptions" value)%bool then
    v <- try_except_ValueError (from_json Pattern value)
           (if is_dict value then from_dict Pattern value
            else validators.string value false) ;;
    Ok (setattr self "_color" v)
  else if (is_dict value && py_in "pattern_options" value)%bool then
    v <- construct Pattern value ;;
    Ok (setattr self "_color" v)
  else Raise unresolved_color.

Definition Zone_dash_style_setter : Setter := fun self value =>
  if negb (truthy value) then
    Ok (setattr self "_dash_style" PyNone)
  else
    value <- validators.string value false ;;
    if negb (py_str_in value SUPPORTED_DASH_STYLE_VALUES) then
      Raise (HighchartsValueError
               "dash_style expects a recognized value, but received: {value}")
    else Ok (setattr self "_dash_style" value).

Definition Zone_fill_color_setter : Setter := fun self value =>
  if negb (truthy value) then
    Ok (setattr self "_fill_color" PyNone)
  else if isinstance value [Gradient; Pattern] then
    Ok (setattr self "_fill_color" value)
  else if ((is_dict value || is_str value) && py_in "linearGradient" value)%bool then
    v <- try_except_ValueError (from_json Gradient value)
           (if is_dict value then from_dict Gradient value
            else validators.string value false) ;;
    Ok (setattr self "_fill_color" v)
  else if (is_dict value && py_in "linear_gradient" value)%bool then
    v <- construct Gradient value ;;
    Ok (setattr self "_fill_color" v)
  else if ((is_dict value || is_str value) && py_in "patternOptions" value)%bool then
    v <- try_except_ValueError (from_json Pattern value)
           (if is_dict value then from_dict Pattern value
            else validators.string value false) ;;
    Ok (setattr self "_fill_color" v)
  else if (is_dict value && py_in "pattern_options" value)%bool then
    v <- construct Pattern value ;;
    Ok (setattr self "_fill_color" v)
  else Raise unresolved_color.

Definition Zone_value_setter : Setter := fun self value_ =>
  v <- validators.numeric value_ true None ;;
  Ok (setattr self "_value" v).

Definition Zone_init (kwargs : Dict) : Result Self :=
  let self := [("_class_name", PyNone); ("_color", PyNone);
               ("_dash_style", PyNone); ("_fill_color", PyNone);
               ("_value", PyNone)] in
  r <- assign_kwargs
         [("class_name", PyNone, Zone_class_name_setter);
          ("color", PyNone, Zone_color_setter);
          ("dash_style", PyNone, Zone_dash_style_setter);
          ("fill_color", PyNone, Zone_fill_color_setter);
          ("value", PyNone, Zone_value_setter)] self kwargs ;;
  Ok (fst r).

Definition Zone_from_dict (as_dict : Dict) : Result Self :=
  let kwargs := fst (pop_kwargs
    [("class_name", "className", PyNone);
     ("color", "color", PyNone);
     ("dash_style", "dashStyle", PyNone);
     ("fill_color", "fillColor", PyNone);
     ("value", "value", PyNone)] as_dict []) in
  Zone_init kwargs.

Definition Zone_properties : list (string * string) :=
  [("className", "_class_name");
   ("color", "_color");
   ("dashStyle", "_dash_style");
   ("fillColor", "_fill_color");
   ("value", "_value")].


End ZoneClass.

(** ** HoverState and SelectState  (highcharts/utility_classes/states.py) *)

(** The float literal [0.1], as the binary64 value it denotes. *)
Definition float_0_1 : Q := 3602879701896397 # 36028797018963968.

Section StateClasses.
Context {env : Collaborators}.

Definition HoverState_animation_setter : Setter := fun self value =>
  value <- class_sensitive AnimationOptions value ;;
  Ok (setattr self "_animation" value).

Definition HoverState_border_color_setter : Setter := fun self value =>
  if negb (truthy value) then
    Ok (setattr self "_border_color" PyNone)
  else if isinstance value [Gradient; Pattern] then
    Ok (setattr self "_border_color" value)
  else if ((is_dict value || is_str value) && py_in "linearGradient" value)%bool then
    v <- try_except_ValueError (from_json Gradient value)
           (if is_dict value then from_dict Gradient value
            else validators.string value false) ;;
    Ok (setattr self "_border_color" v)
  else if (is_dict value && py_in "linear_gradient" value)%bool then
    v <- construct Gradient value ;;
    Ok (setattr self "_border_color" v)
  else if ((is_dict value || is_str value) && py_in "patternOptions" value)%bool then
    v <- try_except_ValueError (from_json Pattern value)
           (if is_dict value then from_dict Pattern value
            else validators.string value false) ;;
    Ok (setattr self "_border_color" v)
  else if (is_dict value && py_in "pattern_options" value)%bool then
    v <- construct Pattern value ;;
    Ok (setattr self "_border_color" v)
  else Raise unresolved_color.

Definition HoverState_brightness_setter : Setter := fun self value =>
  v <- validators.numeric value true None ;;
  Ok (setattr self "_brightness" v).

(** The first definition of the [color] property (lines 98-136).  The class
    body defines [color] a second time further down, and the later binding
    replaces this one: no assignment to [color] ever runs this setter. *)
Definition HoverState_color_setter_first : Setter := fun self value =>
  if negb (truthy value) then
    Ok (setattr self "_color" PyNone)
  else if isinstance value [Gradient; Pattern] then
    Ok (setattr self "_color" value)
  else if ((is_dict value || is_str value) && py_in "linearGradient" value)%bool then
    v <- try_except_ValueError (from_json Gradient value)
           (if is_dict value then from_dict Gradient value
            else validators.string value false) ;;
    Ok (setattr self "_color" v)
  else if (is_dict value && py_in "linear_gradient" value)%bool then
    v <- construct Gradient value ;;
    Ok (setattr self "_color" v)
  else if ((is_dict value || is_str value) && py_in "patternOptions" value)%bool then
    v <- try_except_ValueError (from_json Pattern value)
           (if is_dict value then from_dict Pattern value
            else validators.string value false) ;;
    Ok (setattr self "_color" v)
  else if (is_dict value && py_in "pattern_options" value)%bool then
    v <- construct Pattern value ;;
    Ok (setattr self "_color" v)
  else Raise unresolved_color.

(** The second definition of the [color] property (lines 138-148): the one
    bound to [HoverState.color] once the class body has run. *)
Definition HoverState_color_setter : Setter := fun self value =>
  v <- validators.string value true ;;
  Ok (setattr self "_color" v).

Definition HoverState_enabled_setter : Setter := fun self value =>
  match value with
  | PyNone => Ok (setattr self "_enabled" PyNone)
  | _ => Ok (setattr self "_enabled" (PyBool (truthy value)))
  end.

Definition HoverState_init (kwargs : Dict) : Result Self :=
  let self := [("_animation", PyNone); ("_border_color", PyNone);
               ("_brightness", PyFloat float_0_1); ("_color", PyNone);
               ("_enabled", PyBool true)] in
  r <- assign_kwargs
         [("animation", PyNone, HoverState_animation_setter);
          ("border_color", PyNone, HoverState_border_color_setter);
          ("brightness", PyFloat float_0_1, HoverState_brightness_setter);
          ("color", PyNone, HoverState_color_setter);
          ("enabled", PyBool true, HoverState_enabled_setter)] self kwargs ;;
  Ok (fst r).

Definition HoverState_from_dict (as_dict : Dict) : Result Self :=
  let kwargs := fst (pop_kwargs
    [("animation", "animation", PyNone);
     ("border_color", "borderColor", PyNone);
     ("brightness", "brightness", PyFloat float_0_1);
     ("color", "color", PyNone);
     ("enabled", "enabled", PyBool true)] as_dict []) in
  HoverState_init kwargs.


Definition SelectState_animation_setter : Setter := fun self value =>
  value <- class_sensitive AnimationOptions value ;;
  Ok (setattr self "_animation" value).

Definition SelectState_border_color_setter : Setter := fun self value =>
  if negb (truthy value) then
    Ok (setattr self "_border_color" PyNone)
  else if isinstance value [Gradient; Pattern] then
    Ok (setattr self "_border_color" value)
  else if ((is_dict value || is_str value) && py_in "linearGradient" value)%bool then
    v <- try_except_ValueError (from_json Gradient value)
           (if is_dict value then from_dict Gradient value
            else validators.string value false) ;;
    Ok (setattr self "_border_color" v)
  else if (is_dict value && py_in "linear_gradient" value)%bool then
    v <- construct Gradient value ;;
    Ok (setattr self "_border_color" v)
  else if ((is_dict value || is_str value) && py_in "patternOptions" value)%bool then
    v <- try_except_ValueError (from_json Pattern value)
           (if is_dict value then from_dict Pattern value
            else validators.string value false) ;;
    Ok (setattr self "_border_color" v)
  else if (is_dict value && py_in "pattern_options" value)%bool then
    v <- construct Pattern value ;;
    Ok (setattr self "_border_color" v)
  else Raise unresolved_color.

(** The first definition of [SelectState.color] (lines 372-410), replaced
    by the second one like its [HoverState] twin. *)
Definition SelectState_color_setter_first : Setter := fun self value =>
  if negb (truthy value) then
    Ok (setattr self "_color" PyNone)
  else if isinstance value [Gradient; Pattern] then
    Ok (setattr self "_color" value)
  else if ((is_dict value || is_str value) && py_in "linearGradient" value)%bool then
    v <- try_except_ValueError (from_json Gradient value)
           (if is_dict value then from_dict Gradient value
            else validators.string value false) ;;
    Ok (setattr self "_color" v)
  else if (is_dict value && py_in "linear_gradient" value)%bool then
    v <- construct Gradient value ;;
    Ok (setattr self "_color" v)
  else if ((is_dict value || is_str value) && py_in "patternOptions" value)%bool then
    v <- try_except_ValueError (from_json Pattern value)
           (if is_dict value then from_dict Pattern value
            else validators.string value false) ;;
    Ok (setattr self "_color" v)
  else if (is_dict value && py_in "pattern_options" value)%bool then
    v <- construct Pattern value ;;
    Ok (setattr self "_color" v)
  else Raise unresolved_color.

(** The second definition of [SelectState.color] (lines 412-422), the
    effective one. *)
Definition SelectState_color_setter : Setter := fun self value =>
  v <- validators.string value true ;;
  Ok (setattr self "_color" v).

Definition SelectState_enabled_setter : Setter := fun self value =>
  match value with
  | PyNone => Ok (setattr self "_enabled" PyNone)
  | _ => Ok (setattr self "_enabled" (PyBool (truthy value)))
  end.

Definition SelectState_init (kwargs : Dict) : Result Self :=
  let self := [("_animation", PyNone); ("_border_color", PyNone);
               ("_color", PyNone); ("_enabled", PyBool true)] in
  r <- assign_kwargs
         [("animation", PyNone, SelectState_animation_setter);
          ("border_color", PyStr "#000000", SelectState_border_color_setter);
          ("color", PyStr "#cccccc", SelectState_color_setter);
          ("enabled", PyBool true, SelectState_enabled_setter)] self kwargs ;;
  Ok (fst r).

Definition SelectState_from_dict (as_dict : Dict) : Result Self :=
  let kwargs := fst (pop_kwargs
    [("animation", "animation", PyNone);
     ("border_color", "borderColor", PyStr "#000000");
     ("color", "color", PyStr "#cccccc");
     ("enabled", "enabled", PyBool true)] as_dict []) in
  SelectState_init kwargs.

Definition SelectState_to_dict (self : Self) : Result Dict :=
  untrimmed <- read_properties
    [("animation", "_animation");
     ("borderColor", "_border_color");
     ("color", "_color");
     ("enabled", "_enabled")] self [] ;;
  Ok (trim_dict untrimmed).

End StateClasses.

(** ** Legend  (highcharts/legend/__init__.py) *)

Definition align_error : PyExc :=
  HighchartsValueError
    ("align must be either " ++ dq ++ "left" ++ dq ++ ", " ++ dq ++ "center"
     ++ dq ++ ", or " ++ dq ++ "right" ++ dq ++ ". Was: " ++ dq ++ "{value}"
     ++ dq).

Definition layout_error : PyExc :=
  HighchartsValueError
    ("layout must be either " ++ dq ++ "horizontal" ++ dq ++ ", , " ++ dq
     ++ "vertical" ++ dq ++ ", or " ++ dq ++ "proximate" ++ dq ++ ". Was: "
     ++ dq ++ "{value}" ++ dq).

Definition vertical_align_error : PyExc :=
  HighchartsValueError
    ("vertical_align expects either " ++ dq ++ "top" ++ dq ++ ", " ++ dq
     ++ "middle" ++ dq ++ ", or " ++ dq ++ "bottom" ++ dq ++ ". Was: {value}").

Section LegendClass.
Context {env : Collaborators}.

Definition Legend_accessibility_setter : Setter := fun self value =>
  value <- class_sensitive LegendAccessibilityOptions value ;;
  Ok (setattr self "_accessibility" value).

Definition Legend_align_setter : Setter := fun self value =>
  if negb (truthy value) then
    Ok (setattr self "_align" PyNone)
  else
    value <- validators.string value false ;;
    value <- py_lower value ;;
    if negb (py_str_in value ["left"; "center"; "right"]) then Raise align_error
    else Ok (setattr self "_align" value).

Definition Legend_align_columns_setter : Setter := fun self value =>
  match value with
  | PyNone => Ok (setattr self "_align_columns" PyNone)
  | _ => Ok (setattr self "_align_columns" (PyBool (truthy value)))
  end.

Definition Legend_background_color_setter : Setter := fun self value =>
  if negb (truthy value) then
    Ok (setattr self "_background_color" PyNone)
  else if isinstance value [Gradient; Pattern] then
    Ok (setattr self "_background_color" value)
  else if ((is_dict value || is_str value) && py_in "linearGradient" value)%bool then
    v <- try_except_ValueError (from_json Gradient value)
           (if is_dict value then from_dict Gradient value
            else validators.string value false) ;;
    Ok (setattr self "_background_color" v)
  else if (is_dict value && py_in "linear_gradient" value)%bool then
    v <- construct Gradient value ;;
    Ok (setattr self "_background_color" v)
  else if ((is_dict value || is_str value) && py_in "patternOptions" value)%bool then
    v <- try_except_ValueError (from_json Pattern value)
           (if is_dict value then from_dict Pattern value
            else validators.string value false) ;;
    Ok (setattr self "_background_color" v)
  else if (is_dict value && py_in "pattern_options" value)%bool then
    v <- construct Pattern value ;;
    Ok (setattr self "_background_color" v)
  else Raise unresolved_color.

Definition Legend_border_color_setter : Setter := fun self value =>
  if negb (truthy value) then
    Ok (setattr self "_border_color" PyNone)
  else if isinstance value [Gradient; Pattern] then
    Ok (setattr self "_border_color" value)
  else if ((is_dict value || is_str value) && py_in "linearGradient" value)%bool then
    v <- try_except_ValueError (from_json Gradient value)
           (if is_dict value then from_dict Gradient value
            else validators.string value false) ;;
    Ok (setattr self "_border_color" v)
  else if (is_dict value && py_in "linear_gradient" value)%bool then
    v <- construct Gradient value ;;
    Ok (setattr self "_border_color" v)
  else if ((is_dict value || is_str value) && py_in "patternOptions" value)%bool then
    v <- try_except_ValueError (from_json Pattern value)
           (if is_dict value then from_dict Pattern value
            else validators.string value false) ;;
    Ok (setattr self "_border_color" v)
  else if (is_dict value && py_in "pattern_options" value)%bool then
    v <- construct Pattern value ;;
    Ok (setattr self "_border_color" v)
  else Raise unresolved_color.

Definition Legend_border_radius_setter : Setter := fun self value =>
  v <- validators.numeric value true None ;;
  Ok (setattr self "_border_radius" v).

Definition Legend_border_width_setter : Setter := fun self value =>
  v <- validators.numeric value true None ;;
  Ok (setattr self "_border_width" v).

Definition Legend_bubble_legend_setter : Setter := fun self value =>
  value <- class_sensitive BubbleLegend value ;;
  Ok (setattr self "_bubble_legend" value).

Definition Legend_class_name_setter : Setter := fun self value =>
  v <- validators.string value true ;;
  Ok (setattr self "_class_name" v).

Definition Legend_enabled_setter : Setter := fun self value =>
  match value with
  | PyNone => Ok (setattr self "_enabled" PyNone)
  | _ => Ok (setattr self "_enabled" (PyBool (truthy value)))
  end.

Definition Legend_floating_setter : Setter := fun self value =>
  match value with
  | PyNone => Ok (setattr self "_floating" PyNone)
  | _ => Ok (setattr self "_floating" (PyBool (truthy value)))
  end.

Definition Legend_item_checkbox_style_setter : Setter := fun self value =>
  v <- validators.string value true ;;
  Ok (setattr self "_item_checkbox_style" v).

Definition Legend_item_distance_setter : Setter := fun self value =>
  v <- validators.numeric value true (Some 0%Q) ;;
  Ok (setattr self "_item_distance" v).

Definition Legend_item_hidden_style_setter : Setter := fun self value =>
  v <- validators.string value true ;;
  Ok (setattr self "_item_hidden_style" v).

Definition Legend_item_hover_style_setter : Setter := fun self value =>
  v <- validators.string value true ;;
  Ok (setattr self "_item_hover_style" v).

Definition Legend_item_margin_bottom_setter : Setter := fun self value =>
  v <- validators.numeric value true (Some 0%Q) ;;
  Ok (setattr self "_item_margin_bottom" v).

Definition Legend_item_margin_top_setter : Setter := fun self value =>
  v <- validators.numeric value true (Some 0%Q) ;;
  Ok (setattr self "_item_margin_top" v).

Definition Legend_item_style_setter : Setter := fun self value =>
  v <- validators.string value true ;;
  Ok (setattr self "_item_style" v).

Definition Legend_item_width_setter : Setter := fun self value =>
  v <- validators.numeric value true (Some 0%Q) ;;
  Ok (setattr self "_item_width" v).

Definition Legend_label_format_setter : Setter := fun self value =>
  v <- validators.string value true ;;
  Ok (setattr self "_label_format" v).

Definition Legend_label_formatter_setter : Setter := fun self value =>
  value <- class_sensitive CallbackFunction value ;;
  Ok (setattr self "_label_formatter" value).

Definition Legend_layout_setter : Setter := fun self value =>
  if negb (truthy value) then
    Ok (setattr self "_layout" PyNone)
  else
    value <- validators.string value false ;;
    value <- py_lower value ;;
    if negb (py_str_in value ["horizontal"; "vertical"; "proximate"]) then Raise layout_error
    else Ok (setattr self "_layout" value).

Definition Legend_margin_setter : Setter := fun self value =>
  v <- validators.numeric value true None ;;
  Ok (setattr self "_margin" v).

Definition Legend_max_height_setter : Setter := fun self value =>
  v <- validators.numeric value true (Some 0%Q) ;;
  Ok (setattr self "_max_height" v).

Definition Legend_navigation_setter : Setter := fun self value =>
  value <- class_sensitive LegendNavigation value ;;
  Ok (setattr self "_navigation" value).

Definition Legend_padding_setter : Setter := fun self value =>
  v <- validators.numeric value true None ;;
  Ok (setattr self "_padding" v).

Definition Legend_reversed_setter : Setter := fun self value =>
  match value with
  | PyNone => Ok (setattr self "_reversed" PyNone)
  | _ => Ok (setattr self "_reversed" (PyBool (truthy value)))
  end.

Definition Legend_rtl_setter : Setter := fun self value =>
  match value with
  | PyNone => Ok (setattr self "_rtl" PyNone)
  | _ => Ok (setattr self "_rtl" (PyBool (truthy value)))
  end.

Definition Legend_shadow_setter : Setter := fun self value =>
  match value with
  | PyNone => Ok (setattr self "_shadow" PyNone)
  | PyBool false => Ok (setattr self "_shadow" (PyBool false))
  | _ =>
      value <- validate_types value [ShadowOptions] false ;;
      Ok (setattr self "_shadow" value)
  end.

Definition Legend_square_symbol_setter : Setter := fun self value =>
  match value with
  | PyNone => Ok (setattr self "_square_symbol" PyNone)
  | _ => Ok (setattr self "_square_symbol" (PyBool (truthy value)))
  end.

Definition Legend_symbol_height_setter : Setter := fun self value =>
  v <- validators.numeric value true (Some 0%Q) ;;
  Ok (setattr self "_symbol_height" v).

Definition Legend_symbol_padding_setter : Setter := fun self value =>
  v <- validators.numeric value true None ;;
  Ok (setattr self "_symbol_padding" v).

Definition Legend_symbol_radius_setter : Setter := fun self value =>
  v <- validators.numeric value true None ;;
  Ok (setattr self "_symbol_radius" v).

Definition Legend_symbol_width_setter : Setter := fun self value =>
  v <- validators.numeric value true (Some 0%Q) ;;
  Ok (setattr self "_symbol_width" v).

Definition Legend_title_setter : Setter := fun self value =>
  value <- class_sensitive LegendTitle value ;;
  Ok (setattr self "_title" value).

Definition Legend_use_html_setter : Setter := fun self value =>
  match value with
  | PyNone => Ok (setattr self "_use_html" PyNone)
  | _ => Ok (setattr self "_use_html" (PyBool (truthy value)))
  end.

Definition Legend_vertical_align_setter : Setter := fun self value =>
  if negb (truthy value) then
    Ok (setattr self "_vertical_align" PyNone)
  else
    value <- validators.string value true ;;
    value <- py_lower value ;;
    if negb (py_str_in value ["bottom"; "middle"; "top"]) then Raise vertical_align_error
    else Ok (setattr self "_vertical_align" value).

Definition Legend_width_setter : Setter := fun self value =>
  if negb (truthy value) then
    Ok (setattr self "_width" PyNone)
  else
    v <- try_except_ValueError (validators.string value false)
           (validators.numeric value false (Some 0%Q)) ;;
    Ok (setattr self "_width" v).

(** The validated number is bound to the local [value] and the method
    ends: nothing is assigned to [self._x]. *)
Definition Legend_x_setter : Setter := fun self value =>
  value <- validators.numeric value true None ;;
  Ok self.

(** The validated number is bound to the local [value] and the method
    ends: nothing is assigned to [self._y]. *)
Definition Legend_y_setter : Setter := fun self value =>
  value <- validators.numeric value true None ;;
  Ok self.

Definition Legend_init (kwargs : Dict) : Result Self :=
  let self :=
    [("_accessibility", PyNone); ("_align", PyNone);
     ("_align_columns", PyNone); ("_background_color", PyNone);
     ("_border_color", PyNone); ("_border_width", PyNone);
     ("_border_radius", PyNone); ("_bubble_legend", PyNone);
     ("_class_name", PyNone); ("_enabled", PyNone); ("_floating", PyNone);
     ("_item_checkbox_style", PyNone); ("_item_distance", PyNone);
     ("_item_hidden_style", PyNone); ("_item_hover_style", PyNone);
     ("_item_margin_bottom", PyNone); ("_item_margin_top", PyNone);
     ("_item_style", PyNone); ("_item_width", PyNone);
     ("_label_format", PyNone); ("_label_formatter", PyNone);
     ("_layout", PyNone); ("_margin", PyNone); ("_max_height", PyNone);
     ("_navigation", PyNone); ("_padding", PyNone); ("_reversed", PyNone);
     ("_rtl", PyNone); ("_shadow", PyNone); ("_square_symbol", PyNone);
     ("_symbol_height", PyNone); ("_symbol_padding", PyNone);
     ("_symbol_radius", PyNone); ("_symbol_width", PyNone);
     ("_title", PyNone); ("_use_html", PyNone); ("_vertical_align", PyNone);
     ("_width", PyNone); ("_x", PyNone); ("_y", PyNone)] in
  r <- assign_kwargs
    [("accessibility", PyNone, Legend_accessibility_setter);
     ("align", PyNone, Legend_align_setter);
     ("align_columns", PyNone, Legend_align_columns_setter);
     ("background_color", PyNone, Legend_background_color_setter);
     ("border_color", PyNone, Legend_border_color_setter);
     ("border_width", PyNone, Legend_border_width_setter);
     ("border_radius", PyNone, Legend_border_radius_setter);
     ("bubble_legend", PyNone, Legend_bubble_legend_setter);
     ("class_name", PyNone, Legend_class_name_setter);
     ("enabled", PyNone, Legend_enabled_setter);
     ("floating", PyNone, Legend_floating_setter);
     ("item_checkbox_style", PyNone, Legend_item_checkbox_style_setter);
     ("item_distance", PyNone, Legend_item_distance_setter);
     ("item_hidden_style", PyNone, Legend_item_hidden_style_setter);
     ("item_hover_style", PyNone, Legend_item_hover_style_setter);
     ("item_margin_bottom", PyNone, Legend_item_margin_bottom_setter);
     ("item_margin_top", PyNone, Legend_item_margin_top_setter);
     ("item_style", PyNone, Legend_item_style_setter);
     ("item_width", PyNone, Legend_item_width_setter);
     ("label_format", PyNone, Legend_label_format_setter);
     ("label_formatter", PyNone, Legend_label_formatter_setter);
     ("layout", PyNone, Legend_layout_setter);
     ("margin", PyNone, Legend_margin_setter);
     ("max_height", PyNone, Legend_max_height_setter);
     ("navigation", PyNone, Legend_navigation_setter);
     ("padding", PyNone, Legend_padding_setter);
     ("reversed", PyNone, Legend_reversed_setter);
     ("rtl", PyNone, Legend_rtl_setter);
     ("shadow", PyNone, Legend_shadow_setter);
     ("square_symbol", PyNone, Legend_square_symbol_setter);
     ("symbol_height", PyNone, Legend_symbol_height_setter);
     ("symbol_padding", PyNone, Legend_symbol_padding_setter);
     ("symbol_radius", PyNone, Legend_symbol_radius_setter);
     ("symbol_width", PyNone, Legend_symbol_width_setter);
     ("title", PyNone, Legend_title_setter);
     ("use_html", PyNone, Legend_use_html_setter);
     ("vertical_align", PyNone, Legend_vertical_align_setter);
     ("width", PyNone, Legend_width_setter);
     ("x", PyNone, Legend_x_setter);
     ("y", PyNone, Legend_y_setter)] self kwargs ;;
  Ok (fst r).

Definition Legend_from_dict (as_dict : Dict) : Result Self :=
  let kwargs := fst (pop_kwargs
    [("accessibility", "accessibility", PyNone);
     ("align", "align", PyNone);
     ("align_columns", "alignColumns", PyNone);
     ("background_color", "backgroundColor", PyNone);
     ("border_color", "borderColor", PyNone);
     ("border_width", "borderWidth", PyNone);
     ("border_radius", "borderRadius", PyNone);
     ("bubble_legend", "bubbleLegend", PyNone);
     ("class_name", "className", PyNone);
     ("enabled", "enabled", PyNone);
     ("floating", "floating", PyNone);
     ("item_checkbox_style", "itemCheckboxStyle", PyNone);
     ("item_distance", "itemDistance", PyNone);
     ("item_hidden_style", "itemHiddenStyle", PyNone);
     ("item_hover_style", "itemHoverStyle", PyNone);
     ("item_margin_bottom", "itemMarginBottom", PyNone);
     ("item_margin_top", "itemMarginTop", PyNone);
     ("item_style", "itemStyle", PyNone);
     ("item_width", "itemWidth", PyNone);
     ("label_format", "labelFormat", PyNone);
     ("label_formatter", "labelFormatter", PyNone);
     ("layout", "layout", PyNone);
     ("margin", "margin", PyNone);
     ("max_height", "maxHeight", PyNone);
     ("navigation", "navigation", PyNone);
     ("padding", "padding", PyNone);
     ("reversed", "reversed", PyNone);
     ("rtl", "rtl", PyNone);
     ("shadow", "shadow", PyNone);
     ("square_symbol", "squareSymbol", PyNone);
     ("symbol_height", "symbolHeight", PyNone);
     ("symbol_padding", "symbolPadding", PyNone);
     ("symbol_radius", "symbolRadius", PyNone);
     ("symbol_width", "symbolWidth", PyNone);
     ("title", "title", PyNone);
     ("use_html", "useHTML", PyNone);
     ("vertical_align", "verticalAlign", PyNone);
     ("width", "width", PyNone);
     ("x", "x", PyNone);
     ("y", "y", PyNone)] as_dict []) in
  Legend_init kwargs.

Definition Legend_to_untrimmed_dict (self : Self) : Result Dict :=
  read_properties
    [("accessibility", "_accessibility");
     ("align", "_align");
     ("alignColumns", "_align_columns");
     ("backgroundColor", "_background_color");
     ("borderColor", "_border_color");
     ("borderWidth", "_border_width");
     ("borderRadius", "_border_radius");
     ("bubbleLegend", "_bubble_legend");
     ("className", "_class_name");
     ("enabled", "_enabled");
     ("floating", "_floating");
     ("itemCheckboxStyle", "_item_checkbox_style");
     ("itemDistance", "_item_distance");
     ("itemHiddenStyle", "_item_hidden_style");
     ("itemHoverStyle", "_item_hover_style");
     ("itemMarginBottom", "_item_margin_bottom");
     ("itemMarginTop", "_item_margin_top");
     ("itemStyle", "_item_style");
     ("itemWidth", "_item_width");
     ("labelFormat", "_label_format");
     ("labelFormatter", "_label_formatter");
     ("layout", "_layout");
     ("margin", "_margin");
     ("maxHeight", "_max_height");
     ("navigation", "_navigation");
     ("padding", "_padding");
     ("reversed", "_reversed");
     ("rtl", "_rtl");
     ("shadow", "_shadow");
     ("squareSymbol", "_square_symbol");
     ("symbolHeight", "_symbol_height");
     ("symbolPadding", "_symbol_padding");
     ("symbolRadius", "_symbol_radius");
     ("symbolWidth", "_symbol_width");
     ("title", "_title");
     ("useHTML", "_use_html");
     ("verticalAlign", "_vertical_align");
     ("width", "_width");
     ("x", "_x");
     ("y", "_y")] self [].

End LegendClass.

(** ** Composed option classes *)

(** The loop [for key in parent_as_dict: untrimmed[key] = parent_as_dict[key]]
    that the composed classes run after building their own entries. *)
Definition copy_parent_items (parent_as_dict untrimmed : Dict) : Dict :=
  fold_left
    (fun untrimmed key =>
       match dict_get key parent_as_dict with
       | Some v => dict_set key v untrimmed
       | None => untrimmed
       end)
    (dict_keys parent_as_dict) untrimmed.

(** [super(x)] with a single argument: the argument has to be a class, and
    no modelled value is one, so the call raises. *)
Definition super_one_argument (x : PyVal) : Result PyVal :=
  Raise (TypeError "super() argument 1 must be a type").

Definition link_color_mode_error : PyExc :=
  HighchartsValueError
    ("link_color_mode expects a value of either " ++ dq ++ "from" ++ dq
     ++ ", " ++ dq ++ "gradient" ++ dq ++ ", or " ++ dq ++ "to" ++ dq
     ++ ". Received " ++ dq ++ "{value}" ++ dq).

Section ComposedClasses.
Context {env : Collaborators}.

(** The parent classes are not among the sources; their serialisation
    methods, bound to the instance, are parameters:
    [SeriesOptions.to_dict], [DependencyWheelOptions._to_untrimmed_dict]
    (with its [in_cls] argument) and [GenericTypeOptions.to_dict]. *)
Variable SeriesOptions_to_dict : Self -> Result Dict.
Variable DependencyWheelOptions_to_untrimmed_dict : Self -> PyVal -> Result Dict.
Variable GenericTypeOptions_to_dict : PyVal -> Result Dict.

(** *** HeatmapOptions  (highcharts/plot_options/heatmap.py) *)

Definition HeatmapOptions_null_color_setter : Setter := fun self value =>
  if negb (truthy value) then
    Ok (setattr self "_null_color" PyNone)
  else if isinstance value [Gradient; Pattern] then
    Ok (setattr self "_null_color" value)
  else if ((is_dict value || is_str value) && py_in "linearGradient" value)%bool then
    v <- try_except_ValueError (from_json Gradient value)
           (if is_dict value then from_dict Gradient value
            else validators.string value false) ;;
    Ok (setattr self "_null_color" v)
  else if (is_dict value && py_in "linear_gradient" value)%bool then
    v <- construct Gradient value ;;
    Ok (setattr self "_null_color" v)
  else if ((is_dict value || is_str value) && py_in "patternOptions" value)%bool then
    v <- try_except_ValueError (from_json Pattern value)
           (if is_dict value then from_dict Pattern value
            else validators.string value false) ;;
    Ok (setattr self "_null_color" v)
  else if (is_dict value && py_in "pattern_options" value)%bool then
    v <- construct Pattern value ;;
    Ok (setattr self "_null_color" v)
  else Raise (HighchartsValueError
    "Unable to resolve value to an EnforcedNullType, string, Gradient, or Pattern. Value received was: {value}").

Definition HeatmapOptions_own_properties : list (string * string) :=
  [("borderRadius", "_border_radius");
   ("colsize", "_colsize");
   ("nullColor", "_null_color");
   ("pointPadding", "_point_padding");
   ("rowsize", "_rowsize")].

Definition HeatmapOptions_to_dict (self : Self) : Result Dict :=
  untrimmed <- read_properties HeatmapOptions_own_properties self [] ;;
  parent_as_dict <- SeriesOptions_to_dict self ;;
  let untrimmed := copy_parent_items parent_as_dict untrimmed in
  Ok (trim_dict untrimmed).

(** *** SankeyOptions  (highcharts_core/options/plot_options/sankey.py) *)

Definition SankeyOptions_link_color_mode_setter : Setter := fun self value =>
  if negb (truthy value) then
    Ok (setattr self "_link_color_mode" PyNone)
  else
    value <- validators.string value false ;;
    value <- py_lower value ;;
    if negb (py_str_in value ["from"; "gradient"; "to"]) then
      Raise link_color_mode_error
    else Ok (setattr self "_link_color_mode" value).

Definition SankeyOptions_to_untrimmed_dict (self : Self) (in_cls : PyVal)
  : Result Dict :=
  untrimmed <- read_properties [("linkColorMode", "_link_color_mode")] self [] ;;
  parent_as_dict <- DependencyWheelOptions_to_untrimmed_dict self in_cls ;;
  let untrimmed := copy_parent_items parent_as_dict untrimmed in
  Ok untrimmed.

(** *** TreemapOptions  (highcharts/plot_options/treemap.py) *)

(** The loop of the [colors] setter; the test of its first branch is on
    [value], the whole iterable, as in the source. *)
Fixpoint TreemapOptions_colors_loop (value : PyVal) (items : list PyVal)
    (checked_values : list PyVal) : Result (list PyVal) :=
  match items with
  | [] => Ok checked_values
  | item :: rest =>
      if is_str value then
        TreemapOptions_colors_loop value rest (checked_values ++ [item])
      else
        processed_item <- validate_types item [Gradient; Pattern] true ;;
        TreemapOptions_colors_loop value rest (checked_values ++ [processed_item])
  end.

Definition TreemapOptions_colors_setter : Setter := fun self value =>
  if negb (truthy value) then
    Ok (setattr self "_colors" PyNone)
  else
    items <- validators.iterable value ;;
    checked_values <- TreemapOptions_colors_loop value items [] ;;
    Ok (setattr self "_colors" (PyList checked_values)).

Definition TreemapOptions_own_properties : list (string * string) :=
  [("animationLimit", "_animation_limit");
   ("boostBlending", "_boost_blending");
   ("boostThreshold", "_boost_threshold");
   ("colorAxis", "_color_axis");
   ("colorKey", "_color_key");
   ("colors", "_colors");
   ("cropThreshold", "_crop_threshold");
   ("findNearestPointBy", "_find_nearest_point_by");
   ("getExtremesForAll", "_get_extremes_for_all");
   ("ignoreHiddenPoint", "_ignore_hidden_point");
   ("linecap", "_linecap");
   ("lineWidth", "_line_width");
   ("negativeColor", "_negative_color");
   ("pointInterval", "_point_interval");
   ("pointIntervalUnit", "_point_interval_unit");
   ("pointStart", "_point_start");
   ("relativeXValue", "_relative_x_value");
   ("softThreshold", "_soft_threshold");
   ("stacking", "_stacking");
   ("step", "_step");
   ("zoneAxis", "_zone_axis");
   ("zones", "_zones");
   ("colorIndex", "_color_index");
   ("crisp", "_crisp");
   ("allowTraversingTree", "_allow_traversing_tree");
   ("breadcrumbs", "_breadcrumbs");
   ("colorByPoint", "_color_by_point");
   ("levelIsConstant", "_level_is_constant");
   ("levels", "_levels");
   ("alternateStartingDirection", "_alternate_starting_direction");
   ("interactByLeaf", "_interact_by_leaf");
   ("layoutAlgorithm", "_layout_algorithm");
   ("layoutStartingDirection", "_layout_starting_direction");
   ("sortIndex", "_sort_index")].

(** The attributes the first lines of [TreemapOptions.__init__] create. *)
Definition TreemapOptions_initial : Self :=
  [("_animation_limit", PyNone); ("_boost_blending", PyNone);
   ("_boost_threshold", PyNone); ("_border_radius", PyNone);
   ("_color_axis", PyNone); ("_color_key", PyNone); ("_colors", PyNone);
   ("_crop_threshold", PyNone); ("_find_nearest_point_by", PyNone);
   ("_get_extremes_for_all", PyNone); ("_ignore_hidden_point", PyNone);
   ("_linecap", PyNone); ("_line_width", PyNone);
   ("_negative_color", PyNone); ("_point_interval", PyNone);
   ("_point_interval_unit", PyNone); ("_point_start", PyNone);
   ("_relative_x_value", PyNone); ("_soft_threshold", PyNone);
   ("_stacking", PyNone); ("_step", PyNone); ("_zone_axis", PyNone);
   ("_zones", PyNone); ("_color_by_point", PyNone);
   ("_color_index", PyNone); ("_crisp", PyNone);
   ("_allow_traversing_tree", PyNone); ("_breadcrumbs", PyNone);
   ("_level_is_constant", PyNone); ("_levels", PyNone);
   ("_alternate_starting_direction", PyNone); ("_interact_by_leaf", PyNone);
   ("_layout_algorithm", PyNone); ("_layout_starting_direction", PyNone);
   ("_sort_index", PyNone)].

Definition TreemapOptions_to_dict (self : Self) : Result Dict :=
  untrimmed <- read_properties TreemapOptions_own_properties self [] ;;
  parent <- super_one_argument (PyObj TreemapOptions self) ;;
  parent_as_dict <- GenericTypeOptions_to_dict parent ;;
  let untrimmed := copy_parent_items parent_as_dict untrimmed in
  Ok (trim_dict untrimmed).

End ComposedClasses.

(** ** The colour-valued fields *)

(** The colour-valued fields of the modelled classes. *)
Inductive ColorField : Type :=
| Zone_color | Zone_fill_color
| Legend_background_color | Legend_border_color
| HoverState_border_color | HoverState_color
| SelectState_border_color | SelectState_color
| HeatmapOptions_null_color.

(** The setter an assignment to the field runs: for [HoverState.color] and
    [SelectState.color] that is the second definition of the property. *)
Definition color_setter {env : Collaborators} (f : ColorField) : Setter :=
  match f with
  | Zone_color => Zone_color_setter
  | Zone_fill_color => Zone_fill_color_setter
  | Legend_background_color => Legend_background_color_setter
  | Legend_border_color => Legend_border_color_setter
  | HoverState_border_color => HoverState_border_color_setter
  | HoverState_color => HoverState_color_setter
  | SelectState_border_color => SelectState_border_color_setter
  | SelectState_color => SelectState_color_setter
  | HeatmapOptions_null_color => HeatmapOptions_null_color_setter
  end.

Definition color_attr (f : ColorField) : string :=
  match f with
  | Zone_color | HoverState_color | SelectState_color => "_color"
  | Zone_fill_color => "_fill_color"
  | Legend_background_color => "_background_color"
  | Legend_border_color | HoverState_border_color
  | SelectState_border_color => "_border_color"
  | HeatmapOptions_null_color => "_null_color"
  end.

(** The two fields whose resolving setter is replaced by a later
    definition of the same property. *)
Definition redefined (f : ColorField) : bool :=
  match f with
  | HoverState_color | SelectState_color => true
  | _ => false
  end.

(** ** Reference collaborators *)

(** Modelled from the spec: a reference behaviour for the classes that are
    not among the sources, used where the model is run on concrete inputs.
    A value object owns the mapping it was built from: [from_dict] and the
    constructor keep the entries they are given and [to_dict] returns them.
    The structured parse reads no input (it fails with a [ValueError], the
    parse failure of the resolver), and [float()] reads no text. *)
Definition reference_collaborators : Collaborators := {|
  float_ := fun _ => None;
  cls_from_json := fun _ _ => Raise (ValueError "no JSON document");
  cls_from_dict := fun _ d => Ok d;
  cls_init := fun _ kwargs => Ok kwargs;
  cls_to_dict := fun _ attrs => attrs
|}.

(** ** The claims of the specification, as predicates on the model *)

(** The enum-validator contract of the specification for a setter storing
    into [attr] with the allowed set [allowed]: a non-empty string is
    lower-cased and matched against the allowed set; a match is stored
    lower-cased, a mismatch raises an error whose message names every
    allowed value. *)
Definition lowercasing_enum (setter : Setter) (attr : string)
    (allowed : list string) : Prop :=
  forall (self : Self) (s : string),
    s <> "" ->
    if str_in (lower s) allowed
    then setter self (PyStr s) = Ok (setattr self attr (PyStr (lower s)))
    else exists msg,
           setter self (PyStr s) = Raise (HighchartsValueError msg) /\
           forallb (fun a => str_contains a msg) allowed = true.

(** An enum validator that matches the input as it was given. *)
Definition case_sensitive_enum (setter : Setter) (attr : string)
    (allowed : list string) : Prop :=
  forall (self : Self) (s : string),
    s <> "" ->
    if str_in s allowed
    then setter self (PyStr s) = Ok (setattr self attr (PyStr s))
    else exists msg, setter self (PyStr s) = Raise (HighchartsValueError msg).

(** The composition contract of the specification: on a key that both the
    class's own entries and the parent's mapping carry, the merged mapping
    holds the class's own value. *)
Definition child_wins (own parent_as_dict merged : Dict) : Prop :=
  forall k v, dict_get k own = Some v -> has_key k parent_as_dict = true ->
              dict_get k merged = Some v.

(** What the code does on such a key. *)
Definition parent_wins (own parent_as_dict merged : Dict) : Prop :=
  forall k, (has_key k parent_as_dict = true ->
             dict_get k merged = dict_get k parent_as_dict) /\
            (has_key k parent_as_dict = false ->
             dict_get k merged = dict_get k own).

(** Every item goes through the type check, in order; the first failure
    ends the loop. *)
Fixpoint check_each {env : Collaborators} (items : list PyVal)
  : Result (list PyVal) :=
  match items with
  | [] => Ok []
  | item :: rest =>
      processed_item <- validate_types item [Gradient; Pattern] true ;;
      checked <- check_each rest ;;
      Ok (processed_item :: checked)
  end.

(** ** Round trips *)

Section RoundTrip.
Context {env : Collaborators}.

(** A string that a resolving colour setter keeps as it is: it carries a
    discriminator, and the structured parse it triggers fails. *)
Definition kept_as_string (s : string) : Prop :=
  (str_contains "linearGradient" s = true /\
   exists e, from_json Gradient (PyStr s) = Raise e /\ is_ValueError e = true)
  \/
  (str_contains "linearGradient" s = false /\
   str_contains "patternOptions" s = true /\
   exists e, from_json Pattern (PyStr s) = Raise e /\ is_ValueError e = true).

(** The values the setters of [Zone] store. *)
Definition stored_color (c : PyVal) : Prop :=
  c = PyNone \/
  (exists attrs, c = PyObj Gradient attrs) \/
  (exists attrs, c = PyObj Pattern attrs) \/
  (exists s, c = PyStr s /\ s <> "" /\ kept_as_string s).

Definition stored_string (v : PyVal) : Prop :=
  v = PyNone \/ exists s, v = PyStr s /\ s <> "".

Definition stored_dash_style (v : PyVal) : Prop :=
  v = PyNone \/
  exists s, v = PyStr s /\ str_in s SUPPORTED_DASH_STYLE_VALUES = true.

Definition stored_number (v : PyVal) : Prop :=
  match v with
  | PyNone | PyBool _ | PyInt _ | PyFloat _ => True
  | _ => False
  end.

(** The states of a [Zone] that its constructor leaves behind. *)
Definition Zone_state (e : Self) : Prop :=
  exists class_name color dash_style fill_color value,
    e = [("_class_name", class_name); ("_color", color);
         ("_dash_style", dash_style); ("_fill_color", fill_color);
         ("_value", value)] /\
    stored_string class_name /\ stored_color color /\
    stored_dash_style dash_style /\ stored_color fill_color /\
    stored_number value.

(** The setters of [Zone], which every assignment to one of its
    properties runs. *)
Definition Zone_setters : list Setter :=
  [Zone_class_name_setter; Zone_color_setter; Zone_dash_style_setter;
   Zone_fill_color_setter; Zone_value_setter].

(** The instances of [Zone] a program can hold: built by the constructor,
    then changed by assignments to the properties. *)
Inductive Zone_built : Self -> Prop :=
| built_by_init (kwargs : Dict) (e : Self) :
    Zone_init kwargs = Ok e -> Zone_built e
| built_by_assignment (setter : Setter) (value : PyVal) (e e' : Self) :
    Zone_built e -> In setter Zone_setters -> setter e value = Ok e' ->
    Zone_built e'.



End RoundTrip.


(** * The rest of the option classes *)

(** ** Keyword tables *)

(** [d.get(k, default)]. *)
Definition dict_get_or (k : string) (default : PyVal) (d : Dict) : PyVal :=
  match dict_get k d with
  | Some v => v
  | None => default
  end.

(** The dict display [{<name>: as_dict.get(<key>, <default>), ...}]: like
    [pop_kwargs], but [as_dict] keeps its entries. *)
Fixpoint get_kwargs (fields : list (string * string * PyVal))
    (as_dict : Dict) (kwargs : Dict) : Dict :=
  match fields with
  | [] => kwargs
  | (name, key, default) :: rest =>
      get_kwargs rest as_dict (dict_set name (dict_get_or key default as_dict) kwargs)
  end.

Definition field_names (fields : list (string * string * PyVal)) : list string :=
  map (fun f => fst (fst f)) fields.

Definition field_keys (fields : list (string * string * PyVal)) : list string :=
  map (fun f => snd (fst f)) fields.

(** The entries of the dict display of [Zone.from_dict]. *)
Definition Zone_from_dict_fields : list (string * string * PyVal) :=
  [("class_name", "className", PyNone);
   ("color", "color", PyNone);
   ("dash_style", "dashStyle", PyNone);
   ("fill_color", "fillColor", PyNone);
   ("value", "value", PyNone)].

(** The entries of the dict display of [HoverState.from_dict]. *)
Definition HoverState_from_dict_fields : list (string * string * PyVal) :=
  [("animation", "animation", PyNone);
   ("border_color", "borderColor", PyNone);
   ("brightness", "brightness", PyFloat float_0_1);
   ("color", "color", PyNone);
   ("enabled", "enabled", PyBool true)].

(** The entries of the dict display of [SelectState.from_dict]. *)
Definition SelectState_from_dict_fields : list (string * string * PyVal) :=
  [("animation", "animation", PyNone);
   ("border_color", "borderColor", PyStr "#000000");
   ("color", "color", PyStr "#cccccc");
   ("enabled", "enabled", PyBool true)].

(** The entries of the dict display of [Legend.from_dict]. *)
Definition Legend_from_dict_fields : list (string * string * PyVal) :=
  [("accessibility", "accessibility", PyNone);
   ("align", "align", PyNone);
   ("align_columns", "alignColumns", PyNone);
   ("background_color", "backgroundColor", PyNone);
   ("border_color", "borderColor", PyNone);
   ("border_width", "borderWidth", PyNone);
   ("border_radius", "borderRadius", PyNone);
   ("bubble_legend", "bubbleLegend", PyNone);
   ("class_name", "className", PyNone);
   ("enabled", "enabled", PyNone);
   ("floating", "floating", PyNone);
   ("item_checkbox_style", "itemCheckboxStyle", PyNone);
   ("item_distance", "itemDistance", PyNone);
   ("item_hidden_style", "itemHiddenStyle", PyNone);
   ("item_hover_style", "itemHoverStyle", PyNone);
   ("item_margin_bottom", "itemMarginBottom", PyNone);
   ("item_margin_top", "itemMarginTop", PyNone);
   ("item_style", "itemStyle", PyNone);
   ("item_width", "itemWidth", PyNone);
   ("label_format", "labelFormat", PyNone);
   ("label_formatter", "labelFormatter", PyNone);
   ("layout", "layout", PyNone);
   ("margin", "margin", PyNone);
   ("max_height", "maxHeight", PyNone);
   ("navigation", "navigation", PyNone);
   ("padding", "padding", PyNone);
   ("reversed", "reversed", PyNone);
   ("rtl", "rtl", PyNone);
   ("shadow", "shadow", PyNone);
   ("square_symbol", "squareSymbol", PyNone);
   ("symbol_height", "symbolHeight", PyNone);
   ("symbol_padding", "symbolPadding", PyNone);
   ("symbol_radius", "symbolRadius", PyNone);
   ("symbol_width", "symbolWidth", PyNone);
   ("title", "title", PyNone);
   ("use_html", "useHTML", PyNone);
   ("vertical_align", "verticalAlign", PyNone);
   ("width", "width", PyNone);
   ("x", "x", PyNone);
   ("y", "y", PyNone)].

(** [HeatmapOptions._get_kwargs_from_dict]
    (highcharts/plot_options/heatmap.py): the keyword arguments, and what
    the pops leave of [as_dict]. *)
Definition HeatmapOptions_kwargs_fields : list (string * string * PyVal) :=
  [("accessibility", "accessibility", PyNone);
   ("allow_point_select", "allowPointSelect", PyBool false);
   ("animation", "animation", PyNone);
   ("class_name", "className", PyNone);
   ("clip", "clip", PyBool true);
   ("color", "color", PyNone);
   ("cursor", "cursor", PyNone);
   ("custom", "custom", PyNone);
   ("dash_style", "dashStyle", PyNone);
   ("data_labels", "dataLabels", PyNone);
   ("description", "description", PyNone);
   ("enable_mouse_tracking", "enableMouseTracking", PyBool true);
   ("events", "events", PyNone);
   ("include_in_data_export", "includeInDataExport", PyNone);
   ("keys", "keys", PyNone);
   ("label", "label", PyNone);
   ("linked_to", "linkedTo", PyNone);
   ("marker", "marker", PyNone);
   ("on_point", "onPoint", PyNone);
   ("opacity", "opacity", PyNone);
   ("point", "point", PyNone);
   ("point_description_formatter", "pointDescriptionFormatter", PyNone);
   ("selected", "selected", PyBool false);
   ("show_checkbox", "showCheckbox", PyBool false);
   ("show_in_legend", "showInLegend", PyNone);
   ("skip_keyboard_navigation", "skipKeyboardNavigation", PyNone);
   ("states", "states", PyNone);
   ("threshold", "threshold", PyNone);
   ("tooltip", "tooltip", PyNone);
   ("turbo_threshold", "turboThreshold", PyNone);
   ("visible", "visible", PyBool true);
   ("animation_limit", "animationLimit", PyNone);
   ("boost_blending", "boostBlending", PyNone);
   ("boost_threshold", "boostThreshold", PyInt 5000);
   ("color_axis", "colorAxis", PyNone);
   ("color_index", "colorIndex", PyNone);
   ("color_key", "colorKey", PyNone);
   ("connect_ends", "connectEnds", PyNone);
   ("connect_nulls", "connectNulls", PyBool false);
   ("crisp", "crisp", PyBool true);
   ("crop_threshold", "cropThreshold", PyInt 300);
   ("data_sorting", "dataSorting", PyNone);
   ("drag_drop", "dragDrop", PyNone);
   ("find_nearest_point_by", "findNearestPointBy", PyNone);
   ("get_extremes_for_all", "getExtremesForAll", PyBool false);
   ("linecap", "linecap", PyStr "round");
   ("line_width", "lineWidth", PyInt 2);
   ("negative_color", "negativeColor", PyNone);
   ("point_interval", "pointInterval", PyInt 1);
   ("point_interval_unit", "pointIntervalUnit", PyNone);
   ("point_placement", "pointPlacement", PyNone);
   ("point_start", "pointStart", PyInt 0);
   ("relative_x_value", "relativeXValue", PyBool false);
   ("shadow", "shadow", PyBool false);
   ("soft_threshold", "softThreshold", PyBool true);
   ("stacking", "stacking", PyNone);
   ("step", "step", PyNone);
   ("zone_axis", "zoneAxis", PyStr "y");
   ("zones", "zones", PyNone);
   ("border_radius", "borderRadius", PyNone);
   ("colsize", "colsize", PyNone);
   ("null_color", "nullColor", PyNone);
   ("point_padding", "pointPadding", PyNone);
   ("rowsize", "rowsize", PyNone)].

Definition HeatmapOptions_get_kwargs_from_dict (as_dict : Dict) : Dict * Dict :=
  pop_kwargs HeatmapOptions_kwargs_fields as_dict [].

(** [TreemapOptions._get_kwargs_from_dict]
    (highcharts/plot_options/treemap.py). *)
Definition TreemapOptions_kwargs_fields : list (string * string * PyVal) :=
  [("accessibility", "accessibility", PyNone);
   ("allow_point_select", "allowPointSelect", PyBool false);
   ("animation", "animation", PyNone);
   ("class_name", "className", PyNone);
   ("clip", "clip", PyBool true);
   ("color", "color", PyNone);
   ("cursor", "cursor", PyNone);
   ("custom", "custom", PyNone);
   ("dash_style", "dashStyle", PyNone);
   ("data_labels", "dataLabels", PyNone);
   ("description", "description", PyNone);
   ("enable_mouse_tracking", "enableMouseTracking", PyBool true);
   ("events", "events", PyNone);
   ("include_in_data_export", "includeInDataExport", PyNone);
   ("keys", "keys", PyNone);
   ("label", "label", PyNone);
   ("linked_to", "linkedTo", PyNone);
   ("marker", "marker", PyNone);
   ("on_point", "onPoint", PyNone);
   ("opacity", "opacity", PyNone);
   ("point", "point", PyNone);
   ("point_description_formatter", "pointDescriptionFormatter", PyNone);
   ("selected", "selected", PyBool false);
   ("show_checkbox", "showCheckbox", PyBool false);
   ("show_in_legend", "showInLegend", PyNone);
   ("skip_keyboard_navigation", "skipKeyboardNavigation", PyNone);
   ("states", "states", PyNone);
   ("threshold", "threshold", PyNone);
   ("tooltip", "tooltip", PyNone);
   ("turbo_threshold", "turboThreshold", PyNone);
   ("visible", "visible", PyBool true);
   ("animation_limit", "animationLimit", PyNone);
   ("boost_blending", "boostBlending", PyNone);
   ("boost_threshold", "boostThreshold", PyNone);
   ("color_axis", "colorAxis", PyNone);
   ("color_key", "colorKey", PyNone);
   ("colors", "colors", PyNone);
   ("crop_threshold", "cropThreshold", PyNone);
   ("find_nearest_point_by", "findNearestPointBy", PyNone);
   ("get_extremes_for_all", "getExtremesForAll", PyBool false);
   ("ignore_hidden_point", "ignoreHiddenPoint", PyBool true);
   ("linecap", "linecap", PyNone);
   ("line_width", "lineWidth", PyNone);
   ("negative_color", "negativeColor", PyNone);
   ("point_interval", "pointInterval", PyNone);
   ("point_interval_unit", "pointIntervalUnit", PyNone);
   ("point_start", "pointStart", PyNone);
   ("relative_x_value", "relativeXValue", PyNone);
   ("soft_threshold", "softThreshold", PyNone);
   ("stacking", "stacking", PyNone);
   ("step", "step", PyNone);
   ("zone_axis", "zoneAxis", PyNone);
   ("zones", "zones", PyNone);
   ("color_index", "colorIndex", PyNone);
   ("crisp", "crisp", PyNone);
   ("allow_traversing_tree", "allowTraversingTree", PyNone);
   ("breadcrumbs", "breadcrumbs", PyNone);
   ("color_by_point", "colorByPoint", PyNone);
   ("level_is_constant", "levelIsConstant", PyNone);
   ("levels", "levels", PyNone);
   ("alternate_starting_direction", "alternateStartingDirection", PyNone);
   ("interact_by_leaf", "interactByLeaf", PyNone);
   ("layout_algorithm", "layoutAlgorithm", PyNone);
   ("layout_starting_direction", "layoutStartingDirection", PyNone);
   ("sort_index", "sortIndex", PyNone)].

Definition TreemapOptions_get_kwargs_from_dict (as_dict : Dict) : Dict * Dict :=
  pop_kwargs TreemapOptions_kwargs_fields as_dict [].

(** [SunburstSeries._get_kwargs_from_dict]
    (highcharts/series/sunburst.py). *)
Definition SunburstSeries_kwargs_fields : list (string * string * PyVal) :=
  [("accessibility", "accessibility", PyNone);
   ("allow_point_select", "allowPointSelect", PyNone);
   ("animation", "animation", PyNone);
   ("class_name", "className", PyNone);
   ("clip", "clip", PyNone);
   ("color", "color", PyNone);
   ("cursor", "cursor", PyNone);
   ("custom", "custom", PyNone);
   ("dash_style", "dashStyle", PyNone);
   ("data_labels", "dataLabels", PyNone);
   ("description", "description", PyNone);
   ("enable_mouse_tracking", "enableMouseTracking", PyNone);
   ("events", "events", PyNone);
   ("include_in_data_export", "includeInDataExport", PyNone);
   ("keys", "keys", PyNone);
   ("label", "label", PyNone);
   ("linked_to", "linkedTo", PyNone);
   ("marker", "marker", PyNone);
   ("on_point", "onPoint", PyNone);
   ("opacity", "opacity", PyNone);
   ("point", "point", PyNone);
   ("point_description_formatter", "pointDescriptionFormatter", PyNone);
   ("selected", "selected", PyNone);
   ("show_checkbox", "showCheckbox", PyNone);
   ("show_in_legend", "showInLegend", PyNone);
   ("skip_keyboard_navigation", "skipKeyboardNavigation", PyNone);
   ("states", "states", PyNone);
   ("threshold", "threshold", PyNone);
   ("tooltip", "tooltip", PyNone);
   ("turbo_threshold", "turboThreshold", PyNone);
   ("visible", "visible", PyNone);
   ("animation_limit", "animationLimit", PyNone);
   ("boost_blending", "boostBlending", PyNone);
   ("boost_threshold", "boostThreshold", PyNone);
   ("color_axis", "colorAxis", PyNone);
   ("color_index", "colorIndex", PyNone);
   ("color_key", "colorKey", PyNone);
   ("connect_ends", "connectEnds", PyNone);
   ("connect_nulls", "connectNulls", PyNone);
   ("crisp", "crisp", PyNone);
   ("crop_threshold", "cropThreshold", PyNone);
   ("data_sorting", "dataSorting", PyNone);
   ("drag_drop", "dragDrop", PyNone);
   ("find_nearest_point_by", "findNearestPointBy", PyNone);
   ("get_extremes_for_all", "getExtremesForAll", PyNone);
   ("linecap", "linecap", PyNone);
   ("line_width", "lineWidth", PyNone);
   ("negative_color", "negativeColor", PyNone);
   ("point_interval", "pointInterval", PyNone);
   ("point_interval_unit", "pointIntervalUnit", PyNone);
   ("point_placement", "pointPlacement", PyNone);
   ("point_start", "pointStart", PyNone);
   ("relative_x_value", "relativeXValue", PyNone);
   ("shadow", "shadow", PyNone);
   ("soft_threshold", "softThreshold", PyNone);
   ("stacking", "stacking", PyNone);
   ("step", "step", PyNone);
   ("zone_axis", "zoneAxis", PyNone);
   ("zones", "zones", PyNone);
   ("data", "data", PyNone);
   ("id", "id", PyNone);
   ("index", "index", PyNone);
   ("legend_index", "legendIndex", PyNone);
   ("name", "name", PyNone);
   ("stack", "stack", PyNone);
   ("x_axis", "xAxis", PyNone);
   ("y_axis", "yAxis", PyNone);
   ("z_index", "zIndex", PyNone);
   ("allow_traversing_tree", "allowTraversingTree", PyNone);
   ("border_color", "borderColor", PyNone);
   ("border_width", "borderWidth", PyNone);
   ("breadcrumbs", "breadcrumbs", PyNone);
   ("center", "center", PyNone);
   ("color_by_point", "colorByPoint", PyNone);
   ("fill_color", "fillColor", PyNone);
   ("level_is_constant", "levelIsConstant", PyNone);
   ("levels", "levels", PyNone);
   ("level_size", "levelSize", PyNone);
   ("root_id", "rootId", PyNone);
   ("size", "size", PyNone);
   ("sliced_offset", "slicedOffset", PyNone);
   ("start_angle", "startAngle", PyNone)].

Definition SunburstSeries_get_kwargs_from_dict (as_dict : Dict) : Dict * Dict :=
  pop_kwargs SunburstSeries_kwargs_fields as_dict [].

(** [SankeyOptions._get_kwargs_from_dict]
    (highcharts_core/options/plot_options/sankey.py): built with
    [as_dict.get], so [as_dict] is left as it was. *)
Definition SankeyOptions_kwargs_fields : list (string * string * PyVal) :=
  [("accessibility", "accessibility", PyNone);
   ("allow_point_select", "allowPointSelect", PyNone);
   ("animation", "animation", PyNone);
   ("class_name", "className", PyNone);
   ("clip", "clip", PyNone);
   ("color", "color", PyNone);
   ("cursor", "cursor", PyNone);
   ("custom", "custom", PyNone);
   ("dash_style", "dashStyle", PyNone);
   ("data_labels", "dataLabels", PyNone);
   ("description", "description", PyNone);
   ("enable_mouse_tracking", "enableMouseTracking", PyNone);
   ("events", "events", PyNone);
   ("include_in_data_export", "includeInDataExport", PyNone);
   ("keys", "keys", PyNone);
   ("label", "label", PyNone);
   ("legend_symbol", "legendSymbol", PyNone);
   ("linked_to", "linkedTo", PyNone);
   ("marker", "marker", PyNone);
   ("on_point", "onPoint", PyNone);
   ("opacity", "opacity", PyNone);
   ("point", "point", PyNone);
   ("point_description_formatter", "pointDescriptionFormatter", PyNone);
   ("selected", "selected", PyNone);
   ("show_checkbox", "showCheckbox", PyNone);
   ("show_in_legend", "showInLegend", PyNone);
   ("skip_keyboard_navigation", "skipKeyboardNavigation", PyNone);
   ("sonification", "sonification", PyNone);
   ("states", "states", PyNone);
   ("sticky_tracking", "stickyTracking", PyNone);
   ("threshold", "threshold", PyNone);
   ("tooltip", "tooltip", PyNone);
   ("turbo_threshold", "turboThreshold", PyNone);
   ("visible", "visible", PyNone);
   ("border_color", "borderColor", PyNone);
   ("border_width", "borderWidth", PyNone);
   ("center", "center", PyNone);
   ("center_in_category", "centerInCategory", PyNone);
   ("color_by_point", "colorByPoint", PyNone);
   ("color_index", "colorIndex", PyNone);
   ("colors", "colors", PyNone);
   ("curve_factor", "curveFactor", PyNone);
   ("levels", "levels", PyNone);
   ("link_opacity", "linkOpacity", PyNone);
   ("min_link_width", "minLinkWidth", PyNone);
   ("node_padding", "nodePadding", PyNone);
   ("node_width", "nodeWidth", PyNone);
   ("start_angle", "startAngle", PyNone);
   ("link_color_mode", "linkColorMode", PyNone)].

Definition SankeyOptions_get_kwargs_from_dict (as_dict : Dict) : Dict :=
  get_kwargs SankeyOptions_kwargs_fields as_dict [].

(** ** InactiveState  (highcharts/utility_classes/states.py, lines 190-256) *)

(** The Python float [0.2], exactly. *)
Definition float_0_2 : Q := 3602879701896397 # 18014398509481984.

Section InactiveStateClass.
Context {env : Collaborators}.

Definition InactiveState_animation_setter : Setter := fun self value =>
  value <- class_sensitive AnimationOptions value ;;
  Ok (setattr self "_animation" value).

Definition InactiveState_enabled_setter : Setter := fun self value =>
  match value with
  | PyNone => Ok (setattr self "_enabled" PyNone)
  | _ => Ok (setattr self "_enabled" (PyBool (truthy value)))
  end.

Definition InactiveState_opacity_setter : Setter := fun self value =>
  v <- validators.numeric value true None ;;
  Ok (setattr self "_opacity" v).

(** The attributes the first lines of [InactiveState.__init__] create. *)
Definition InactiveState_initial : Self :=
  [("_animation", PyNone); ("_enabled", PyBool true);
   ("_opacity", PyFloat float_0_2)].

Definition InactiveState_init_fields : list (string * PyVal * Setter) :=
  [("animation", PyNone, InactiveState_animation_setter);
   ("enabled", PyBool true, InactiveState_enabled_setter);
   ("opacity", PyFloat float_0_2, InactiveState_opacity_setter)].

Definition InactiveState_init (kwargs : Dict) : Result Self :=
  r <- assign_kwargs InactiveState_init_fields InactiveState_initial kwargs ;;
  Ok (fst r).

(** The entries of the dict display of [InactiveState.from_dict]. *)
Definition InactiveState_from_dict_fields : list (string * string * PyVal) :=
  [("animation", "animation", PyNone);
   ("enabled", "enabled", PyBool true);
   ("opacity", "opacity", PyFloat float_0_2)].

Definition InactiveState_from_dict (as_dict : Dict) : Result Self :=
  InactiveState_init (fst (pop_kwargs InactiveState_from_dict_fields as_dict [])).

Definition InactiveState_properties : list (string * string) :=
  [("animation", "_animation");
   ("enabled", "_enabled");
   ("opacity", "_opacity")].

Definition InactiveState_to_dict (self : Self) : Result Dict :=
  untrimmed <- read_properties InactiveState_properties self [] ;;
  Ok (trim_dict untrimmed).

End InactiveStateClass.

(** ** AnimationOptions  (highcharts/utility_classes/animation.py) *)

(** The entries of the dict display of [AnimationOptions.from_dict]
    (lines 109-118). *)
Definition AnimationOptions_from_dict_fields : list (string * string * PyVal) :=
  [("complete", "complete", PyNone);
   ("defer", "defer", PyNone);
   ("duration", "duration", PyNone);
   ("easing", "easing", PyNone);
   ("step", "step", PyNone)].

(** The entries of [AnimationOptions._to_untrimmed_dict] (lines 120-129). *)
Definition AnimationOptions_properties : list (string * string) :=
  [("complete", "_complete");
   ("defer", "_defer");
   ("duration", "_duration");
   ("easing", "_easing");
   ("step", "_step")].


(** ** Property and assignment tables *)

(** The entries of the dict displays of the [to_dict] methods that build
    them in line, and the assignments of the constructors, as tables. *)
Definition HoverState_properties : list (string * string) :=
  [("animation", "_animation");
   ("borderColor", "_border_color");
   ("brightness", "_brightness");
   ("color", "_color");
   ("enabled", "_enabled")].

Definition SelectState_properties : list (string * string) :=
  [("animation", "_animation");
   ("borderColor", "_border_color");
   ("color", "_color");
   ("enabled", "_enabled")].

Definition Legend_properties : list (string * string) :=
  [("accessibility", "_accessibility");
   ("align", "_align");
   ("alignColumns", "_align_columns");
   ("backgroundColor", "_background_color");
   ("borderColor", "_border_color");
   ("borderWidth", "_border_width");
   ("borderRadius", "_border_radius");
   ("bubbleLegend", "_bubble_legend");
   ("className", "_class_name");
   ("enabled", "_enabled");
   ("floating", "_floating");
   ("itemCheckboxStyle", "_item_checkbox_style");
   ("itemDistance", "_item_distance");
   ("itemHiddenStyle", "_item_hidden_style");
   ("itemHoverStyle", "_item_hover_style");
   ("itemMarginBottom", "_item_margin_bottom");
   ("itemMarginTop", "_item_margin_top");
   ("itemStyle", "_item_style");
   ("itemWidth", "_item_width");
   ("labelFormat", "_label_format");
   ("labelFormatter", "_label_formatter");
   ("layout", "_layout");
   ("margin", "_margin");
   ("maxHeight", "_max_height");
   ("navigation", "_navigation");
   ("padding", "_padding");
   ("reversed", "_reversed");
   ("rtl", "_rtl");
   ("shadow", "_shadow");
   ("squareSymbol", "_square_symbol");
   ("symbolHeight", "_symbol_height");
   ("symbolPadding", "_symbol_padding");
   ("symbolRadius", "_symbol_radius");
   ("symbolWidth", "_symbol_width");
   ("title", "_title");
   ("useHTML", "_use_html");
   ("verticalAlign", "_vertical_align");
   ("width", "_width");
   ("x", "_x");
   ("y", "_y")].

(** The attributes the first lines of each [__init__] create. *)
Definition Zone_initial : Self :=
  [("_class_name", PyNone); ("_color", PyNone); ("_dash_style", PyNone);
   ("_fill_color", PyNone); ("_value", PyNone)].

Definition HoverState_initial : Self :=
  [("_animation", PyNone); ("_border_color", PyNone);
   ("_brightness", PyFloat float_0_1); ("_color", PyNone);
   ("_enabled", PyBool true)].

Definition SelectState_initial : Self :=
  [("_animation", PyNone); ("_border_color", PyNone); ("_color", PyNone);
   ("_enabled", PyBool true)].

Definition Legend_initial : Self :=
  [("_accessibility", PyNone); ("_align", PyNone);
   ("_align_columns", PyNone); ("_background_color", PyNone);
   ("_border_color", PyNone); ("_border_width", PyNone);
   ("_border_radius", PyNone); ("_bubble_legend", PyNone);
   ("_class_name", PyNone); ("_enabled", PyNone); ("_floating", PyNone);
   ("_item_checkbox_style", PyNone); ("_item_distance", PyNone);
   ("_item_hidden_style", PyNone); ("_item_hover_style", PyNone);
   ("_item_margin_bottom", PyNone); ("_item_margin_top", PyNone);
   ("_item_style", PyNone); ("_item_width", PyNone);
   ("_label_format", PyNone); ("_label_formatter", PyNone);
   ("_layout", PyNone); ("_margin", PyNone); ("_max_height", PyNone);
   ("_navigation", PyNone); ("_padding", PyNone); ("_reversed", PyNone);
   ("_rtl", PyNone); ("_shadow", PyNone); ("_square_symbol", PyNone);
   ("_symbol_height", PyNone); ("_symbol_padding", PyNone);
   ("_symbol_radius", PyNone); ("_symbol_width", PyNone);
   ("_title", PyNone); ("_use_html", PyNone); ("_vertical_align", PyNone);
   ("_width", PyNone); ("_x", PyNone); ("_y", PyNone)].

Section AssignmentTables.
Context {env : Collaborators}.

Definition Zone_init_fields : list (string * PyVal * Setter) :=
  [("class_name", PyNone, Zone_class_name_setter);
   ("color", PyNone, Zone_color_setter);
   ("dash_style", PyNone, Zone_dash_style_setter);
   ("fill_color", PyNone, Zone_fill_color_setter);
   ("value", PyNone, Zone_value_setter)].

Definition HoverState_init_fields : list (string * PyVal * Setter) :=
  [("animation", PyNone, HoverState_animation_setter);
   ("border_color", PyNone, HoverState_border_color_setter);
   ("brightness", PyFloat float_0_1, HoverState_brightness_setter);
   ("color", PyNone, HoverState_color_setter);
   ("enabled", PyBool true, HoverState_enabled_setter)].

Definition SelectState_init_fields : list (string * PyVal * Setter) :=
  [("animation", PyNone, SelectState_animation_setter);
   ("border_color", PyStr "#000000", SelectState_border_color_setter);
   ("color", PyStr "#cccccc", SelectState_color_setter);
   ("enabled", PyBool true, SelectState_enabled_setter)].

Definition Legend_init_fields : list (string * PyVal * Setter) :=
  [("accessibility", PyNone, Legend_accessibility_setter);
   ("align", PyNone, Legend_align_setter);
   ("align_columns", PyNone, Legend_align_columns_setter);
   ("background_color", PyNone, Legend_background_color_setter);
   ("border_color", PyNone, Legend_border_color_setter);
   ("border_width", PyNone, Legend_border_width_setter);
   ("border_radius", PyNone, Legend_border_radius_setter);
   ("bubble_legend", PyNone, Legend_bubble_legend_setter);
   ("class_name", PyNone, Legend_class_name_setter);
   ("enabled", PyNone, Legend_enabled_setter);
   ("floating", PyNone, Legend_floating_setter);
   ("item_checkbox_style", PyNone, Legend_item_checkbox_style_setter);
   ("item_distance", PyNone, Legend_item_distance_setter);
   ("item_hidden_style", PyNone, Legend_item_hidden_style_setter);
   ("item_hover_style", PyNone, Legend_item_hover_style_setter);
   ("item_margin_bottom", PyNone, Legend_item_margin_bottom_setter);
   ("item_margin_top", PyNone, Legend_item_margin_top_setter);
   ("item_style", PyNone, Legend_item_style_setter);
   ("item_width", PyNone, Legend_item_width_setter);
   ("label_format", PyNone, Legend_label_format_setter);
   ("label_formatter", PyNone, Legend_label_formatter_setter);
   ("layout", PyNone, Legend_layout_setter);
   ("margin", PyNone, Legend_margin_setter);
   ("max_height", PyNone, Legend_max_height_setter);
   ("navigation", PyNone, Legend_navigation_setter);
   ("padding", PyNone, Legend_padding_setter);
   ("reversed", PyNone, Legend_reversed_setter);
   ("rtl", PyNone, Legend_rtl_setter);
   ("shadow", PyNone, Legend_shadow_setter);
   ("square_symbol", PyNone, Legend_square_symbol_setter);
   ("symbol_height", PyNone, Legend_symbol_height_setter);
   ("symbol_padding", PyNone, Legend_symbol_padding_setter);
   ("symbol_radius", PyNone, Legend_symbol_radius_setter);
   ("symbol_width", PyNone, Legend_symbol_width_setter);
   ("title", PyNone, Legend_title_setter);
   ("use_html", PyNone, Legend_use_html_setter);
   ("vertical_align", PyNone, Legend_vertical_align_setter);
   ("width", PyNone, Legend_width_setter);
   ("x", PyNone, Legend_x_setter);
   ("y", PyNone, Legend_y_setter)].

End AssignmentTables.

(** The option classes whose keyword table and own property table are both
    modelled. *)
Inductive OptionClass : Type :=
| Zone_class | HoverState_class | InactiveState_class | SelectState_class
| Legend_class
| HeatmapOptions_class | TreemapOptions_class | SankeyOptions_class
| SunburstSeries_class | AnimationOptions_class.

(** The table of the class's [from_dict] or [_get_kwargs_from_dict]. *)
Definition kwargs_fields (c : OptionClass) : list (string * string * PyVal) :=
  match c with
  | Zone_class => Zone_from_dict_fields
  | HoverState_class => HoverState_from_dict_fields
  | InactiveState_class => InactiveState_from_dict_fields
  | SelectState_class => SelectState_from_dict_fields
  | Legend_class => Legend_from_dict_fields
  | HeatmapOptions_class => HeatmapOptions_kwargs_fields
  | TreemapOptions_class => TreemapOptions_kwargs_fields
  | SankeyOptions_class => SankeyOptions_kwargs_fields
  | SunburstSeries_class => SunburstSeries_kwargs_fields
  | AnimationOptions_class => AnimationOptions_from_dict_fields
  end.

(** The entries the class's own [to_dict] (or [_to_untrimmed_dict]) writes
    in line; [SunburstSeries] writes none, its mapping is the result of
    [mro_to_dict]. *)
Definition own_properties (c : OptionClass) : list (string * string) :=
  match c with
  | Zone_class => Zone_properties
  | HoverState_class => HoverState_properties
  | InactiveState_class => InactiveState_properties
  | SelectState_class => SelectState_properties
  | Legend_class => Legend_properties
  | HeatmapOptions_class => HeatmapOptions_own_properties
  | TreemapOptions_class => TreemapOptions_own_properties
  | SankeyOptions_class => [("linkColorMode", "_link_color_mode")]
  | SunburstSeries_class => []
  | AnimationOptions_class => AnimationOptions_properties
  end.

(** The keyword arguments the class extracts from a mapping. *)
Definition extracted_kwargs (c : OptionClass) (as_dict : Dict) : Dict :=
  match c with
  | SankeyOptions_class => get_kwargs (kwargs_fields c) as_dict []
  | _ => fst (pop_kwargs (kwargs_fields c) as_dict [])
  end.

(** What the extraction leaves of the caller's mapping. *)
Definition left_in_mapping (c : OptionClass) (as_dict : Dict) : Dict :=
  match c with
  | SankeyOptions_class => as_dict
  | _ => snd (pop_kwargs (kwargs_fields c) as_dict [])
  end.

Section Constructors.
Context {env : Collaborators}.

(** The classes whose [from_dict] and [__init__] are both modelled: the
    class method, the attributes [__init__] creates first, and the
    assignments it makes then. *)
Definition constructed (c : OptionClass)
  : option ((Dict -> Result Self) * Self * list (string * PyVal * Setter)) :=
  match c with
  | Zone_class => Some (Zone_from_dict, Zone_initial, Zone_init_fields)
  | HoverState_class =>
      Some (HoverState_from_dict, HoverState_initial, HoverState_init_fields)
  | InactiveState_class =>
      Some (InactiveState_from_dict, InactiveState_initial,
            InactiveState_init_fields)
  | SelectState_class =>
      Some (SelectState_from_dict, SelectState_initial, SelectState_init_fields)
  | Legend_class => Some (Legend_from_dict, Legend_initial, Legend_init_fields)
  | _ => None
  end.

End Constructors.


(** ** The states of a Legend *)

Section LegendStates.
Context {env : Collaborators}.

Definition none_or_bool (v : PyVal) : Prop :=
  match v with
  | PyNone | PyBool _ => True
  | _ => False
  end.

(** [None], or a number that is not below zero. *)
Definition none_or_nonnegative (v : PyVal) : Prop :=
  match v with
  | PyNone => True
  | _ => match validators.as_Q v with
         | Some q => Qle_bool 0 q = true
         | None => False
         end
  end.

Definition none_or_one_of (allowed : list string) (v : PyVal) : Prop :=
  v = PyNone \/ py_str_in v allowed = true.

Definition none_or_instance (c : Class) (v : PyVal) : Prop :=
  v = PyNone \/ exists attrs, v = PyObj c attrs.

Definition shadow_value (v : PyVal) : Prop :=
  v = PyNone \/ v = PyBool false \/ exists attrs, v = PyObj ShadowOptions attrs.

(** What each setter of [Legend] stores into its attribute. *)
Definition Legend_ranges : list (string * (PyVal -> Prop)) :=
  [("_accessibility", none_or_instance LegendAccessibilityOptions);
   ("_align", none_or_one_of ["left"; "center"; "right"]);
   ("_align_columns", none_or_bool);
   ("_background_color", stored_color);
   ("_border_color", stored_color);
   ("_border_width", stored_number);
   ("_border_radius", stored_number);
   ("_bubble_legend", none_or_instance BubbleLegend);
   ("_class_name", stored_string);
   ("_enabled", none_or_bool);
   ("_floating", none_or_bool);
   ("_item_checkbox_style", stored_string);
   ("_item_distance", none_or_nonnegative);
   ("_item_hidden_style", stored_string);
   ("_item_hover_style", stored_string);
   ("_item_margin_bottom", none_or_nonnegative);
   ("_item_margin_top", none_or_nonnegative);
   ("_item_style", stored_string);
   ("_item_width", none_or_nonnegative);
   ("_label_format", stored_string);
   ("_label_formatter", none_or_instance CallbackFunction);
   ("_layout", none_or_one_of ["horizontal"; "vertical"; "proximate"]);
   ("_margin", stored_number);
   ("_max_height", none_or_nonnegative);
   ("_navigation", none_or_instance LegendNavigation);
   ("_padding", stored_number);
   ("_reversed", none_or_bool);
   ("_rtl", none_or_bool);
   ("_shadow", shadow_value);
   ("_square_symbol", none_or_bool);
   ("_symbol_height", none_or_nonnegative);
   ("_symbol_padding", stored_number);
   ("_symbol_radius", stored_number);
   ("_symbol_width", none_or_nonnegative);
   ("_title", none_or_instance LegendTitle);
   ("_use_html", none_or_bool);
   ("_vertical_align", none_or_one_of ["bottom"; "middle"; "top"]);
   ("_width", stored_string);
   ("_x", eq PyNone);
   ("_y", eq PyNone)].

Definition Legend_range (attr : string) : PyVal -> Prop :=
  match find (fun p => (fst p =? attr)%string) Legend_ranges with
  | Some p => snd p
  | None => fun _ => True
  end.

(** A [Legend] has the forty attributes of its constructor, each within
    the range of its setter. *)
Definition Legend_state (e : Self) : Prop :=
  dict_keys e = dict_keys Legend_initial /\
  forall attr x, dict_get attr e = Some x -> Legend_range attr x.

(** The instances of [Legend] a program can hold: built by the
    constructor, then changed by assignments to the properties. *)
Inductive Legend_built : Self -> Prop :=
| Legend_built_by_init (kwargs : Dict) (e : Self) :
    Legend_init kwargs = Ok e -> Legend_built e
| Legend_built_by_assignment (name : string) (default : PyVal)
    (setter : Setter) (value : PyVal) (e e' : Self) :
    Legend_built e -> In (name, default, setter) Legend_init_fields ->
    setter e value = Ok e' -> Legend_built e'.

End LegendStates.


(** ** The common shape of the resolving colour setters *)

Section Resolver.
Context {env : Collaborators}.

(** The body that the source repeats for every resolving colour setter,
    with the attribute it assigns to and the error of its last branch as
    parameters. *)
Definition resolving_setter (attr : string) (unresolved : PyExc) : Setter :=
  fun self value =>
  if negb (truthy value) then
    Ok (setattr self attr PyNone)
  else if isinstance value [Gradient; Pattern] then
    Ok (setattr self attr value)
  else if ((is_dict value || is_str value) && py_in "linearGradient" value)%bool then
    v <- try_except_ValueError (from_json Gradient value)
           (if is_dict value then from_dict Gradient value
            else validators.string value false) ;;
    Ok (setattr self attr v)
  else if (is_dict value && py_in "linear_gradient" value)%bool then
    v <- construct Gradient value ;;
    Ok (setattr self attr v)
  else if ((is_dict value || is_str value) && py_in "patternOptions" value)%bool then
    v <- try_except_ValueError (from_json Pattern value)
           (if is_dict value then from_dict Pattern value
            else validators.string value false) ;;
    Ok (setattr self attr v)
  else if (is_dict value && py_in "pattern_options" value)%bool then
    v <- construct Pattern value ;;
    Ok (setattr self attr v)
  else Raise unresolved.

(** [TreemapOptions.negative_color]'s setter
    (highcharts/plot_options/treemap.py, lines 579-609). *)
Definition TreemapOptions_negative_color_setter : Setter := fun self value =>
  if negb (truthy value) then
    Ok (setattr self "_negative_color" PyNone)
  else if isinstance value [Gradient; Pattern] then
    Ok (setattr self "_negative_color" value)
  else if ((is_dict value || is_str value) && py_in "linearGradient" value)%bool then
    v <- try_except_ValueError (from_json Gradient value)
           (if is_dict value then from_dict Gradient value
            else validators.string value false) ;;
    Ok (setattr self "_negative_color" v)
  else if (is_dict value && py_in "linear_gradient" value)%bool then
    v <- construct Gradient value ;;
    Ok (setattr self "_negative_color" v)
  else if ((is_dict value || is_str value) && py_in "patternOptions" value)%bool then
    v <- try_except_ValueError (from_json Pattern value)
           (if is_dict value then from_dict Pattern value
            else validators.string value false) ;;
    Ok (setattr self "_negative_color" v)
  else if (is_dict value && py_in "pattern_options" value)%bool then
    v <- construct Pattern value ;;
    Ok (setattr self "_negative_color" v)
  else Raise (HighchartsValueError
    "Unable to resolve value to an EnforcedNullType, string, Gradient, or Pattern. Value received was: {value}").

End Resolver.

(** ** More setters of the composed option classes *)

Definition stacking_error : PyExc :=
  HighchartsValueError
    "stacking expects a valid stacking value. However, received: {value}".

Section MoreSetters.
Context {env : Collaborators}.

(** [HeatmapOptions.border_radius]  (heatmap.py, lines 51-55). *)
Definition HeatmapOptions_border_radius_setter : Setter := fun self value =>
  v <- validators.numeric value true (Some 0%Q) ;;
  Ok (setattr self "_border_radius" v).

(** [HeatmapOptions.point_padding]  (heatmap.py, lines 121-123). *)
Definition HeatmapOptions_point_padding_setter : Setter := fun self value =>
  v <- validators.numeric value true None ;;
  Ok (setattr self "_point_padding" v).

(** [TreemapOptions.line_width]  (treemap.py, lines 558-562). *)
Definition TreemapOptions_line_width_setter : Setter := fun self value =>
  v <- validators.numeric value true (Some 0%Q) ;;
  Ok (setattr self "_line_width" v).

(** [TreemapOptions.point_interval]  (treemap.py, lines 641-645). *)
Definition TreemapOptions_point_interval_setter : Setter := fun self value =>
  v <- validators.numeric value true (Some 0%Q) ;;
  Ok (setattr self "_point_interval" v).

(** [TreemapOptions.point_start]  (treemap.py, lines 689-691). *)
Definition TreemapOptions_point_start_setter : Setter := fun self value =>
  v <- validators.numeric value true None ;;
  Ok (setattr self "_point_start" v).

(** [TreemapOptions.stacking]  (treemap.py, lines 775-785). *)
Definition TreemapOptions_stacking_setter : Setter := fun self value =>
  if negb (truthy value) then
    Ok (setattr self "_stacking" PyNone)
  else
    value <- validators.string value false ;;
    value <- py_lower value ;;
    if negb (py_str_in value ["normal"; "percent"; "stream"; "overlap"]) then
      Raise stacking_error
    else Ok (setattr self "_stacking" value).

(** The numeric setters that pass [minimum = 0], with the attribute each
    assigns to. *)
Definition nonnegative_setters : list (string * Setter) :=
  [("_item_distance", Legend_item_distance_setter);
   ("_item_margin_bottom", Legend_item_margin_bottom_setter);
   ("_item_margin_top", Legend_item_margin_top_setter);
   ("_item_width", Legend_item_width_setter);
   ("_max_height", Legend_max_height_setter);
   ("_symbol_height", Legend_symbol_height_setter);
   ("_symbol_width", Legend_symbol_width_setter);
   ("_border_radius", HeatmapOptions_border_radius_setter);
   ("_line_width", TreemapOptions_line_width_setter);
   ("_point_interval", TreemapOptions_point_interval_setter)].

(** The numeric setters that pass no bound. *)
Definition unbounded_setters : list (string * Setter) :=
  [("_value", Zone_value_setter);
   ("_brightness", HoverState_brightness_setter);
   ("_opacity", InactiveState_opacity_setter);
   ("_border_radius", Legend_border_radius_setter);
   ("_border_width", Legend_border_width_setter);
   ("_margin", Legend_margin_setter);
   ("_padding", Legend_padding_setter);
   ("_symbol_padding", Legend_symbol_padding_setter);
   ("_symbol_radius", Legend_symbol_radius_setter);
   ("_point_padding", HeatmapOptions_point_padding_setter);
   ("_point_start", TreemapOptions_point_start_setter)].

End MoreSetters.

Section ResolvingSetters.
Context {env : Collaborators}.

(** The setters that resolve their value to a colour, with the attribute
    each assigns to: the effective ones, and the first definitions of
    [color] in the two state classes. *)
Definition resolving_setters : list (string * Setter) :=
  [("_color", Zone_color_setter);
   ("_fill_color", Zone_fill_color_setter);
   ("_background_color", Legend_background_color_setter);
   ("_border_color", Legend_border_color_setter);
   ("_border_color", HoverState_border_color_setter);
   ("_color", HoverState_color_setter_first);
   ("_border_color", SelectState_border_color_setter);
   ("_color", SelectState_color_setter_first);
   ("_null_color", HeatmapOptions_null_color_setter);
   ("_negative_color", TreemapOptions_negative_color_setter)].

End ResolvingSetters.


(** * Properties *)

(** ** The model on concrete inputs *)

Example lower_LEFT : lower "LEFT" = "left".
Proof. reflexivity. Qed.

Example discriminator_in_text :
  py_in "linearGradient" (PyStr "#FF0000") = false /\
  py_in "linearGradient" (PyStr "{'linearGradient': 1}") = true /\
  py_in "linearGradient" (PyDict [("linearGradient", PyDict [])]) = true /\
  py_in "linearGradient" (PyDict [("linear_gradient", PyDict [])]) = false.
Proof. repeat split; reflexivity. Qed.

Example trim_dict_drops_empty_values :
  @trim_dict reference_collaborators
    [("a", PyNone); ("b", PyDict [("c", PyNone)]); ("d", PyList []);
     ("e", PyInt 0); ("f", PyBool false); ("g", PyDict [("h", PyStr "x")])]
  = [("e", PyInt 0); ("f", PyBool false); ("g", PyDict [("h", PyStr "x")])].
Proof. reflexivity. Qed.

Example Zone_from_dict_ignores_unknown_keys :
  @Zone_from_dict reference_collaborators
    [("totallyUnknownKey", PyInt 1); ("value", PyInt 3)]
  = Ok [("_class_name", PyNone); ("_color", PyNone); ("_dash_style", PyNone);
        ("_fill_color", PyNone); ("_value", PyInt 3)].
Proof. reflexivity. Qed.

(** A string is kept only on the fallback path: it carries a discriminator
    and its structured parse fails. *)
Example Zone_color_fallback_string :
  @Zone_color_setter reference_collaborators [("_color", PyNone)]
    (PyStr "linearGradient")
  = Ok [("_color", PyStr "linearGradient")] /\
  @Zone_color_setter reference_collaborators [("_color", PyNone)]
    (PyStr "#FF0000")
  = Raise unresolved_color.
Proof. split; reflexivity. Qed.

(** The defaults of [SelectState] do not pass its own setters: the default
    border colour is a plain colour string. *)
Example SelectState_default_construction_raises :
  @SelectState_init reference_collaborators [] = Raise unresolved_color.
Proof. reflexivity. Qed.

(** ** Shared lemmas *)

Lemma nonempty_truthy (s : string) : s <> "" -> truthy (PyStr s) = true.
Proof.
  intros H. simpl. destruct (String.eqb_spec s ""); [contradiction | reflexivity].
Qed.

Ltac unfold_color_setters :=
  unfold Zone_color_setter, Zone_fill_color_setter,
    Legend_background_color_setter, Legend_border_color_setter,
    HoverState_border_color_setter, HoverState_color_setter,
    SelectState_border_color_setter, SelectState_color_setter,
    HeatmapOptions_null_color_setter.

(** *** Lookups in merged and trimmed mappings *)

Lemma dict_get_dict_set (k k' : string) (v : PyVal) (d : Dict) :
  dict_get k (dict_set k' v d) = if (k' =? k)%string then Some v else dict_get k d.
Proof.
  induction d as [ | [k0 v0] rest IH]; simpl.
  - destruct (k' =? k)%string; reflexivity.
  - destruct (String.eqb_spec k0 k') as [-> | Hne]; simpl.
    + destruct (k' =? k)%string; reflexivity.
    + destruct (String.eqb_spec k0 k) as [-> | Hne'].
      * destruct (String.eqb_spec k' k); [congruence | reflexivity].
      * exact IH.
Qed.

Lemma has_key_keys (k : string) (d : Dict) :
  existsb (String.eqb k) (dict_keys d) = has_key k d.
Proof.
  unfold has_key. induction d as [ | [k0 v0] rest IH]; simpl; [reflexivity | ].
  rewrite (String.eqb_sym k k0).
  destruct (k0 =? k)%string; [reflexivity | exact IH].
Qed.

Lemma dict_get_copied (p : Dict) (keys : list string) (own : Dict) (k : string) :
  dict_get k
    (fold_left
       (fun untrimmed key =>
          match dict_get key p with
          | Some v => dict_set key v untrimmed
          | None => untrimmed
          end) keys own)
  = if (existsb (String.eqb k) keys && has_key k p)%bool
    then dict_get k p else dict_get k own.
Proof.
  revert own. induction keys as [ | key keys IH]; intros own; simpl;
    [reflexivity | ].
  rewrite IH. unfold has_key.
  destruct (String.eqb_spec k key) as [-> | Hne]; simpl.
  - destruct (dict_get key p) as [v | ] eqn:Hp.
    + rewrite dict_get_dict_set, String.eqb_refl.
      destruct (existsb _ keys); reflexivity.
    + rewrite Bool.andb_false_r. reflexivity.
  - destruct (existsb (String.eqb k) keys && _)%bool; [reflexivity | ].
    destruct (dict_get key p); [ | reflexivity].
    rewrite dict_get_dict_set.
    destruct (String.eqb_spec key k); [congruence | reflexivity].
Qed.

Lemma copy_parent_items_parent_wins (own parent_as_dict : Dict) :
  parent_wins own parent_as_dict (copy_parent_items parent_as_dict own).
Proof.
  intros k. unfold copy_parent_items. rewrite dict_get_copied, has_key_keys.
  split; intros ->; reflexivity.
Qed.

Lemma dict_get_absent (k : string) (d : Dict) :
  ~ In k (dict_keys d) -> dict_get k d = None.
Proof.
  induction d as [ | [k0 v0] rest IH]; simpl; [reflexivity | ].
  intros H. destruct (String.eqb_spec k0 k); [tauto | apply IH; tauto].
Qed.

Lemma dict_keys_trim_dict {env : Collaborators} (k : string) (d : Dict) :
  In k (dict_keys (trim_dict d)) -> In k (dict_keys d).
Proof.
  induction d as [ | [k0 v0] rest IH]; simpl; [tauto | ].
  destruct (is_empty (trim_value v0)); simpl; tauto.
Qed.

Lemma dict_get_trim_dict {env : Collaborators} (k : string) (d : Dict) :
  NoDup (dict_keys d) ->
  dict_get k (trim_dict d)
  = match dict_get k d with
    | Some v => if is_empty (trim_value v) then None else Some (trim_value v)
    | None => None
    end.
Proof.
  induction d as [ | [k0 v0] rest IH]; simpl; [reflexivity | ].
  intros Hnd. inversion Hnd as [ | ? ? Hnotin Hrest]; subst.
  destruct (String.eqb_spec k0 k) as [-> | Hne].
  - destruct (is_empty (trim_value v0)); simpl.
    + apply dict_get_absent. intros Hin. apply Hnotin.
      eapply dict_keys_trim_dict; eauto.
    + rewrite String.eqb_refl. reflexivity.
  - destruct (is_empty (trim_value v0)); simpl.
    + auto.
    + destruct (String.eqb_spec k0 k); [congruence | auto].
Qed.

Lemma dict_keys_dict_set (k : string) (v : PyVal) (d : Dict) :
  dict_keys (dict_set k v d)
  = if has_key k d then dict_keys d else (dict_keys d ++ [k])%list.
Proof.
  unfold has_key. induction d as [ | [k0 v0] rest IH]; simpl; [reflexivity | ].
  destruct (k0 =? k)%string; simpl; [reflexivity | ].
  rewrite IH. destruct (dict_get k rest); reflexivity.
Qed.

Lemma has_key_false_not_in (k : string) (d : Dict) :
  has_key k d = false -> ~ In k (dict_keys d).
Proof.
  unfold has_key. induction d as [ | [k0 v0] rest IH]; simpl; [tauto | ].
  destruct (String.eqb_spec k0 k); [discriminate | ].
  intros H [Heq | Hin]; [congruence | exact (IH H Hin)].
Qed.

Lemma NoDup_dict_set (k : string) (v : PyVal) (d : Dict) :
  NoDup (dict_keys d) -> NoDup (dict_keys (dict_set k v d)).
Proof.
  intros H. rewrite dict_keys_dict_set.
  destruct (has_key k d) eqn:Hk; [exact H | ].
  apply NoDup_app; [exact H | repeat constructor; simpl; tauto | ].
  intros x Hx [<- | []]. exact (has_key_false_not_in _ _ Hk Hx).
Qed.

Lemma NoDup_copy_parent_items (p own : Dict) :
  NoDup (dict_keys own) -> NoDup (dict_keys (copy_parent_items p own)).
Proof.
  unfold copy_parent_items. generalize (dict_keys p). intros keys.
  revert own. induction keys as [ | key keys IH]; intros own H; simpl; [exact H | ].
  apply IH. destruct (dict_get key p); [apply NoDup_dict_set | ]; exact H.
Qed.

Lemma NoDup_read_properties (fields : list (string * string)) (self : Self)
    (acc d : Dict) :
  read_properties fields self acc = Ok d ->
  NoDup (dict_keys acc) -> NoDup (dict_keys d).
Proof.
  revert acc. induction fields as [ | [key attr] rest IH]; intros acc; simpl.
  - intros H. injection H as <-. auto.
  - destruct (getattr self attr); simpl; [ | discriminate].
    intros H Hnd. eapply IH; eauto using NoDup_dict_set.
Qed.

(** ** Colour resolution *)

(** C1, as the code has it: a plain, non-empty colour string without a
    discriminator is refused by every resolving colour setter (the final
    branch raises), not stored; only the two redefined [color] properties
    keep it. *)
Theorem plain_color_string_rejected {env : Collaborators}
    (f : ColorField) (self : Self) (s : string) :
  s <> "" ->
  str_contains "linearGradient" s = false ->
  str_contains "patternOptions" s = false ->
  if redefined f
  then color_setter f self (PyStr s) = Ok (setattr self (color_attr f) (PyStr s))
  else exists msg, color_setter f self (PyStr s) = Raise (HighchartsValueError msg).
Proof.
  intros Hne Hg Hp.
  pose proof (nonempty_truthy s Hne) as Ht.
  destruct f; cbn [redefined color_setter color_attr];
    unfold Zone_color_setter, Zone_fill_color_setter,
      Legend_background_color_setter, Legend_border_color_setter,
      HoverState_border_color_setter, HoverState_color_setter,
      SelectState_border_color_setter, SelectState_color_setter,
      HeatmapOptions_null_color_setter, validators.string;
    rewrite Ht; cbn [negb isinstance is_dict is_str py_in orb andb bind];
    rewrite ?Hg, ?Hp; cbn [andb]; try reflexivity; eexists; reflexivity.
Qed.

Lemma plain_color_string_rejected_witness :
  "#FF0000" <> "" /\
  str_contains "linearGradient" "#FF0000" = false /\
  str_contains "patternOptions" "#FF0000" = false /\
  exists msg,
    @color_setter reference_collaborators Zone_color [("_color", PyNone)]
      (PyStr "#FF0000")
    = Raise (HighchartsValueError msg).
Proof.
  split; [discriminate | split; [reflexivity | split; [reflexivity | ]]].
  apply (@plain_color_string_rejected reference_collaborators Zone_color
           [("_color", PyNone)] "#FF0000");
    [discriminate | reflexivity | reflexivity].
Defined.

(** C4, as the code has it: the colour fields do not share one resolver.
    The first definitions of [HoverState.color] and [SelectState.color] are
    the resolver of [Zone.color], but the effective, second definitions are
    plain string validators: they keep a plain colour string that
    [Zone.color] refuses, and refuse the instances and mappings that
    [Zone.color] resolves. *)
Theorem redefined_color_setters_differ {env : Collaborators} (self : Self) :
  (forall value,
      HoverState_color_setter_first self value = Zone_color_setter self value /\
      SelectState_color_setter_first self value = Zone_color_setter self value) /\
  (Zone_color_setter self (PyStr "#FF0000") = Raise unresolved_color /\
   HoverState_color_setter self (PyStr "#FF0000")
   = Ok (setattr self "_color" (PyStr "#FF0000")) /\
   SelectState_color_setter self (PyStr "#FF0000")
   = Ok (setattr self "_color" (PyStr "#FF0000"))) /\
  (forall attrs,
      Zone_color_setter self (PyObj Gradient attrs)
      = Ok (setattr self "_color" (PyObj Gradient attrs)) /\
      HoverState_color_setter self (PyObj Gradient attrs) = Raise CannotCoerceError /\
      SelectState_color_setter self (PyObj Gradient attrs) = Raise CannotCoerceError) /\
  (forall k v d,
      HoverState_color_setter self (PyDict ((k, v) :: d)) = Raise CannotCoerceError /\
      SelectState_color_setter self (PyDict ((k, v) :: d)) = Raise CannotCoerceError).
Proof.
  repeat split; reflexivity.
Qed.

(** C6, as the code has it: on a mapping that carries [linearGradient]
    (whether or not it also carries [patternOptions]) a resolving colour
    setter runs the gradient branch and stores nothing but a [Gradient]
    instance, and it stores a [Gradient] or [Pattern] instance unchanged; the
    two redefined [color] properties refuse the mapping and the instances. *)
Theorem gradient_inputs_resolve_or_are_refused {env : Collaborators}
    (f : ColorField) (self : Self) (d : Dict) :
  has_key "linearGradient" d = true ->
  if redefined f then
    color_setter f self (PyDict d) = Raise CannotCoerceError /\
    (forall attrs,
        color_setter f self (PyObj Gradient attrs) = Raise CannotCoerceError /\
        color_setter f self (PyObj Pattern attrs) = Raise CannotCoerceError)
  else
    color_setter f self (PyDict d)
    = (v <- try_except_ValueError (from_json Gradient (PyDict d))
              (from_dict Gradient (PyDict d)) ;;
       Ok (setattr self (color_attr f) v)) /\
    match color_setter f self (PyDict d) with
    | Ok self' => exists attrs, self' = setattr self (color_attr f) (PyObj Gradient attrs)
    | Raise _ => True
    end /\
    (forall attrs,
        color_setter f self (PyObj Gradient attrs)
        = Ok (setattr self (color_attr f) (PyObj Gradient attrs)) /\
        color_setter f self (PyObj Pattern attrs)
        = Ok (setattr self (color_attr f) (PyObj Pattern attrs))).
Proof.
  intros Hk.
  assert (Ht : truthy (PyDict d) = true) by (destruct d; [discriminate | reflexivity]).
  assert (Hres : forall v,
             try_except_ValueError (from_json Gradient (PyDict d))
               (from_dict Gradient (PyDict d)) = Ok v ->
             exists attrs, v = PyObj Gradient attrs).
  { intros v. unfold try_except_ValueError.
    destruct (from_json Gradient (PyDict d)) as [g | e] eqn:Hj.
    - intros H. injection H as <-. unfold from_json in Hj.
      destruct (cls_from_json Gradient (PyDict d)); simpl in Hj;
        [injection Hj as <-; eauto | discriminate].
    - destruct (is_ValueError e); [ | discriminate].
      unfold from_dict. destruct (cls_from_dict Gradient d); simpl;
        intros H; [injection H as <-; eauto | discriminate]. }
  destruct f; cbn [redefined color_setter color_attr]; unfold_color_setters;
    unfold validators.string; rewrite ?Ht;
    cbn [negb isinstance is_dict is_str orb andb py_in truthy existsb Class_eqb bind];
    rewrite ?Hk; cbn [andb is_dict];
    try (split; [reflexivity | split; [ | intros attrs; split; reflexivity]];
         destruct (try_except_ValueError _ _) as [v | e] eqn:Hv; simpl; [ | exact I];
         destruct (Hres v eq_refl) as [attrs ->]; eauto);
    try (split; [reflexivity | intros attrs; split; reflexivity]).
Qed.

Lemma gradient_inputs_resolve_or_are_refused_witness :
  @color_setter reference_collaborators Zone_color [("_color", PyNone)]
    (PyDict [("linearGradient", PyDict [("x1", PyInt 0)]);
             ("patternOptions", PyDict []); ("stops", PyList [])])
  = Ok [("_color",
         PyObj Gradient [("linearGradient", PyDict [("x1", PyInt 0)]);
                         ("patternOptions", PyDict []); ("stops", PyList [])])]
  /\
  @color_setter reference_collaborators HoverState_color [("_color", PyNone)]
    (PyDict [("linearGradient", PyDict [("x1", PyInt 0)]);
             ("patternOptions", PyDict []); ("stops", PyList [])])
  = Raise CannotCoerceError.
Proof.
  split.
  - rewrite (proj1 (@gradient_inputs_resolve_or_are_refused reference_collaborators Zone_color
                      [("_color", PyNone)]
                      [("linearGradient", PyDict [("x1", PyInt 0)]);
                       ("patternOptions", PyDict []); ("stops", PyList [])]
                      eq_refl)).
    reflexivity.
  - exact (proj1 (@gradient_inputs_resolve_or_are_refused reference_collaborators HoverState_color
                    [("_color", PyNone)]
                    [("linearGradient", PyDict [("x1", PyInt 0)]);
                     ("patternOptions", PyDict []); ("stops", PyList [])]
                    eq_refl)).
Defined.

(** ** Construction from a mapping *)

(** C5, as the code has it: [Legend.from_dict] validates the values under
    [x] and [y] and drops them: the attributes stay [None], while a key such
    as [margin] is stored. *)
Theorem Legend_from_dict_discards_x_and_y {env : Collaborators} (n m : Z) :
  (exists self,
      Legend_from_dict [("x", PyInt n); ("y", PyInt m)] = Ok self /\
      getattr self "_x" = Ok PyNone /\ getattr self "_y" = Ok PyNone) /\
  (exists self,
      Legend_from_dict [("margin", PyInt n)] = Ok self /\
      getattr self "_margin" = Ok (PyInt n)) /\
  (forall self value,
      match Legend_x_setter self value with
      | Ok self' => self' = self
      | Raise _ => True
      end /\
      match Legend_y_setter self value with
      | Ok self' => self' = self
      | Raise _ => True
      end).
Proof.
  split; [ | split].
  - eexists. split; [vm_compute; reflexivity | split; reflexivity].
  - eexists. split; [vm_compute; reflexivity | reflexivity].
  - intros self value. unfold Legend_x_setter, Legend_y_setter.
    destruct (validators.numeric value true None); simpl; auto.
Qed.

(** ** Enum validators *)

Ltac lowercasing_enum_proof setter_unfold :=
  intros self s Hne; setter_unfold; unfold validators.string;
  rewrite (nonempty_truthy s Hne);
  cbn [negb andb is_str bind py_lower py_str_in];
  destruct (str_in (lower s) _); cbn [negb];
  [ reflexivity | eexists; split; [reflexivity | vm_compute; reflexivity] ].

(** C7, amended: the enum setters of [Legend] and
    [SankeyOptions.link_color_mode] lower-case a non-empty string before
    matching it, store the lower-cased value and otherwise raise an error
    naming the allowed values; [Zone.dash_style] matches the string as given,
    stores it unchanged, and its error names no allowed value. *)
Theorem enum_setters_match_as_written :
  lowercasing_enum Legend_align_setter "_align" ["left"; "center"; "right"] /\
  lowercasing_enum Legend_layout_setter "_layout"
    ["horizontal"; "vertical"; "proximate"] /\
  lowercasing_enum Legend_vertical_align_setter "_vertical_align"
    ["bottom"; "middle"; "top"] /\
  lowercasing_enum SankeyOptions_link_color_mode_setter "_link_color_mode"
    ["from"; "gradient"; "to"] /\
  case_sensitive_enum Zone_dash_style_setter "_dash_style"
    SUPPORTED_DASH_STYLE_VALUES /\
  (forall self,
      Legend_align_setter self (PyStr "LEFT") = Ok (setattr self "_align" (PyStr "left")) /\
      Legend_align_setter self (PyStr "diagonal") = Raise align_error).
Proof.
  split; [ | split; [ | split; [ | split; [ | split ]]]].
  - lowercasing_enum_proof ltac:(unfold Legend_align_setter).
  - lowercasing_enum_proof ltac:(unfold Legend_layout_setter).
  - lowercasing_enum_proof ltac:(unfold Legend_vertical_align_setter).
  - lowercasing_enum_proof ltac:(unfold SankeyOptions_link_color_mode_setter).
  - intros self s Hne. unfold Zone_dash_style_setter, validators.string.
    rewrite (nonempty_truthy s Hne).
    cbn [negb andb is_str bind py_str_in].
    destruct (str_in s SUPPORTED_DASH_STYLE_VALUES); cbn [negb];
      [reflexivity | eexists; reflexivity].
  - intros self. split; reflexivity.
Qed.

(** C7, as stated, fails for [Zone.dash_style]: the input is matched as it
    was given and stored unchanged. *)
Lemma Zone_dash_style_is_case_sensitive :
  Zone_dash_style_setter [("_dash_style", PyNone)] (PyStr "Dash")
  = Ok [("_dash_style", PyStr "Dash")] /\
  lower "Dash" = "dash" /\
  (exists msg,
      Zone_dash_style_setter [("_dash_style", PyNone)] (PyStr "DASH")
      = Raise (HighchartsValueError msg) /\
      forallb (fun a => str_contains a msg) SUPPORTED_DASH_STYLE_VALUES = false) /\
  ~ lowercasing_enum Zone_dash_style_setter "_dash_style"
      SUPPORTED_DASH_STYLE_VALUES /\
  ~ lowercasing_enum Zone_dash_style_setter "_dash_style"
      (map lower SUPPORTED_DASH_STYLE_VALUES).
Proof.
  split; [reflexivity | split; [reflexivity | split; [ | split]]].
  - eexists. split; [reflexivity | vm_compute; reflexivity].
  - intros H.
    specialize (H [("_dash_style", PyNone)] "Dash" ltac:(discriminate)).
    vm_compute in H. destruct H as (msg & H & _). discriminate.
  - intros H.
    specialize (H [("_dash_style", PyNone)] "Dash" ltac:(discriminate)).
    vm_compute in H. discriminate.
Qed.

(** ** Falsy inputs *)

(** C10: a setter guarded by a truthiness test stores [None] for every
    falsy input, [0] and the empty string included, and a boolean setter
    guarded by [is None] keeps [False]. *)
Theorem falsy_inputs_store_None {env : Collaborators}
    (self : Self) (value : PyVal) :
  truthy value = false ->
  Legend_width_setter self value = Ok (setattr self "_width" PyNone) /\
  Legend_align_setter self value = Ok (setattr self "_align" PyNone) /\
  (forall f, color_setter f self value = Ok (setattr self (color_attr f) PyNone)) /\
  (Legend_layout_setter self value = Ok (setattr self "_layout" PyNone) /\
   Legend_vertical_align_setter self value
   = Ok (setattr self "_vertical_align" PyNone) /\
   Zone_dash_style_setter self value = Ok (setattr self "_dash_style" PyNone) /\
   SankeyOptions_link_color_mode_setter self value
   = Ok (setattr self "_link_color_mode" PyNone) /\
   TreemapOptions_colors_setter self value = Ok (setattr self "_colors" PyNone)) /\
  (Legend_enabled_setter self (PyBool false)
   = Ok (setattr self "_enabled" (PyBool false)) /\
   Legend_floating_setter self (PyBool false)
   = Ok (setattr self "_floating" (PyBool false)) /\
   HoverState_enabled_setter self (PyBool false)
   = Ok (setattr self "_enabled" (PyBool false))).
Proof.
  intros H. split; [ | split; [ | split; [ | split]]].
  - unfold Legend_width_setter. rewrite H. reflexivity.
  - unfold Legend_align_setter. rewrite H. reflexivity.
  - intros f. destruct f; cbn [color_setter color_attr];
      unfold_color_setters; unfold validators.string;
      rewrite H; reflexivity.
  - unfold Legend_layout_setter, Legend_vertical_align_setter,
      Zone_dash_style_setter, SankeyOptions_link_color_mode_setter,
      TreemapOptions_colors_setter.
    rewrite H. repeat split; reflexivity.
  - repeat split; reflexivity.
Qed.

Lemma falsy_inputs_store_None_witness :
  truthy (PyInt 0) = false /\
  @Legend_width_setter reference_collaborators [("_width", PyInt 3)] (PyInt 0)
  = Ok [("_width", PyNone)] /\
  truthy (PyStr "") = false /\
  Legend_align_setter [("_align", PyStr "left")] (PyStr "")
  = Ok [("_align", PyNone)].
Proof.
  split; [reflexivity | split; [ | split; [reflexivity | ]]].
  - exact (proj1 (@falsy_inputs_store_None reference_collaborators
                    [("_width", PyInt 3)] (PyInt 0) eq_refl)).
  - exact (proj1 (proj2 (@falsy_inputs_store_None reference_collaborators
                    [("_align", PyStr "left")] (PyStr "") eq_refl))).
Defined.

(** ** Composed classes *)

Lemma copy_parent_items_disjoint (own parent_as_dict : Dict) (k : string) :
  (forall k, has_key k own = true -> has_key k parent_as_dict = false) ->
  dict_get k (copy_parent_items parent_as_dict own)
  = match dict_get k own with
    | Some v => Some v
    | None => dict_get k parent_as_dict
    end.
Proof.
  intros Hdisjoint.
  destruct (copy_parent_items_parent_wins own parent_as_dict k) as [Hin Hout].
  destruct (has_key k parent_as_dict) eqn:Hp.
  - rewrite (Hin eq_refl).
    destruct (dict_get k own) as [v | ] eqn:Ho; [ | reflexivity].
    assert (Hk : has_key k own = true) by (unfold has_key; rewrite Ho; reflexivity).
    rewrite (Hdisjoint k Hk) in Hp. discriminate.
  - rewrite (Hout eq_refl). unfold has_key in Hp.
    destruct (dict_get k own); [reflexivity | ].
    destruct (dict_get k parent_as_dict); [discriminate | reflexivity].
Qed.

(** C2: [HeatmapOptions.to_dict] and [SankeyOptions._to_untrimmed_dict]
    merge the class's own entries with the parent's mapping: when the
    parent's mapping carries none of the class's own keys, as the key
    tables of the source have it, the merged mapping holds every own entry
    with the class's value and every other entry of the parent;
    [HeatmapOptions.to_dict] trims the merged mapping once, at the end, and
    [SankeyOptions._to_untrimmed_dict] returns it untrimmed.
    [TreemapOptions.to_dict] is written to merge in the same way, but it
    calls [super] with the instance as its only argument: it raises for
    every instance and returns no mapping. *)
Theorem composed_to_dict_merges_but_TreemapOptions_raises {env : Collaborators}
    (SeriesOptions_to_dict : Self -> Result Dict)
    (DependencyWheelOptions_to_untrimmed_dict : Self -> PyVal -> Result Dict)
    (GenericTypeOptions_to_dict : PyVal -> Result Dict)
    (self : Self) (in_cls : PyVal) (own parent_as_dict : Dict) :
  (forall k, has_key k own = true -> has_key k parent_as_dict = false) ->
  (read_properties HeatmapOptions_own_properties self [] = Ok own ->
   SeriesOptions_to_dict self = Ok parent_as_dict ->
   exists merged,
     (forall k, dict_get k merged
                = match dict_get k own with
                  | Some v => Some v
                  | None => dict_get k parent_as_dict
                  end) /\
     child_wins own parent_as_dict merged /\
     HeatmapOptions_to_dict SeriesOptions_to_dict self = Ok (trim_dict merged)) /\
  (read_properties [("linkColorMode", "_link_color_mode")] self [] = Ok own ->
   DependencyWheelOptions_to_untrimmed_dict self in_cls = Ok parent_as_dict ->
   exists merged,
     (forall k, dict_get k merged
                = match dict_get k own with
                  | Some v => Some v
                  | None => dict_get k parent_as_dict
                  end) /\
     child_wins own parent_as_dict merged /\
     SankeyOptions_to_untrimmed_dict
       DependencyWheelOptions_to_untrimmed_dict self in_cls = Ok merged) /\
  succeeded (TreemapOptions_to_dict GenericTypeOptions_to_dict self) = false /\
  TreemapOptions_to_dict GenericTypeOptions_to_dict TreemapOptions_initial
  = Raise (TypeError "super() argument 1 must be a type").
Proof.
  intros Hdisjoint.
  assert (Hmerged : forall k,
             dict_get k (copy_parent_items parent_as_dict own)
             = match dict_get k own with
               | Some v => Some v
               | None => dict_get k parent_as_dict
               end)
    by (intros k; apply copy_parent_items_disjoint; exact Hdisjoint).
  assert (Hchild : child_wins own parent_as_dict
                     (copy_parent_items parent_as_dict own)).
  { intros k v Hk _. rewrite Hmerged, Hk. reflexivity. }
  split; [ | split; [ | split]].
  - intros Hown Hparent. exists (copy_parent_items parent_as_dict own).
    split; [exact Hmerged | split; [exact Hchild | ]].
    unfold HeatmapOptions_to_dict. rewrite Hown, Hparent. reflexivity.
  - intros Hown Hparent. exists (copy_parent_items parent_as_dict own).
    split; [exact Hmerged | split; [exact Hchild | ]].
    unfold SankeyOptions_to_untrimmed_dict. rewrite Hown, Hparent. reflexivity.
  - unfold TreemapOptions_to_dict.
    destruct (read_properties TreemapOptions_own_properties self []); reflexivity.
  - vm_compute. reflexivity.
Qed.

Lemma composed_to_dict_merges_but_TreemapOptions_raises_witness :
  (exists merged,
     @HeatmapOptions_to_dict reference_collaborators
       (fun _ => Ok [("visible", PyBool true); ("opacity", PyNone)])
       [("_border_radius", PyInt 5); ("_colsize", PyInt 2);
        ("_null_color", PyNone); ("_point_padding", PyNone);
        ("_rowsize", PyNone)]
     = Ok (@trim_dict reference_collaborators merged) /\
     dict_get "borderRadius" merged = Some (PyInt 5) /\
     dict_get "visible" merged = Some (PyBool true)) /\
  @TreemapOptions_to_dict reference_collaborators
    (fun _ => Ok [("visible", PyBool true)]) TreemapOptions_initial
  = Raise (TypeError "super() argument 1 must be a type").
Proof.
  destruct (@composed_to_dict_merges_but_TreemapOptions_raises
              reference_collaborators
              (fun _ => Ok [("visible", PyBool true); ("opacity", PyNone)])
              (fun _ _ => Ok [("visible", PyBool true); ("opacity", PyNone)])
              (fun _ => Ok [("visible", PyBool true)])
              [("_border_radius", PyInt 5); ("_colsize", PyInt 2);
               ("_null_color", PyNone); ("_point_padding", PyNone);
               ("_rowsize", PyNone)]
              PyNone
              [("borderRadius", PyInt 5); ("colsize", PyInt 2);
               ("nullColor", PyNone); ("pointPadding", PyNone);
               ("rowsize", PyNone)]
              [("visible", PyBool true); ("opacity", PyNone)])
    as (Hheat & _ & _ & Htree).
  - intros k Hk. unfold has_key in *. cbn [dict_get] in *.
    repeat match type of Hk with
           | context [String.eqb ?a k] =>
               destruct (String.eqb_spec a k) as [Heq | _];
               [rewrite <- Heq; reflexivity | ]
           end.
    discriminate.
  - destruct (Hheat eq_refl eq_refl) as (merged & Hget & _ & Hto).
    split; [ | exact Htree].
    exists merged. split; [exact Hto | ].
    split; [exact (Hget "borderRadius") | exact (Hget "visible")].
Defined.

(** C8: [TreemapOptions.to_dict] never returns a mapping: once its own
    entries are read, the single-argument [super] call raises a [TypeError],
    before any merge or trim. *)
Theorem TreemapOptions_to_dict_raises {env : Collaborators}
    (GenericTypeOptions_to_dict : PyVal -> Result Dict) (self : Self) :
  TreemapOptions_to_dict GenericTypeOptions_to_dict self
  = match read_properties TreemapOptions_own_properties self [] with
    | Ok _ => Raise (TypeError "super() argument 1 must be a type")
    | Raise e => Raise e
    end /\
  succeeded (TreemapOptions_to_dict GenericTypeOptions_to_dict self) = false /\
  succeeded (read_properties TreemapOptions_own_properties TreemapOptions_initial [])
  = true /\
  TreemapOptions_to_dict GenericTypeOptions_to_dict TreemapOptions_initial
  = Raise (TypeError "super() argument 1 must be a type").
Proof.
  assert (E : TreemapOptions_to_dict GenericTypeOptions_to_dict self
              = match read_properties TreemapOptions_own_properties self [] with
                | Ok _ => Raise (TypeError "super() argument 1 must be a type")
                | Raise e => Raise e
                end).
  { unfold TreemapOptions_to_dict.
    destruct (read_properties TreemapOptions_own_properties self []); reflexivity. }
  split; [exact E | split; [ | split]].
  - rewrite E.
    destruct (read_properties TreemapOptions_own_properties self []); reflexivity.
  - vm_compute. reflexivity.
  - vm_compute. reflexivity.
Qed.

Lemma colors_loop_checks_each {env : Collaborators} (whole : list PyVal)
    (items checked_values : list PyVal) :
  TreemapOptions_colors_loop (PyList whole) items checked_values
  = (checked <- check_each items ;; Ok (checked_values ++ checked)%list).
Proof.
  revert checked_values. induction items as [ | item rest IH];
    intros checked_values; simpl.
  - rewrite app_nil_r. reflexivity.
  - destruct (validate_types item [Gradient; Pattern] true) as [p | e]; simpl;
      [ | reflexivity].
    rewrite IH. destruct (check_each rest); simpl; [ | reflexivity].
    rewrite <- app_assoc. reflexivity.
Qed.

Lemma check_each_rejects {env : Collaborators} (items : list PyVal) (item : PyVal) :
  In item items ->
  succeeded (validate_types item [Gradient; Pattern] true) = false ->
  succeeded (check_each items) = false.
Proof.
  induction items as [ | x rest IH]; simpl; [tauto | ].
  intros [-> | Hin] Hrej.
  - destruct (validate_types item _ true); [discriminate | reflexivity].
  - destruct (validate_types x _ true); simpl; [ | reflexivity].
    specialize (IH Hin Hrej). destruct (check_each rest); [discriminate | reflexivity].
Qed.

(** C9: for a non-empty list, the [colors] setter sends every item through
    the [Gradient]/[Pattern] type check, so a list holding a plain colour
    string (one that is not the text of a gradient) is refused and nothing is
    stored. *)
Theorem TreemapOptions_colors_checks_every_item {env : Collaborators}
    (self : Self) (items : list PyVal) (s : string) :
  In (PyStr s) items ->
  succeeded (from_json Gradient (PyStr s)) = false ->
  TreemapOptions_colors_setter self (PyList items)
  = (checked <- check_each items ;;
     Ok (setattr self "_colors" (PyList checked))) /\
  succeeded (TreemapOptions_colors_setter self (PyList items)) = false.
Proof.
  intros Hin Hplain.
  assert (E : TreemapOptions_colors_setter self (PyList items)
              = (checked <- check_each items ;;
                 Ok (setattr self "_colors" (PyList checked)))).
  { unfold TreemapOptions_colors_setter, validators.iterable.
    destruct items as [ | x rest]; [contradiction | ].
    cbn [truthy negb bind]. rewrite colors_loop_checks_each.
    destruct (check_each (x :: rest)); reflexivity. }
  split; [exact E | ].
  rewrite E.
  assert (R : succeeded (check_each items) = false).
  { eapply check_each_rejects; [exact Hin | exact Hplain]. }
  destruct (check_each items); [discriminate | reflexivity].
Qed.

Lemma TreemapOptions_colors_checks_every_item_witness :
  @TreemapOptions_colors_setter reference_collaborators [("_colors", PyNone)]
    (PyList [PyStr "#FF0000"; PyStr "#00FF00"])
  = Raise (ValueError "no JSON document").
Proof.
  rewrite (proj1 (@TreemapOptions_colors_checks_every_item reference_collaborators
                    [("_colors", PyNone)]
                    [PyStr "#FF0000"; PyStr "#00FF00"] "#FF0000"
                    (or_introl eq_refl) eq_refl)).
  reflexivity.
Defined.

(** ** Round trips *)

Section RoundTripProofs.
Context {env : Collaborators}.

Lemma from_json_instance (c : Class) (value v : PyVal) :
  from_json c value = Ok v -> exists attrs, v = PyObj c attrs.
Proof.
  unfold from_json. destruct (cls_from_json c value); simpl; intros H;
    [injection H as <-; eauto | discriminate].
Qed.

Lemma from_dict_instance (c : Class) (value v : PyVal) :
  from_dict c value = Ok v -> exists attrs, v = PyObj c attrs.
Proof.
  unfold from_dict. destruct value; try discriminate.
  destruct (cls_from_dict c entries); simpl; intros H;
    [injection H as <-; eauto | discriminate].
Qed.

Lemma construct_instance (c : Class) (value v : PyVal) :
  construct c value = Ok v -> exists attrs, v = PyObj c attrs.
Proof.
  unfold construct. destruct value; try discriminate.
  destruct (cls_init c entries); simpl; intros H;
    [injection H as <-; eauto | discriminate].
Qed.

Lemma truthy_str (s : string) : truthy (PyStr s) = true -> s <> "".
Proof.
  simpl. intros H ->. discriminate.
Qed.

(** What the structured-parse branch of a resolver yields for class [c]
    and discriminator [key]. *)
Lemma parse_branch_result (c : Class) (key : string) (value v : PyVal) :
  truthy value = true ->
  ((is_dict value || is_str value) && py_in key value)%bool = true ->
  try_except_ValueError (from_json c value)
    (if is_dict value then from_dict c value else validators.string value false)
  = Ok v ->
  (exists attrs, v = PyObj c attrs) \/
  (exists s e, value = PyStr s /\ v = PyStr s /\ s <> "" /\
               str_contains key s = true /\
               from_json c (PyStr s) = Raise e /\ is_ValueError e = true).
Proof.
  intros Ht Hc H. unfold try_except_ValueError in H.
  destruct (from_json c value) as [g | e] eqn:Hj.
  - injection H as <-. left. eapply from_json_instance; eauto.
  - destruct (is_ValueError e) eqn:He; [ | discriminate].
    destruct value; simpl in Hc; try discriminate.
    + right. cbn [is_dict] in H. unfold validators.string in H.
      rewrite Ht in H. simpl in H. injection H as <-.
      exists s, e. repeat split; auto using truthy_str.
    + left. cbn [is_dict] in H. eapply from_dict_instance; eauto.
Qed.

Ltac color_setter_stores :=
  let H := fresh "H" in
  intros H;
  match type of H with
  | ?setter ?self ?value = Ok ?self' =>
      unfold Zone_color_setter, Zone_fill_color_setter in H;
      destruct (truthy value) eqn:Ht; cbn [negb] in H;
      [ | injection H as <-; eexists; split; [reflexivity | left; reflexivity]];
      destruct (isinstance value [Gradient; Pattern]) eqn:Hi;
      [ injection H as <-; eexists; split; [reflexivity | ];
        destruct value as [ | | | | | | | cls attrs]; try discriminate;
        destruct cls; try discriminate; right; [left | right; left]; eauto
      | ];
      destruct ((is_dict value || is_str value) && py_in "linearGradient" value)%bool eqn:Hg;
      [ destruct (try_except_ValueError (from_json Gradient value) _) as [v | ] eqn:Hv;
        [ | discriminate]; simpl in H; injection H as <-;
        eexists; split; [reflexivity | ];
        destruct (parse_branch_result _ _ _ _ Ht Hg Hv) as [[attrs ->] | (s & e & -> & -> & Hne & Hs & Hj & He)];
        [ right; left; eauto
        | right; right; right; exists s; repeat split; auto; left; eauto ]
      | ];
      destruct (is_dict value && py_in "linear_gradient" value)%bool;
      [ destruct (construct Gradient value) as [v | ] eqn:Hv; [ | discriminate];
        simpl in H; injection H as <-;
        eexists; split; [reflexivity | ];
        destruct (construct_instance _ _ _ Hv) as [attrs ->]; right; left; eauto
      | ];
      destruct ((is_dict value || is_str value) && py_in "patternOptions" value)%bool eqn:Hp;
      [ destruct (try_except_ValueError (from_json Pattern value) _) as [v | ] eqn:Hv;
        [ | discriminate]; simpl in H; injection H as <-;
        eexists; split; [reflexivity | ];
        destruct (parse_branch_result _ _ _ _ Ht Hp Hv) as [[attrs ->] | (s & e & -> & -> & Hne & Hs & Hj & He)];
        [ right; right; left; eauto
        | right; right; right; exists s; repeat split; auto; right;
          simpl in Hg; repeat split; eauto ]
      | ];
      destruct (is_dict value && py_in "pattern_options" value)%bool;
      [ destruct (construct Pattern value) as [v | ] eqn:Hv; [ | discriminate];
        simpl in H; injection H as <-;
        eexists; split; [reflexivity | ];
        destruct (construct_instance _ _ _ Hv) as [attrs ->]; right; right; left; eauto
      | discriminate ]
  end.

Lemma Zone_color_setter_stores (self self' : Self) (value : PyVal) :
  Zone_color_setter self value = Ok self' ->
  exists c, self' = setattr self "_color" c /\ stored_color c.
Proof. color_setter_stores. Qed.

Lemma Zone_fill_color_setter_stores (self self' : Self) (value : PyVal) :
  Zone_fill_color_setter self value = Ok self' ->
  exists c, self' = setattr self "_fill_color" c /\ stored_color c.
Proof. color_setter_stores. Qed.

Lemma Zone_class_name_setter_stores (self self' : Self) (value : PyVal) :
  Zone_class_name_setter self value = Ok self' ->
  exists v, self' = setattr self "_class_name" v /\ stored_string v.
Proof.
  unfold Zone_class_name_setter, validators.string. intros H.
  destruct (truthy value) eqn:Ht; cbn [negb andb] in H.
  - destruct value; try discriminate. simpl in H. injection H as <-.
    eexists; split; [reflexivity | right; eauto using truthy_str].
  - injection H as <-. eexists; split; [reflexivity | left; reflexivity].
Qed.

Lemma Zone_dash_style_setter_stores (self self' : Self) (value : PyVal) :
  Zone_dash_style_setter self value = Ok self' ->
  exists v, self' = setattr self "_dash_style" v /\ stored_dash_style v.
Proof.
  unfold Zone_dash_style_setter, validators.string. intros H.
  destruct (truthy value) eqn:Ht; cbn [negb andb] in H.
  - destruct value; try discriminate. cbn [is_str bind py_str_in] in H.
    destruct (str_in s SUPPORTED_DASH_STYLE_VALUES) eqn:Hs; [ | discriminate].
    injection H as <-. eexists; split; [reflexivity | right; eauto].
  - injection H as <-. eexists; split; [reflexivity | left; reflexivity].
Qed.

Lemma numeric_unbounded_stores (value v : PyVal) :
  validators.numeric value true None = Ok v -> stored_number v.
Proof.
  unfold validators.numeric. intros H.
  destruct value; try discriminate; cbn in H;
    try (injection H as <-; exact I).
  destruct (float_ s); cbn in H; [injection H as <-; exact I | discriminate].
Qed.

Lemma Zone_value_setter_stores (self self' : Self) (value : PyVal) :
  Zone_value_setter self value = Ok self' ->
  exists v, self' = setattr self "_value" v /\ stored_number v.
Proof.
  unfold Zone_value_setter. intros H.
  destruct (validators.numeric value true None) as [v | ] eqn:Hv; [ | discriminate].
  injection H as <-. eauto using numeric_unbounded_stores.
Qed.

Lemma Zone_init_state (kwargs : Dict) (e : Self) :
  Zone_init kwargs = Ok e -> Zone_state e.
Proof.
  unfold Zone_init. cbn [assign_kwargs].
  destruct (dict_pop "class_name" PyNone kwargs) as [v1 k1].
  destruct (Zone_class_name_setter _ v1) as [s1 | ] eqn:H1; [ | discriminate].
  apply Zone_class_name_setter_stores in H1 as (x1 & -> & P1).
  cbn [bind assign_kwargs].
  destruct (dict_pop "color" PyNone k1) as [v2 k2].
  destruct (Zone_color_setter _ v2) as [s2 | ] eqn:H2; [ | discriminate].
  apply Zone_color_setter_stores in H2 as (x2 & -> & P2).
  cbn [bind assign_kwargs].
  destruct (dict_pop "dash_style" PyNone k2) as [v3 k3].
  destruct (Zone_dash_style_setter _ v3) as [s3 | ] eqn:H3; [ | discriminate].
  apply Zone_dash_style_setter_stores in H3 as (x3 & -> & P3).
  cbn [bind assign_kwargs].
  destruct (dict_pop "fill_color" PyNone k3) as [v4 k4].
  destruct (Zone_fill_color_setter _ v4) as [s4 | ] eqn:H4; [ | discriminate].
  apply Zone_fill_color_setter_stores in H4 as (x4 & -> & P4).
  cbn [bind assign_kwargs].
  destruct (dict_pop "value" PyNone k4) as [v5 k5].
  destruct (Zone_value_setter _ v5) as [s5 | ] eqn:H5; [ | discriminate].
  apply Zone_value_setter_stores in H5 as (x5 & -> & P5).
  cbn [bind fst]. intros H. injection H as <-.
  exists x1, x2, x3, x4, x5. repeat split; assumption.
Qed.



Lemma supported_dash_style_nonempty (s : string) :
  str_in s SUPPORTED_DASH_STYLE_VALUES = true -> s <> "".
Proof.
  intros H ->. discriminate.
Qed.







Lemma Zone_built_state (e : Self) : Zone_built e -> Zone_state e.
Proof.
  induction 1 as [kwargs e Hinit | setter value e e' _ IH Hin Hset].
  - eapply Zone_init_state; eauto.
  - destruct IH as (x1 & x2 & x3 & x4 & x5 & -> & P1 & P2 & P3 & P4 & P5).
    simpl in Hin.
    destruct Hin as [<- | [<- | [<- | [<- | [<- | []]]]]].
    + apply Zone_class_name_setter_stores in Hset as (x & -> & P).
      exists x, x2, x3, x4, x5. repeat split; assumption.
    + apply Zone_color_setter_stores in Hset as (x & -> & P).
      exists x1, x, x3, x4, x5. repeat split; assumption.
    + apply Zone_dash_style_setter_stores in Hset as (x & -> & P).
      exists x1, x2, x, x4, x5. repeat split; assumption.
    + apply Zone_fill_color_setter_stores in Hset as (x & -> & P).
      exists x1, x2, x3, x, x5. repeat split; assumption.
    + apply Zone_value_setter_stores in Hset as (x & -> & P).
      exists x1, x2, x3, x4, x. repeat split; assumption.
Qed.

End RoundTripProofs.






(** * Properties of the rest of the code *)

(** ** Keyword extraction *)

Lemma dict_get_remove_other (k k' : string) (d : Dict) :
  k <> k' -> dict_get k (dict_remove k' d) = dict_get k d.
Proof.
  intros Hne. induction d as [ | [k0 v0] rest IH]; simpl; [reflexivity | ].
  destruct (String.eqb_spec k0 k') as [-> | Hne'].
  - destruct (String.eqb_spec k' k); [congruence | reflexivity].
  - simpl. destruct (k0 =? k)%string; [reflexivity | exact IH].
Qed.

Lemma dict_get_remove_same (k : string) (d : Dict) :
  NoDup (dict_keys d) -> dict_get k (dict_remove k d) = None.
Proof.
  induction d as [ | [k0 v0] rest IH]; simpl; [reflexivity | ].
  intros Hnd. inversion Hnd as [ | ? ? Hnotin Hrest]; subst.
  destruct (String.eqb_spec k0 k) as [-> | Hne].
  - apply dict_get_absent. exact Hnotin.
  - simpl. destruct (String.eqb_spec k0 k); [congruence | auto].
Qed.

Lemma dict_keys_remove_incl (k k' : string) (d : Dict) :
  In k (dict_keys (dict_remove k' d)) -> In k (dict_keys d).
Proof.
  induction d as [ | [k0 v0] rest IH]; simpl; [tauto | ].
  destruct (k0 =? k')%string; simpl; tauto.
Qed.

Lemma NoDup_dict_remove (k : string) (d : Dict) :
  NoDup (dict_keys d) -> NoDup (dict_keys (dict_remove k d)).
Proof.
  induction d as [ | [k0 v0] rest IH]; simpl; [auto | ].
  intros Hnd. inversion Hnd as [ | ? ? Hnotin Hrest]; subst.
  destruct (k0 =? k)%string; [exact Hrest | ].
  simpl. constructor; [ | auto].
  intros Hin. apply Hnotin. eapply dict_keys_remove_incl; eauto.
Qed.

Lemma get_kwargs_ext (fields : list (string * string * PyVal))
    (d1 d2 kwargs : Dict) :
  (forall k, In k (field_keys fields) -> dict_get k d1 = dict_get k d2) ->
  get_kwargs fields d1 kwargs = get_kwargs fields d2 kwargs.
Proof.
  revert kwargs. induction fields as [ | [[name key] default] rest IH];
    intros kwargs H; simpl; [reflexivity | ].
  unfold dict_get_or. rewrite (H key) by (left; reflexivity).
  apply IH. intros k Hk. apply H. right. exact Hk.
Qed.

(** With distinct keys, popping and getting build the same keyword
    arguments. *)
Lemma pop_kwargs_get_kwargs (fields : list (string * string * PyVal))
    (d kwargs : Dict) :
  NoDup (field_keys fields) ->
  fst (pop_kwargs fields d kwargs) = get_kwargs fields d kwargs.
Proof.
  revert d kwargs. induction fields as [ | [[name key] default] rest IH];
    intros d kwargs Hnd; simpl; [reflexivity | ].
  inversion Hnd as [ | ? ? Hnotin Hrest]; subst.
  unfold dict_pop, dict_get_or.
  destruct (dict_get key d) as [v | ] eqn:Hget.
  - rewrite IH by exact Hrest. apply get_kwargs_ext.
    intros k Hk. apply dict_get_remove_other. intros ->. exact (Hnotin Hk).
  - apply IH. exact Hrest.
Qed.

Lemma pop_kwargs_leftover (fields : list (string * string * PyVal))
    (d kwargs : Dict) :
  snd (pop_kwargs fields d kwargs)
  = fold_left (fun d k => dict_remove k d) (field_keys fields) d.
Proof.
  revert d kwargs. induction fields as [ | [[name key] default] rest IH];
    intros d kwargs; simpl; [reflexivity | ].
  unfold dict_pop. destruct (dict_get key d) as [v | ] eqn:Hget.
  - apply IH.
  - rewrite IH. f_equal.
    clear IH. induction d as [ | [k0 v0] d' IHd]; simpl; [reflexivity | ].
    simpl in Hget. destruct (k0 =? key)%string; [discriminate | ].
    f_equal. exact (IHd Hget).
Qed.

Lemma dict_get_removed_all (keys : list string) (d : Dict) (k : string) :
  NoDup (dict_keys d) ->
  dict_get k (fold_left (fun d k => dict_remove k d) keys d)
  = if existsb (String.eqb k) keys then None else dict_get k d.
Proof.
  revert d. induction keys as [ | key keys IH]; intros d Hnd; simpl;
    [reflexivity | ].
  rewrite IH by (apply NoDup_dict_remove; exact Hnd).
  destruct (String.eqb_spec k key) as [-> | Hne]; simpl.
  - rewrite dict_get_remove_same by exact Hnd.
    destruct (existsb _ keys); reflexivity.
  - rewrite dict_get_remove_other by exact Hne. reflexivity.
Qed.

Lemma existsb_eqb_In (k : string) (keys : list string) :
  existsb (String.eqb k) keys = true <-> In k keys.
Proof.
  rewrite existsb_exists. split.
  - intros (x & Hin & Heq). apply String.eqb_eq in Heq. subst. exact Hin.
  - intros Hin. exists k. split; [exact Hin | apply String.eqb_refl].
Qed.

Lemma dict_get_get_kwargs_other (fields : list (string * string * PyVal))
    (d kwargs : Dict) (name : string) :
  ~ In name (field_names fields) ->
  dict_get name (get_kwargs fields d kwargs) = dict_get name kwargs.
Proof.
  revert kwargs. induction fields as [ | [[n key] default] rest IH];
    intros kwargs Hnotin; simpl; [reflexivity | ].
  simpl in Hnotin. rewrite IH by tauto. rewrite dict_get_dict_set.
  destruct (String.eqb_spec n name); [tauto | reflexivity].
Qed.

Lemma dict_get_get_kwargs (fields : list (string * string * PyVal))
    (d kwargs : Dict) (name key : string) (default : PyVal) :
  NoDup (field_names fields) ->
  In (name, key, default) fields ->
  dict_get name (get_kwargs fields d kwargs) = Some (dict_get_or key default d).
Proof.
  revert kwargs. induction fields as [ | [[n k] df] rest IH];
    intros kwargs Hnd Hin; simpl; [contradiction | ].
  inversion Hnd as [ | ? ? Hnotin Hrest]; subst.
  destruct Hin as [Heq | Hin].
  - injection Heq as -> -> ->.
    rewrite dict_get_get_kwargs_other by exact Hnotin.
    rewrite dict_get_dict_set, String.eqb_refl. reflexivity.
  - apply IH; assumption.
Qed.

Lemma NoDup_strings_check (l : list string) :
  (fix check (l : list string) : bool :=
     match l with
     | [] => true
     | x :: rest => (negb (existsb (String.eqb x) rest) && check rest)%bool
     end) l = true -> NoDup l.
Proof.
  induction l as [ | x rest IH]; intros H; [constructor | ].
  apply andb_true_iff in H as [Hx Hrest].
  constructor; [ | auto].
  intros Hin. apply existsb_eqb_In in Hin. rewrite Hin in Hx. discriminate.
Qed.

Lemma kwargs_fields_distinct (c : OptionClass) :
  NoDup (field_keys (kwargs_fields c)) /\ NoDup (field_names (kwargs_fields c)).
Proof.
  destruct c; split; apply NoDup_strings_check; vm_compute; reflexivity.
Qed.

Lemma extracted_kwargs_get_kwargs (c : OptionClass) (d : Dict) :
  extracted_kwargs c d = get_kwargs (kwargs_fields c) d [].
Proof.
  destruct c; try reflexivity; unfold extracted_kwargs;
    apply pop_kwargs_get_kwargs; apply kwargs_fields_distinct.
Qed.

(** X1. What a class extracts from a mapping depends on the entries under
    its recognised keys alone: two mappings that agree there give the same
    keyword arguments, and the same result of [from_dict]; entries under
    any other key are ignored. *)
Theorem extraction_reads_recognized_keys_only {env : Collaborators}
    (c : OptionClass) (d1 d2 : Dict) :
  (forall k, In k (field_keys (kwargs_fields c)) -> dict_get k d1 = dict_get k d2) ->
  extracted_kwargs c d1 = extracted_kwargs c d2 /\
  match c with
  | Zone_class => Zone_from_dict d1 = Zone_from_dict d2
  | HoverState_class => HoverState_from_dict d1 = HoverState_from_dict d2
  | InactiveState_class => InactiveState_from_dict d1 = InactiveState_from_dict d2
  | SelectState_class => SelectState_from_dict d1 = SelectState_from_dict d2
  | Legend_class => Legend_from_dict d1 = Legend_from_dict d2
  | _ => True
  end.
Proof.
  intros H.
  assert (E : extracted_kwargs c d1 = extracted_kwargs c d2).
  { rewrite !extracted_kwargs_get_kwargs. apply get_kwargs_ext. exact H. }
  split; [exact E | ].
  destruct c; try exact I.
  - change (Zone_init (extracted_kwargs Zone_class d1)
            = Zone_init (extracted_kwargs Zone_class d2)).
    rewrite E. reflexivity.
  - change (HoverState_init (extracted_kwargs HoverState_class d1)
            = HoverState_init (extracted_kwargs HoverState_class d2)).
    rewrite E. reflexivity.
  - change (InactiveState_init (extracted_kwargs InactiveState_class d1)
            = InactiveState_init (extracted_kwargs InactiveState_class d2)).
    rewrite E. reflexivity.
  - change (SelectState_init (extracted_kwargs SelectState_class d1)
            = SelectState_init (extracted_kwargs SelectState_class d2)).
    rewrite E. reflexivity.
  - change (Legend_init (extracted_kwargs Legend_class d1)
            = Legend_init (extracted_kwargs Legend_class d2)).
    rewrite E. reflexivity.
Qed.

Lemma extraction_reads_recognized_keys_only_witness :
  @Legend_from_dict reference_collaborators
    [("totallyUnknownKey", PyInt 1); ("enabled", PyBool true)]
  = @Legend_from_dict reference_collaborators [("enabled", PyBool true)].
Proof.
  refine (proj2 (@extraction_reads_recognized_keys_only reference_collaborators
                   Legend_class
                   [("totallyUnknownKey", PyInt 1); ("enabled", PyBool true)]
                   [("enabled", PyBool true)] _)).
  intros k Hk. simpl in Hk.
  repeat (destruct Hk as [<- | Hk]; [reflexivity | ]). contradiction.
Defined.

(** X2. The classes that build their keyword arguments with [as_dict.pop]
    take the recognised keys out of the caller's mapping and leave every
    other entry in it; [SankeyOptions], which uses [as_dict.get], leaves the
    mapping as it was. *)
Theorem extraction_pops_recognized_keys (c : OptionClass) (d : Dict) (k : string) :
  NoDup (dict_keys d) ->
  dict_get k (left_in_mapping c d)
  = match c with
    | SankeyOptions_class => dict_get k d
    | _ => if existsb (String.eqb k) (field_keys (kwargs_fields c))
           then None else dict_get k d
    end.
Proof.
  intros Hnd.
  destruct c; try reflexivity; unfold left_in_mapping;
    rewrite pop_kwargs_leftover; apply dict_get_removed_all; exact Hnd.
Qed.

Lemma extraction_pops_recognized_keys_witness :
  dict_get "value" (left_in_mapping Zone_class [("value", PyInt 3); ("other", PyInt 1)])
  = None /\
  dict_get "other" (left_in_mapping Zone_class [("value", PyInt 3); ("other", PyInt 1)])
  = Some (PyInt 1).
Proof.
  assert (Hnd : NoDup (dict_keys [("value", PyInt 3); ("other", PyInt 1)])).
  { apply NoDup_strings_check. reflexivity. }
  split.
  - exact (extraction_pops_recognized_keys Zone_class _ "value" Hnd).
  - exact (extraction_pops_recognized_keys Zone_class _ "other" Hnd).
Defined.

Lemma own_properties_in_kwargs_fields (c : OptionClass) :
  forallb
    (fun p : string * string =>
       existsb
         (fun f : string * string * PyVal =>
            ((("_" ++ fst (fst f)) =? snd p)%string
             && (snd (fst f) =? fst p)%string)%bool)
         (kwargs_fields c))
    (own_properties c) = true.
Proof.
  destruct c; vm_compute; reflexivity.
Qed.

(** X3. Every key a class's own serialisation writes is one its keyword
    extraction reads, and it reads it into the keyword argument of the very
    attribute the key was written from: what is stored under [key] reaches
    the constructor as argument [name], where the attribute is [_name]. *)
Theorem serialised_keys_are_read_back (c : OptionClass) (d : Dict)
    (key attr : string) :
  In (key, attr) (own_properties c) ->
  exists name default,
    attr = "_" ++ name /\
    In (name, key, default) (kwargs_fields c) /\
    dict_get name (extracted_kwargs c d) = Some (dict_get_or key default d).
Proof.
  intros Hin.
  pose proof (own_properties_in_kwargs_fields c) as Hall.
  rewrite forallb_forall in Hall. specialize (Hall _ Hin).
  apply existsb_exists in Hall as ([[name k] default] & Hf & Hb).
  cbn [fst snd] in Hb. apply andb_true_iff in Hb as [Ha Hk].
  apply String.eqb_eq in Ha, Hk. subst.
  exists name, default. split; [reflexivity | split; [exact Hf | ]].
  rewrite extracted_kwargs_get_kwargs.
  eapply dict_get_get_kwargs; [apply kwargs_fields_distinct | exact Hf].
Qed.

Lemma serialised_keys_are_read_back_witness :
  exists name default,
    "_use_html" = "_" ++ name /\
    In (name, "useHTML", default) (kwargs_fields Legend_class) /\
    dict_get name (extracted_kwargs Legend_class [("useHTML", PyBool true)])
    = Some (dict_get_or "useHTML" default [("useHTML", PyBool true)]).
Proof.
  apply (serialised_keys_are_read_back Legend_class
           [("useHTML", PyBool true)] "useHTML" "_use_html").
  vm_compute. tauto.
Defined.

Lemma dict_keys_get_kwargs (fields : list (string * string * PyVal))
    (d kwargs : Dict) :
  NoDup (dict_keys kwargs ++ field_names fields) ->
  dict_keys (get_kwargs fields d kwargs)
  = (dict_keys kwargs ++ field_names fields)%list.
Proof.
  revert kwargs. induction fields as [ | [[n k] df] rest IH]; intros kwargs Hnd;
    simpl.
  - rewrite app_nil_r. reflexivity.
  - assert (Hn : has_key n kwargs = false).
    { destruct (has_key n kwargs) eqn:Hk; [ | reflexivity].
      exfalso. apply NoDup_remove_2 in Hnd. apply Hnd.
      apply in_or_app. left. rewrite <- has_key_keys in Hk.
      apply existsb_exists in Hk as (x & Hx & He).
      apply String.eqb_eq in He. subst x. exact Hx. }
    assert (Hk : dict_keys (dict_set n (dict_get_or k df d) kwargs)
                 = (dict_keys kwargs ++ [n])%list).
    { rewrite dict_keys_dict_set, Hn. reflexivity. }
    rewrite IH; rewrite Hk; rewrite <- app_assoc; [reflexivity | exact Hnd].
Qed.

(** X4. The keyword arguments a class extracts from a mapping are always
    complete: they carry every name of the class's table, in the order of
    the table, whatever the mapping holds, each with the value under its
    key or, when the key is missing, with the default of the table. *)
Theorem extracted_kwargs_are_complete (c : OptionClass) (d : Dict) :
  dict_keys (extracted_kwargs c d) = field_names (kwargs_fields c) /\
  forall name key default,
    In (name, key, default) (kwargs_fields c) ->
    dict_get name (extracted_kwargs c d) = Some (dict_get_or key default d).
Proof.
  rewrite extracted_kwargs_get_kwargs. split.
  - apply (dict_keys_get_kwargs (kwargs_fields c) d []). simpl.
    apply kwargs_fields_distinct.
  - intros name key default Hin.
    eapply dict_get_get_kwargs; [apply kwargs_fields_distinct | exact Hin].
Qed.

Lemma extracted_kwargs_are_complete_witness :
  dict_get "clip" (extracted_kwargs HeatmapOptions_class [("colsize", PyInt 2)])
  = Some (PyBool true).
Proof.
  apply (proj2 (extracted_kwargs_are_complete HeatmapOptions_class
                  [("colsize", PyInt 2)]) "clip" "clip" (PyBool true)).
  do 4 right. left. reflexivity.
Defined.

(** ** What the setters store *)

Section SetterRanges.
Context {env : Collaborators}.

Lemma resolving_setter_stores (attr : string) (unresolved : PyExc)
    (self self' : Self) (value : PyVal) :
  resolving_setter attr unresolved self value = Ok self' ->
  exists c, self' = setattr self attr c /\ stored_color c.
Proof.
  unfold resolving_setter. intros H.
  destruct (truthy value) eqn:Ht; cbn [negb] in H;
    [ | injection H as <-; eexists; split; [reflexivity | left; reflexivity]].
  destruct (isinstance value [Gradient; Pattern]) eqn:Hi.
  { injection H as <-. eexists; split; [reflexivity | ].
    destruct value as [ | | | | | | | cls attrs]; try discriminate.
    destruct cls; try discriminate; right; [left | right; left]; eauto. }
  destruct ((is_dict value || is_str value) && py_in "linearGradient" value)%bool eqn:Hg.
  { destruct (try_except_ValueError (from_json Gradient value) _) as [v | ] eqn:Hv;
      [ | discriminate].
    simpl in H. injection H as <-. eexists; split; [reflexivity | ].
    destruct (parse_branch_result _ _ _ _ Ht Hg Hv)
      as [[attrs ->] | (s & e & -> & -> & Hne & Hs & Hj & He)].
    - right; left; eauto.
    - right; right; right. exists s. repeat split; auto. left; eauto. }
  destruct (is_dict value && py_in "linear_gradient" value)%bool.
  { destruct (construct Gradient value) as [v | ] eqn:Hv; [ | discriminate].
    simpl in H. injection H as <-. eexists; split; [reflexivity | ].
    destruct (construct_instance _ _ _ Hv) as [attrs ->]. right; left; eauto. }
  destruct ((is_dict value || is_str value) && py_in "patternOptions" value)%bool eqn:Hp.
  { destruct (try_except_ValueError (from_json Pattern value) _) as [v | ] eqn:Hv;
      [ | discriminate].
    simpl in H. injection H as <-. eexists; split; [reflexivity | ].
    destruct (parse_branch_result _ _ _ _ Ht Hp Hv)
      as [[attrs ->] | (s & e & -> & -> & Hne & Hs & Hj & He)].
    - right; right; left; eauto.
    - right; right; right. exists s. repeat split; auto. right.
      simpl in Hg. repeat split; eauto. }
  destruct (is_dict value && py_in "pattern_options" value)%bool; [ | discriminate].
  destruct (construct Pattern value) as [v | ] eqn:Hv; [ | discriminate].
  simpl in H. injection H as <-. eexists; split; [reflexivity | ].
  destruct (construct_instance _ _ _ Hv) as [attrs ->]. right; right; left; eauto.
Qed.

(** A stored colour is accepted again by the resolver, unchanged. *)
Lemma resolving_setter_accepts (attr : string) (unresolved : PyExc)
    (self : Self) (c : PyVal) :
  stored_color c ->
  resolving_setter attr unresolved self c = Ok (setattr self attr c).
Proof.
  intros [-> | [(attrs & ->) | [(attrs & ->) | (s & -> & Hne & Hk)]]];
    try reflexivity.
  unfold resolving_setter. rewrite (nonempty_truthy s Hne).
  cbn [negb isinstance is_dict is_str orb andb py_in].
  destruct Hk as [(Hg & e & Hj & He) | (Hg & Hp & e & Hj & He)];
    [ rewrite Hg, Hj | rewrite Hg, Hp, Hj ];
    unfold try_except_ValueError; rewrite He;
    unfold validators.string; rewrite (nonempty_truthy s Hne); reflexivity.
Qed.

Lemma string_allow_empty_stores (value x : PyVal) :
  validators.string value true = Ok x -> stored_string x.
Proof.
  unfold validators.string. destruct (truthy value) eqn:Ht; cbn [negb andb].
  - destruct value; try discriminate. simpl. intros H. injection H as <-.
    right. eauto using truthy_str.
  - intros H. injection H as <-. left. reflexivity.
Qed.

Lemma string_required_stores (value x : PyVal) :
  truthy value = true ->
  validators.string value false = Ok x ->
  exists s, value = PyStr s /\ x = PyStr s /\ s <> "".
Proof.
  unfold validators.string. intros Ht. rewrite Ht. cbn [negb andb].
  destruct value; try discriminate. simpl. intros H. injection H as <-.
  eauto using truthy_str.
Qed.

Lemma numeric_bounded_stores (value x : PyVal) (allow_empty : bool) :
  validators.numeric value allow_empty (Some 0%Q) = Ok x -> none_or_nonnegative x.
Proof.
  unfold validators.numeric. intros H.
  destruct value; try discriminate; cbn [bind validators.as_Q] in H.
  - destruct allow_empty; [ | discriminate]. injection H as <-. exact I.
  - destruct (negb (Qle_bool 0 (if b then 1%Q else 0%Q))) eqn:Hq; [discriminate | ].
    injection H as <-. simpl. apply negb_false_iff in Hq. exact Hq.
  - destruct (negb (Qle_bool 0 (inject_Z n))) eqn:Hq; [discriminate | ].
    injection H as <-. simpl. apply negb_false_iff in Hq. exact Hq.
  - destruct (negb (Qle_bool 0 q)) eqn:Hq; [discriminate | ].
    injection H as <-. simpl. apply negb_false_iff in Hq. exact Hq.
  - destruct (float_ s) as [q | ]; [ | discriminate].
    cbn [bind validators.as_Q] in H.
    destruct (negb (Qle_bool 0 q)) eqn:Hq; [discriminate | ].
    injection H as <-. simpl. apply negb_false_iff in Hq. exact Hq.
Qed.

Lemma Class_eqb_eq (a b : Class) : Class_eqb a b = true -> a = b.
Proof. destruct a, b; simpl; intros H; congruence. Qed.

Lemma validate_types_one_class (c : Class) (allow_none : bool) (value x : PyVal) :
  validate_types value [c] allow_none = Ok x ->
  (x = PyNone /\ value = PyNone /\ allow_none = true) \/
  exists attrs, x = PyObj c attrs.
Proof.
  unfold validate_types. destruct value; try discriminate.
  - destruct allow_none; [ | discriminate]. intros H. injection H as <-. auto.
  - intros H. right. eapply from_json_instance; eauto.
  - intros H. right. eapply from_dict_instance; eauto.
  - simpl. destruct (Class_eqb cls c) eqn:Hc; simpl; [ | discriminate].
    intros H. injection H as <-. apply Class_eqb_eq in Hc as ->. eauto.
Qed.

Lemma class_sensitive_stores (c : Class) (value x : PyVal) :
  class_sensitive c value = Ok x -> none_or_instance c x.
Proof.
  unfold class_sensitive. intros H.
  destruct (validate_types_one_class _ _ _ _ H) as [(-> & _) | (attrs & ->)];
    [left | right]; eauto.
Qed.

Lemma class_sensitive_accepts (c : Class) (x : PyVal) :
  none_or_instance c x -> class_sensitive c x = Ok x.
Proof.
  intros [-> | (attrs & ->)]; [reflexivity | ].
  unfold class_sensitive, validate_types. simpl.
  destruct c; reflexivity.
Qed.

End SetterRanges.

(** ** The setters of Legend *)

Ltac Legend_setters_delta H :=
  cbv beta delta
    [Legend_accessibility_setter Legend_align_setter Legend_align_columns_setter
     Legend_background_color_setter Legend_border_color_setter
     Legend_border_width_setter Legend_border_radius_setter
     Legend_bubble_legend_setter Legend_class_name_setter Legend_enabled_setter
     Legend_floating_setter Legend_item_checkbox_style_setter
     Legend_item_distance_setter Legend_item_hidden_style_setter
     Legend_item_hover_style_setter Legend_item_margin_bottom_setter
     Legend_item_margin_top_setter Legend_item_style_setter
     Legend_item_width_setter Legend_label_format_setter
     Legend_label_formatter_setter Legend_layout_setter Legend_margin_setter
     Legend_max_height_setter Legend_navigation_setter Legend_padding_setter
     Legend_reversed_setter Legend_rtl_setter Legend_shadow_setter
     Legend_square_symbol_setter Legend_symbol_height_setter
     Legend_symbol_padding_setter Legend_symbol_radius_setter
     Legend_symbol_width_setter Legend_title_setter Legend_use_html_setter
     Legend_vertical_align_setter Legend_width_setter Legend_x_setter
     Legend_y_setter] in H.

Ltac Legend_range_compute :=
  cbv [Legend_range Legend_ranges find fst snd String.eqb Ascii.eqb Bool.eqb
       append].

Section LegendSetters.
Context {env : Collaborators}.

Lemma enum_setter_stores (allowed : list string) (allow_empty : bool)
    (attr : string) (err : PyExc) (self self' : Self) (value : PyVal) :
  (if negb (truthy value) then Ok (setattr self attr PyNone)
   else value0 <- validators.string value allow_empty ;;
        value1 <- py_lower value0 ;;
        if negb (py_str_in value1 allowed) then Raise err
        else Ok (setattr self attr value1)) = Ok self' ->
  exists x, self' = setattr self attr x /\ none_or_one_of allowed x.
Proof.
  intros H. destruct (truthy value) eqn:Ht; cbn [negb] in H.
  - destruct (validators.string value allow_empty) as [v0 | ] eqn:H0;
      [ | discriminate].
    cbn [bind] in H.
    destruct (py_lower v0) as [v1 | ]; [ | discriminate]. cbn [bind] in H.
    destruct (py_str_in v1 allowed) eqn:Hin; [ | discriminate].
    injection H as <-. exists v1. split; [reflexivity | right; exact Hin].
  - injection H as <-. exists PyNone. split; [reflexivity | left; reflexivity].
Qed.

Lemma Legend_width_setter_stores (self self' : Self) (value : PyVal) :
  Legend_width_setter self value = Ok self' ->
  exists x, self' = setattr self "_width" x /\ stored_string x.
Proof.
  unfold Legend_width_setter. intros H.
  destruct (truthy value) eqn:Ht; cbn [negb] in H.
  - unfold validators.string in H. rewrite Ht in H. cbn [negb andb] in H.
    destruct value; try discriminate. simpl in H. injection H as <-.
    eexists. split; [reflexivity | right; eauto using truthy_str].
  - injection H as <-. eexists. split; [reflexivity | left; reflexivity].
Qed.

Lemma Legend_shadow_setter_stores (self self' : Self) (value : PyVal) :
  Legend_shadow_setter self value = Ok self' ->
  exists x, self' = setattr self "_shadow" x /\ shadow_value x.
Proof.
  unfold Legend_shadow_setter. intros H.
  assert (G : forall v,
             (value0 <- validate_types v [ShadowOptions] false ;;
              Ok (setattr self "_shadow" value0)) = Ok self' ->
             exists x, self' = setattr self "_shadow" x /\ shadow_value x).
  { intros v Hv.
    destruct (validate_types v [ShadowOptions] false) as [x | ] eqn:Hx;
      [ | discriminate].
    cbn [bind] in Hv. injection Hv as <-. exists x. split; [reflexivity | ].
    destruct (validate_types_one_class _ _ _ _ Hx) as [(_ & _ & Hf) | Hobj];
      [discriminate | right; right; exact Hobj]. }
  destruct value as [ | [ | ] | | | | | | ];
    try (cbv iota in H; apply (G _ H)).
  - injection H as <-. eexists. split; [reflexivity | left; reflexivity].
  - injection H as <-. eexists. split; [reflexivity | right; left; reflexivity].
Qed.

(** What an assignment to a property of [Legend] does to the instance: it
    leaves it as it is, or stores a value of the property's range into the
    property's own attribute. *)
Lemma Legend_setter_writes (name : string) (default : PyVal) (setter : Setter)
    (self self' : Self) (value : PyVal) :
  In (name, default, setter) Legend_init_fields ->
  setter self value = Ok self' ->
  self' = self \/
  exists x, self' = setattr self ("_" ++ name) x /\ Legend_range ("_" ++ name) x.
Proof.
  intros Hin H. unfold Legend_init_fields in Hin. simpl in Hin.
  repeat (destruct Hin as [Hin | Hin];
          [ injection Hin as <- <- <-;
            first
              [ (* resolving colour setters *)
                apply resolving_setter_stores in H; right; Legend_range_compute;
                exact H
              | (* enumerations *)
                apply enum_setter_stores in H; right; Legend_range_compute;
                exact H
              | apply Legend_width_setter_stores in H; right; Legend_range_compute;
                exact H
              | apply Legend_shadow_setter_stores in H; right; Legend_range_compute;
                exact H
              | (* validate and store *)
                Legend_setters_delta H;
                match type of H with
                | bind ?r _ = Ok _ =>
                    destruct r as [x | ] eqn:Hr; [ | discriminate];
                    cbn [bind] in H; injection H as <-;
                    first
                      [ left; reflexivity
                      | right; exists x; split; [reflexivity | ];
                        Legend_range_compute;
                        first [ eapply class_sensitive_stores; eassumption
                              | eapply string_allow_empty_stores; eassumption
                              | eapply numeric_bounded_stores; eassumption
                              | eapply numeric_unbounded_stores; eassumption ] ]
                end
              | (* booleans *)
                Legend_setters_delta H;
                destruct value; injection H as <-; right; eexists;
                (split; [reflexivity | Legend_range_compute; exact I]) ]
          | ]).
  contradiction.
Qed.

End LegendSetters.

(** ** Attribute stores under assignment *)

Lemma dict_set_same (k : string) (v : PyVal) (d : Dict) :
  dict_get k d = Some v -> dict_set k v d = d.
Proof.
  induction d as [ | [k0 v0] rest IH]; simpl; [discriminate | ].
  destruct (k0 =? k)%string.
  - intros H. injection H as ->. reflexivity.
  - intros H. rewrite IH by exact H. reflexivity.
Qed.

Lemma has_key_In (k : string) (d : Dict) :
  In k (dict_keys d) -> has_key k d = true.
Proof.
  intros H. destruct (has_key k d) eqn:Hk; [reflexivity | ].
  exfalso. exact (has_key_false_not_in _ _ Hk H).
Qed.

Lemma dict_keys_setattr (attr : string) (v : PyVal) (self : Self) :
  In attr (dict_keys self) -> dict_keys (setattr self attr v) = dict_keys self.
Proof.
  intros H. unfold setattr. rewrite dict_keys_dict_set, (has_key_In _ _ H).
  reflexivity.
Qed.

(** Two mappings with the same keys, in the same order and without
    repetition, and the same values under them, are the same mapping. *)
Lemma dict_ext (d1 d2 : Dict) :
  dict_keys d1 = dict_keys d2 -> NoDup (dict_keys d1) ->
  (forall k, In k (dict_keys d1) -> dict_get k d1 = dict_get k d2) ->
  d1 = d2.
Proof.
  revert d2. induction d1 as [ | [k1 v1] r1 IH]; intros [ | [k2 v2] r2];
    simpl; intros Hk Hnd Hget; try discriminate; [reflexivity | ].
  injection Hk as -> Hk. inversion Hnd as [ | ? ? Hnotin Hrest]; subst.
  pose proof (Hget k2 (or_introl eq_refl)) as H0.
  rewrite String.eqb_refl in H0. injection H0 as ->.
  f_equal. apply IH; [exact Hk | exact Hrest | ].
  intros k Hin. specialize (Hget k (or_intror Hin)).
  destruct (String.eqb_spec k2 k) as [-> | Hne]; [contradiction | exact Hget].
Qed.

Lemma assign_kwargs_preserves (I : Self -> Prop)
    (fields : list (string * PyVal * Setter)) (self self' : Self)
    (kwargs rest : Dict) :
  (forall name default setter s v s',
      In (name, default, setter) fields -> setter s v = Ok s' -> I s -> I s') ->
  I self ->
  assign_kwargs fields self kwargs = Ok (self', rest) ->
  I self'.
Proof.
  revert self kwargs. induction fields as [ | [[name default] setter] fs IH];
    intros self kwargs Hstep Hself; simpl.
  - intros H. injection H as <- _. exact Hself.
  - destruct (dict_pop name default kwargs) as [value kwargs'].
    destruct (setter self value) as [s1 | ] eqn:H1; [ | discriminate].
    cbn [bind]. apply IH.
    + intros n d st s v s' Hin Hs HI.
      eapply (Hstep n d st); [right; exact Hin | exact Hs | exact HI].
    + eapply (Hstep name default setter);
        [left; reflexivity | exact H1 | exact Hself].
Qed.

Lemma append_underscore_inj (a b : string) : "_" ++ a = "_" ++ b -> a = b.
Proof. simpl. intros H. injection H as ->. reflexivity. Qed.

(** Replaying stored values through a constructor: if every setter of the
    table accepts the value it is handed, storing it into its own attribute
    or leaving the instance alone when the value is [None], the constructor
    succeeds, keeps the attributes of the instance, and every attribute of
    the table holds its value, or still its old one when that value is
    [None]. *)
Lemma assign_kwargs_replay (fields : list (string * PyVal * Setter)) :
  NoDup (map (fun f => fst (fst f)) fields) ->
  forall (self kwargs : Dict),
    (forall name default setter,
        In (name, default, setter) fields ->
        In ("_" ++ name) (dict_keys self) /\
        forall s, dict_keys s = dict_keys self ->
                  setter s (dict_get_or name default kwargs)
                  = Ok (setattr s ("_" ++ name) (dict_get_or name default kwargs))
                  \/ (dict_get_or name default kwargs = PyNone /\
                      setter s PyNone = Ok s)) ->
    exists s' rest,
      assign_kwargs fields self kwargs = Ok (s', rest) /\
      dict_keys s' = dict_keys self /\
      (forall a, ~ In a (map (fun f => "_" ++ fst (fst f)) fields) ->
                 dict_get a s' = dict_get a self) /\
      (forall name default setter,
          In (name, default, setter) fields ->
          dict_get ("_" ++ name) s' = Some (dict_get_or name default kwargs) \/
          (dict_get_or name default kwargs = PyNone /\
           dict_get ("_" ++ name) s' = dict_get ("_" ++ name) self)).
Proof.
  induction fields as [ | [[name default] setter] fs IH]; intros Hnd self kwargs Hacc.
  - exists self, kwargs. repeat split; auto. intros ? ? ? [].
  - simpl in Hnd. inversion Hnd as [ | ? ? Hnotin Hrest]; subst.
    destruct (Hacc name default setter (or_introl eq_refl)) as [Hattr Hset].
    assert (Hpop : dict_pop name default kwargs
                   = (dict_get_or name default kwargs, snd (dict_pop name default kwargs))).
    { unfold dict_pop, dict_get_or. destruct (dict_get name kwargs); reflexivity. }
    assert (Hother : forall n d, n <> name ->
               dict_get_or n d (snd (dict_pop name default kwargs))
               = dict_get_or n d kwargs).
    { intros n d Hne. unfold dict_pop, dict_get_or.
      destruct (dict_get name kwargs); simpl; [ | reflexivity].
      rewrite dict_get_remove_other by exact Hne. reflexivity. }
    assert (Hstep : exists s1,
               setter self (dict_get_or name default kwargs) = Ok s1 /\
               dict_keys s1 = dict_keys self /\
               (forall a, a <> "_" ++ name -> dict_get a s1 = dict_get a self) /\
               (dict_get ("_" ++ name) s1 = Some (dict_get_or name default kwargs) \/
                (dict_get_or name default kwargs = PyNone /\
                 dict_get ("_" ++ name) s1 = dict_get ("_" ++ name) self))).
    { destruct (Hset self eq_refl) as [H1 | [Hn H1]].
      - eexists. split; [exact H1 | ].
        split; [apply dict_keys_setattr; exact Hattr | ].
        split.
        + intros a Ha. unfold setattr. rewrite dict_get_dict_set.
          destruct (String.eqb_spec ("_" ++ name) a); [congruence | reflexivity].
        + left. unfold setattr. rewrite dict_get_dict_set, String.eqb_refl.
          reflexivity.
      - exists self. rewrite Hn. repeat split; auto. }
    destruct Hstep as (s1 & H1 & Hk1 & Hf1 & Hv1).
    destruct (IH Hrest s1 (snd (dict_pop name default kwargs)))
      as (s' & rest & Hrun & Hk & Hf & Hv).
    { intros n d st Hin.
      assert (Hne : n <> name).
      { intros ->. apply Hnotin.
        apply (in_map (fun f => fst (fst f))) in Hin. exact Hin. }
      destruct (Hacc n d st (or_intror Hin)) as [Ha Hs].
      split; [rewrite Hk1; exact Ha | ].
      intros s Hks. rewrite Hother by exact Hne.
      apply Hs. rewrite Hks. exact Hk1. }
    exists s', rest. split; [ | split; [ | split]].
    + simpl. rewrite Hpop, H1. cbn [bind]. exact Hrun.
    + rewrite Hk. exact Hk1.
    + intros a Ha.
      rewrite Hf by (intros Hin; apply Ha; right; exact Hin).
      apply Hf1. intros ->. apply Ha. left. reflexivity.
    + intros n d st [Heq | Hin].
      * injection Heq as <- <- <-.
        assert (Hnot : ~ In ("_" ++ name) (map (fun f => "_" ++ fst (fst f)) fs)).
        { intros Hin. apply in_map_iff in Hin as (f & Hf0 & Hin).
          apply append_underscore_inj in Hf0. apply Hnotin.
          rewrite <- Hf0. apply (in_map (fun f => fst (fst f))). exact Hin. }
        rewrite (Hf _ Hnot). exact Hv1.
      * assert (Hne : n <> name).
        { intros ->. apply Hnotin.
          apply (in_map (fun f => fst (fst f))) in Hin. exact Hin. }
        destruct (Hv n d st Hin) as [Hsome | [Hn Hsame]].
        -- left. rewrite Hsome. rewrite Hother by exact Hne. reflexivity.
        -- right. rewrite Hother in Hn by exact Hne. split; [exact Hn | ].
           rewrite Hsame. apply Hf1. intros Heq.
           apply append_underscore_inj in Heq. congruence.
Qed.

(** ** The states of a Legend *)

Section LegendInvariant.
Context {env : Collaborators}.

Lemma Legend_init_unfold (kwargs : Dict) :
  Legend_init kwargs
  = (r <- assign_kwargs Legend_init_fields Legend_initial kwargs ;; Ok (fst r)).
Proof. reflexivity. Qed.

Lemma Legend_from_dict_unfold (as_dict : Dict) :
  Legend_from_dict as_dict = Legend_init (extracted_kwargs Legend_class as_dict).
Proof. reflexivity. Qed.

Lemma Legend_to_untrimmed_dict_unfold (self : Self) :
  Legend_to_untrimmed_dict self = read_properties Legend_properties self [].
Proof. reflexivity. Qed.

Lemma Legend_init_fields_attrs :
  map (fun f : string * PyVal * Setter => "_" ++ fst (fst f)) Legend_init_fields
  = dict_keys Legend_initial.
Proof. reflexivity. Qed.

Lemma Legend_init_fields_names :
  map (fun f : string * PyVal * Setter => fst (fst f)) Legend_init_fields
  = field_names Legend_from_dict_fields.
Proof. reflexivity. Qed.

Lemma Legend_field_attr (name : string) (default : PyVal) (setter : Setter) :
  In (name, default, setter) Legend_init_fields ->
  In ("_" ++ name) (dict_keys Legend_initial).
Proof.
  intros Hin. rewrite <- Legend_init_fields_attrs.
  apply (in_map (fun f : string * PyVal * Setter => "_" ++ fst (fst f))) in Hin.
  exact Hin.
Qed.

Lemma Legend_initial_distinct : NoDup (dict_keys Legend_initial).
Proof. apply NoDup_strings_check. vm_compute. reflexivity. Qed.

Lemma Legend_state_step (name : string) (default : PyVal) (setter : Setter)
    (s s' : Self) (v : PyVal) :
  In (name, default, setter) Legend_init_fields ->
  setter s v = Ok s' -> Legend_state s -> Legend_state s'.
Proof.
  intros Hin Hset [Hkeys Hrange].
  destruct (Legend_setter_writes _ _ _ _ _ _ Hin Hset) as [-> | (x & -> & Hx)];
    [split; assumption | ].
  split.
  - rewrite dict_keys_setattr; [exact Hkeys | ].
    rewrite Hkeys. eapply Legend_field_attr; eauto.
  - intros attr y. unfold setattr. rewrite dict_get_dict_set.
    destruct (String.eqb_spec ("_" ++ name) attr) as [<- | Hne].
    + intros H. injection H as <-. exact Hx.
    + apply Hrange.
Qed.

Lemma Legend_ranges_allow_None :
  Forall (fun p : string * (PyVal -> Prop) => snd p PyNone) Legend_ranges.
Proof.
  unfold Legend_ranges.
  repeat (constructor;
          [ cbn [snd];
            first [ exact I | reflexivity | left; reflexivity ] | ]).
  constructor.
Qed.

Lemma Legend_range_None (attr : string) : Legend_range attr PyNone.
Proof.
  unfold Legend_range.
  destruct (find _ Legend_ranges) as [p | ] eqn:Hf; [ | exact I].
  apply find_some in Hf as [Hin _].
  pose proof Legend_ranges_allow_None as H. rewrite Forall_forall in H.
  exact (H p Hin).
Qed.

Lemma Legend_initial_values (attr : string) (x : PyVal) :
  dict_get attr Legend_initial = Some x -> x = PyNone.
Proof.
  intros Hget. unfold Legend_initial in Hget. simpl in Hget.
  repeat match type of Hget with
         | (if ?b then _ else _) = _ =>
             destruct b; [injection Hget as <-; reflexivity | ]
         end.
  discriminate.
Qed.

Lemma Legend_initial_state : Legend_state Legend_initial.
Proof.
  split; [reflexivity | ].
  intros attr x Hget. apply Legend_initial_values in Hget. subst.
  apply Legend_range_None.
Qed.

Lemma Legend_init_state (kwargs : Dict) (e : Self) :
  Legend_init kwargs = Ok e -> Legend_state e.
Proof.
  rewrite Legend_init_unfold.
  destruct (assign_kwargs Legend_init_fields Legend_initial kwargs)
    as [[s rest] | ] eqn:Hrun; [ | discriminate].
  cbn [bind fst]. intros H. injection H as <-.
  eapply (assign_kwargs_preserves Legend_state); [ | | exact Hrun].
  - intros name default setter s0 v s1 Hin Hset Hs.
    eapply Legend_state_step; eauto.
  - exact Legend_initial_state.
Qed.

Lemma Legend_built_state (e : Self) : Legend_built e -> Legend_state e.
Proof.
  induction 1 as [kwargs e Hinit | name default setter value e e' _ IH Hin Hset].
  - eapply Legend_init_state; eauto.
  - eapply Legend_state_step; eauto.
Qed.

End LegendInvariant.

(** ** Stored values are accepted again *)

Lemma str_in_In (s : string) (allowed : list string) :
  str_in s allowed = true -> In s allowed.
Proof.
  unfold str_in. intros H. apply existsb_exists in H as (x & Hin & Heq).
  apply String.eqb_eq in Heq. subst. exact Hin.
Qed.

Section LegendReplay.
Context {env : Collaborators}.

Lemma enum_setter_accepts (allowed : list string) (allow_empty : bool)
    (attr : string) (err : PyExc) (self : Self) (x : PyVal) :
  Forall (fun s => s <> "" /\ lower s = s) allowed ->
  none_or_one_of allowed x ->
  (if negb (truthy x) then Ok (setattr self attr PyNone)
   else value0 <- validators.string x allow_empty ;;
        value1 <- py_lower value0 ;;
        if negb (py_str_in value1 allowed) then Raise err
        else Ok (setattr self attr value1)) = Ok (setattr self attr x).
Proof.
  intros Hall [-> | Hin]; [reflexivity | ].
  destruct x; try discriminate. simpl in Hin.
  rewrite Forall_forall in Hall.
  destruct (Hall s (str_in_In _ _ Hin)) as [Hne Hlow].
  rewrite (nonempty_truthy s Hne). cbn [negb].
  unfold validators.string. rewrite (nonempty_truthy s Hne).
  destruct allow_empty; cbn [negb andb is_str bind py_lower py_str_in];
    rewrite Hlow, Hin; reflexivity.
Qed.

Lemma numeric_bounded_accepts (x : PyVal) :
  none_or_nonnegative x -> validators.numeric x true (Some 0%Q) = Ok x.
Proof.
  unfold validators.numeric.
  destruct x; simpl; intros H; try contradiction; try reflexivity;
    rewrite H; reflexivity.
Qed.

Lemma numeric_unbounded_accepts (x : PyVal) :
  stored_number x -> validators.numeric x true None = Ok x.
Proof.
  destruct x; simpl; intros H; try contradiction; reflexivity.
Qed.

Lemma string_allow_empty_accepts (x : PyVal) :
  stored_string x -> validators.string x true = Ok x.
Proof.
  intros [-> | (s & -> & Hne)]; [reflexivity | ].
  unfold validators.string. rewrite (nonempty_truthy s Hne). reflexivity.
Qed.

(** A value within the range of a property of [Legend] is accepted by the
    property's setter: it is stored unchanged, or, for [x] and [y], the
    value is [None] and the instance is left alone. *)
Lemma Legend_setter_accepts (name : string) (default : PyVal) (setter : Setter)
    (x : PyVal) (s : Self) :
  In (name, default, setter) Legend_init_fields ->
  Legend_range ("_" ++ name) x ->
  setter s x = Ok (setattr s ("_" ++ name) x) \/
  (x = PyNone /\ setter s PyNone = Ok s).
Proof.
  intros Hin Hr. unfold Legend_init_fields in Hin. simpl in Hin.
  repeat (destruct Hin as [Hin | Hin];
          [ injection Hin as <- <- <-;
            revert Hr; Legend_range_compute; intros Hr;
            first
              [ left; apply resolving_setter_accepts; exact Hr
              | left; apply enum_setter_accepts;
                [ repeat constructor; discriminate | exact Hr ]
              | left;
                cbv beta delta
                  [Legend_accessibility_setter Legend_bubble_legend_setter
                   Legend_label_formatter_setter Legend_navigation_setter
                   Legend_title_setter];
                rewrite (class_sensitive_accepts _ _ Hr); reflexivity
              | left;
                cbv beta delta
                  [Legend_item_distance_setter Legend_item_margin_bottom_setter
                   Legend_item_margin_top_setter Legend_item_width_setter
                   Legend_max_height_setter Legend_symbol_height_setter
                   Legend_symbol_width_setter];
                rewrite (numeric_bounded_accepts _ Hr); reflexivity
              | left;
                cbv beta delta
                  [Legend_border_width_setter Legend_border_radius_setter
                   Legend_margin_setter Legend_padding_setter
                   Legend_symbol_padding_setter Legend_symbol_radius_setter];
                rewrite (numeric_unbounded_accepts _ Hr); reflexivity
              | left;
                cbv beta delta
                  [Legend_class_name_setter Legend_item_checkbox_style_setter
                   Legend_item_hidden_style_setter Legend_item_hover_style_setter
                   Legend_item_style_setter Legend_label_format_setter];
                rewrite (string_allow_empty_accepts _ Hr); reflexivity
              | (* width *)
                left; destruct Hr as [-> | (w & -> & Hne)]; [reflexivity | ];
                unfold Legend_width_setter, validators.string;
                rewrite (nonempty_truthy w Hne); reflexivity
              | (* shadow *)
                left; destruct Hr as [-> | [-> | (attrs & ->)]]; reflexivity
              | (* booleans *)
                left; destruct x as [ | [ | ] | | | | | | ];
                try contradiction; reflexivity
              | (* x and y *)
                right; subst x; split; reflexivity ]
          | ]).
  contradiction.
Qed.

End LegendReplay.

(** ** Reading the properties of an instance *)

Lemma read_properties_other (props : list (string * string)) (e : Self)
    (acc u : Dict) (key : string) :
  read_properties props e acc = Ok u ->
  ~ In key (map fst props) ->
  dict_get key u = dict_get key acc.
Proof.
  revert acc. induction props as [ | [k a] rest IH]; intros acc; simpl.
  - intros H _. injection H as <-. reflexivity.
  - destruct (getattr e a) as [v | ]; [ | discriminate]. cbn [bind].
    intros H Hnotin. rewrite (IH _ H) by tauto.
    rewrite dict_get_dict_set.
    destruct (String.eqb_spec k key); [tauto | reflexivity].
Qed.

Lemma read_properties_lookup (props : list (string * string)) (e : Self)
    (acc u : Dict) (key attr : string) :
  read_properties props e acc = Ok u ->
  NoDup (map fst props) ->
  In (key, attr) props ->
  exists x, dict_get attr e = Some x /\ dict_get key u = Some x.
Proof.
  revert acc. induction props as [ | [k a] rest IH]; intros acc; simpl;
    [intros _ _ [] | ].
  unfold getattr. destruct (dict_get a e) as [v | ] eqn:Ha; [ | discriminate].
  cbn [bind]. intros H Hnd Hin.
  inversion Hnd as [ | ? ? Hnotin Hrest]; subst.
  destruct Hin as [Heq | Hin].
  - injection Heq as <- <-. exists v. split; [exact Ha | ].
    rewrite (read_properties_other _ _ _ _ _ H Hnotin).
    rewrite dict_get_dict_set, String.eqb_refl. reflexivity.
  - eapply IH; eauto.
Qed.

Lemma read_properties_total (props : list (string * string)) (e : Self)
    (acc : Dict) :
  (forall key attr, In (key, attr) props -> In attr (dict_keys e)) ->
  exists u, read_properties props e acc = Ok u.
Proof.
  revert acc. induction props as [ | [k a] rest IH]; intros acc Hall; simpl;
    [eauto | ].
  assert (Hk : has_key a e = true).
  { apply has_key_In. apply (Hall k a). left. reflexivity. }
  unfold getattr. unfold has_key in Hk.
  destruct (dict_get a e) as [v | ]; [ | discriminate]. cbn [bind].
  apply IH. intros key attr Hin. apply (Hall key attr). right. exact Hin.
Qed.

(** ** Legend: the untrimmed mapping and back *)

Section LegendRoundTrip.
Context {env : Collaborators}.

Lemma Legend_properties_attrs (key attr : string) :
  In (key, attr) Legend_properties -> In attr (dict_keys Legend_initial).
Proof.
  intros Hin.
  assert (H : forallb
                (fun p : string * string =>
                   existsb (String.eqb (snd p)) (dict_keys Legend_initial))
                Legend_properties = true) by (vm_compute; reflexivity).
  rewrite forallb_forall in H. specialize (H _ Hin).
  apply existsb_eqb_In in H. exact H.
Qed.

Lemma Legend_properties_distinct : NoDup (map fst Legend_properties).
Proof. apply NoDup_strings_check. vm_compute. reflexivity. Qed.

(** Every assignment of the constructor has its entry in the table of
    [from_dict], with default [None], under the key that
    [_to_untrimmed_dict] writes the attribute to. *)
Lemma Legend_tables_agree (name : string) (default : PyVal) (setter : Setter) :
  In (name, default, setter) Legend_init_fields ->
  default = PyNone /\
  exists key,
    In (name, key, PyNone) Legend_from_dict_fields /\
    In (key, "_" ++ name) Legend_properties.
Proof.
  intros Hin. split.
  - unfold Legend_init_fields in Hin. simpl in Hin.
    repeat (destruct Hin as [Hin | Hin];
            [injection Hin as _ <- _; reflexivity | ]).
    contradiction.
  - assert (Hn : In name (field_names Legend_from_dict_fields)).
    { rewrite <- Legend_init_fields_names.
      apply (in_map (fun f : string * PyVal * Setter => fst (fst f))) in Hin.
      exact Hin. }
    unfold field_names in Hn. apply in_map_iff in Hn as ([[n key] d] & Hn & Hf).
    cbn [fst] in Hn. subst n.
    assert (H : forallb
                  (fun f : string * string * PyVal =>
                     (match snd f with PyNone => true | _ => false end
                      && existsb
                           (fun p : string * string =>
                              ((fst p =? snd (fst f))%string
                               && (snd p =? "_" ++ fst (fst f))%string)%bool)
                           Legend_properties)%bool)
                  Legend_from_dict_fields = true) by (vm_compute; reflexivity).
    rewrite forallb_forall in H. specialize (H _ Hf). cbn [fst snd] in H.
    apply andb_true_iff in H as [Hd Hp].
    destruct d; try discriminate.
    apply existsb_exists in Hp as ([k a] & Hp & Hb). cbn [fst snd] in Hb.
    apply andb_true_iff in Hb as [Hk Ha].
    apply String.eqb_eq in Hk, Ha. subst.
    exists key. split; assumption.
Qed.

Lemma Legend_kwargs_value (name : string) (default : PyVal) (setter : Setter)
    (e : Self) (u : Dict) :
  In (name, default, setter) Legend_init_fields ->
  read_properties Legend_properties e [] = Ok u ->
  exists x, dict_get ("_" ++ name) e = Some x /\
            dict_get_or name default (extracted_kwargs Legend_class u) = x.
Proof.
  intros Hin Hread.
  destruct (Legend_tables_agree _ _ _ Hin) as (-> & key & Hf & Hp).
  destruct (read_properties_lookup _ _ _ _ _ _ Hread Legend_properties_distinct Hp)
    as (x & He & Hu).
  exists x. split; [exact He | ].
  rewrite extracted_kwargs_get_kwargs. unfold dict_get_or at 1.
  rewrite (dict_get_get_kwargs _ _ _ name key PyNone
             (proj2 (kwargs_fields_distinct Legend_class)) Hf).
  unfold dict_get_or. rewrite Hu. reflexivity.
Qed.

Lemma Legend_state_round_trip (e : Self) :
  Legend_state e ->
  exists u, Legend_to_untrimmed_dict e = Ok u /\ Legend_from_dict u = Ok e.
Proof.
  intros [Hkeys Hrange].
  destruct (read_properties_total Legend_properties e []) as [u Hread].
  { intros key attr Hin. rewrite Hkeys. eapply Legend_properties_attrs; eauto. }
  exists u. split; [exact Hread | ].
  rewrite Legend_from_dict_unfold, Legend_init_unfold.
  destruct (assign_kwargs_replay Legend_init_fields) with
    (self := Legend_initial) (kwargs := extracted_kwargs Legend_class u)
    as (s' & rest & Hrun & Hk & _ & Hv).
  { rewrite Legend_init_fields_names.
    apply (proj2 (kwargs_fields_distinct Legend_class)). }
  { intros name default setter Hin.
    split; [eapply Legend_field_attr; eauto | ].
    intros s _.
    destruct (Legend_kwargs_value _ _ _ _ _ Hin Hread) as (x & He & ->).
    eapply Legend_setter_accepts; eauto. }
  rewrite Hrun. cbn [bind fst]. f_equal.
  apply dict_ext.
  - rewrite Hk. symmetry. exact Hkeys.
  - rewrite Hk. exact Legend_initial_distinct.
  - intros k Hin. rewrite Hk, <- Legend_init_fields_attrs in Hin.
    apply in_map_iff in Hin as ([[name default] setter] & <- & Hin).
    cbn [fst].
    destruct (Legend_kwargs_value _ _ _ _ _ Hin Hread) as (x & He & Hx).
    rewrite He.
    destruct (Hv _ _ _ Hin) as [Hsome | [Hnone Hsame]].
    + rewrite Hsome, Hx. reflexivity.
    + rewrite Hsame. rewrite Hx in Hnone. rewrite Hnone.
      assert (Hinit : In ("_" ++ name) (dict_keys Legend_initial))
        by (eapply Legend_field_attr; eauto).
      apply has_key_In in Hinit. unfold has_key in Hinit.
      destruct (dict_get ("_" ++ name) Legend_initial) as [y | ] eqn:Hy;
        [ | discriminate].
      apply Legend_initial_values in Hy. subst y. reflexivity.
Qed.

End LegendRoundTrip.

(** ** Constructors: one refusal fails the call, each attribute is its setter's *)

Lemma dict_pop_value (name : string) (default : PyVal) (kwargs : Dict) :
  fst (dict_pop name default kwargs) = dict_get_or name default kwargs.
Proof. unfold dict_pop, dict_get_or. destruct (dict_get name kwargs); reflexivity. Qed.

Lemma dict_pop_other (name n : string) (default d : PyVal) (kwargs : Dict) :
  n <> name ->
  dict_get_or n d (snd (dict_pop name default kwargs)) = dict_get_or n d kwargs.
Proof.
  intros Hne. unfold dict_pop, dict_get_or.
  destruct (dict_get name kwargs); simpl; [ | reflexivity].
  rewrite dict_get_remove_other by exact Hne. reflexivity.
Qed.

Lemma assign_kwargs_cons (name : string) (default : PyVal) (setter : Setter)
    (fs : list (string * PyVal * Setter)) (self : Self) (kwargs : Dict) :
  assign_kwargs ((name, default, setter) :: fs) self kwargs
  = (self' <- setter self (dict_get_or name default kwargs) ;;
     assign_kwargs fs self' (snd (dict_pop name default kwargs))).
Proof.
  simpl. rewrite <- dict_pop_value.
  destruct (dict_pop name default kwargs). reflexivity.
Qed.

Lemma field_name_fresh (name : string) (fs : list (string * PyVal * Setter))
    (n : string) (d : PyVal) (st : Setter) :
  ~ In name (map (fun f => fst (fst f)) fs) -> In (n, d, st) fs -> n <> name.
Proof.
  intros Hnotin Hin ->. apply Hnotin.
  apply (in_map (fun f => fst (fst f))) in Hin. exact Hin.
Qed.

(** A value that one setter refuses on every instance fails the whole
    constructor. *)
Lemma assign_kwargs_fails (fields : list (string * PyVal * Setter)) :
  NoDup (map (fun f => fst (fst f)) fields) ->
  forall (self kwargs : Dict) (name : string) (default : PyVal) (setter : Setter),
    In (name, default, setter) fields ->
    (forall s, succeeded (setter s (dict_get_or name default kwargs)) = false) ->
    succeeded (assign_kwargs fields self kwargs) = false.
Proof.
  induction fields as [ | [[n0 d0] st0] fs IH];
    intros Hnd self kwargs name default setter Hin Hfail; [destruct Hin | ].
  simpl in Hnd. inversion Hnd as [ | ? ? Hnotin Hrest]; subst.
  rewrite assign_kwargs_cons.
  destruct Hin as [Heq | Hin].
  - injection Heq as -> -> ->. specialize (Hfail self).
    destruct (setter self (dict_get_or name default kwargs)); [discriminate | reflexivity].
  - destruct (st0 self (dict_get_or n0 d0 kwargs)) as [s1 | ]; [ | reflexivity].
    cbn [bind]. apply (IH Hrest s1 _ name default setter Hin).
    intros s. rewrite dict_pop_other by (eapply field_name_fresh; eauto).
    apply Hfail.
Qed.

(** When every setter of the table writes to its own attribute only, the
    constructed instance holds under each attribute what that attribute's
    setter stored for the keyword argument, or for the default. *)
Lemma assign_kwargs_field (fields : list (string * PyVal * Setter)) :
  NoDup (map (fun f => fst (fst f)) fields) ->
  (forall name default setter s v s' a,
      In (name, default, setter) fields -> setter s v = Ok s' ->
      a <> "_" ++ name -> dict_get a s' = dict_get a s) ->
  forall (self kwargs s' rest : Dict),
    assign_kwargs fields self kwargs = Ok (s', rest) ->
    forall name default setter,
      In (name, default, setter) fields ->
      exists s0 s1,
        setter s0 (dict_get_or name default kwargs) = Ok s1 /\
        dict_get ("_" ++ name) s0 = dict_get ("_" ++ name) self /\
        dict_get ("_" ++ name) s' = dict_get ("_" ++ name) s1.
Proof.
  induction fields as [ | [[n0 d0] st0] fs IH];
    intros Hnd Hframe self kwargs s' rest Hrun name default setter Hin;
    [destruct Hin | ].
  simpl in Hnd. inversion Hnd as [ | ? ? Hnotin Hrest]; subst.
  rewrite assign_kwargs_cons in Hrun.
  destruct (st0 self (dict_get_or n0 d0 kwargs)) as [s1 | ] eqn:H1; [ | discriminate].
  cbn [bind] in Hrun.
  destruct Hin as [Heq | Hin].
  - injection Heq as -> -> ->. exists self, s1.
    split; [exact H1 | split; [reflexivity | ]].
    apply (assign_kwargs_preserves
             (fun s => dict_get ("_" ++ name) s = dict_get ("_" ++ name) s1)
             fs s1 s' (snd (dict_pop name default kwargs)) rest);
      [ | reflexivity | exact Hrun].
    intros n d st s v s2 Hin Hs HI. rewrite <- HI.
    apply (Hframe n d st s v s2); [right; exact Hin | exact Hs | ].
    intros Heq. apply append_underscore_inj in Heq.
    apply (field_name_fresh _ _ _ _ _ Hnotin Hin). symmetry. exact Heq.
  - destruct (IH Hrest
                (fun n d st s v s2 a Hi => Hframe n d st s v s2 a (or_intror Hi))
                s1 _ s' rest Hrun name default setter Hin)
      as (s0 & s2 & Hs & H0 & Hg).
    assert (Hne : name <> n0) by (eapply field_name_fresh; eauto).
    exists s0, s2. split; [ | split; [ | exact Hg]].
    + rewrite dict_pop_other in Hs by exact Hne. exact Hs.
    + rewrite H0.
      apply (Hframe n0 d0 st0 self (dict_get_or n0 d0 kwargs) s1);
        [left; reflexivity | exact H1 | ].
      intros Heq. apply append_underscore_inj in Heq. congruence.
Qed.

(** ** Legend: what holds of every instance *)

Section LegendTheorems.
Context {env : Collaborators}.

Lemma Legend_init_fields_distinct :
  NoDup (map (fun f : string * PyVal * Setter => fst (fst f)) Legend_init_fields).
Proof.
  rewrite Legend_init_fields_names.
  exact (proj2 (kwargs_fields_distinct Legend_class)).
Qed.

Lemma Legend_setter_frame (name : string) (default : PyVal) (setter : Setter)
    (s s' : Self) (v : PyVal) (a : string) :
  In (name, default, setter) Legend_init_fields -> setter s v = Ok s' ->
  a <> "_" ++ name -> dict_get a s' = dict_get a s.
Proof.
  intros Hin Hset Hne.
  destruct (Legend_setter_writes _ _ _ _ _ _ Hin Hset) as [-> | (x & -> & _)];
    [reflexivity | ].
  unfold setattr. rewrite dict_get_dict_set.
  destruct (String.eqb_spec ("_" ++ name) a); [congruence | reflexivity].
Qed.

End LegendTheorems.

(** ** The constructors, class by class *)

Ltac state_setters_delta H :=
  cbv beta delta
    [Zone_class_name_setter Zone_value_setter
     HoverState_animation_setter HoverState_brightness_setter
     HoverState_color_setter HoverState_enabled_setter
     InactiveState_animation_setter InactiveState_enabled_setter
     InactiveState_opacity_setter
     SelectState_animation_setter SelectState_color_setter
     SelectState_enabled_setter] in H.

Ltac setter_writes H value :=
  first
    [ apply resolving_setter_stores in H;
      destruct H as (? & -> & _); right; eexists; reflexivity
    | apply Zone_dash_style_setter_stores in H;
      destruct H as (? & -> & _); right; eexists; reflexivity
    | state_setters_delta H;
      match type of H with
      | bind ?r _ = Ok _ =>
          destruct r; [ | discriminate];
          cbn [bind] in H; injection H as <-; right; eexists; reflexivity
      end
    | state_setters_delta H;
      destruct value; injection H as <-; right; eexists; reflexivity ].

Section Constructed.
Context {env : Collaborators}.

Lemma constructed_unfold (c : OptionClass) (f : Dict -> Result Self)
    (initial : Self) (fields : list (string * PyVal * Setter)) (d : Dict) :
  constructed c = Some (f, initial, fields) ->
  f d = (r <- assign_kwargs fields initial (extracted_kwargs c d) ;; Ok (fst r)).
Proof.
  destruct c; intros H; try discriminate; injection H as <- <- <-; reflexivity.
Qed.

Lemma constructed_names (c : OptionClass) (f : Dict -> Result Self)
    (initial : Self) (fields : list (string * PyVal * Setter)) :
  constructed c = Some (f, initial, fields) ->
  map (fun x : string * PyVal * Setter => fst (fst x)) fields
  = field_names (kwargs_fields c) /\
  map (fun x : string * PyVal * Setter => "_" ++ fst (fst x)) fields
  = dict_keys initial.
Proof.
  destruct c; intros H; try discriminate; injection H as <- <- <-;
    split; reflexivity.
Qed.

Lemma constructed_distinct (c : OptionClass) (f : Dict -> Result Self)
    (initial : Self) (fields : list (string * PyVal * Setter)) :
  constructed c = Some (f, initial, fields) ->
  NoDup (map (fun x : string * PyVal * Setter => fst (fst x)) fields).
Proof.
  intros H. rewrite (proj1 (constructed_names _ _ _ _ H)).
  apply kwargs_fields_distinct.
Qed.

(** An assignment leaves the instance as it is, or stores into the
    property's own attribute. *)
Lemma constructed_writes (c : OptionClass) (f : Dict -> Result Self)
    (initial : Self) (fields : list (string * PyVal * Setter))
    (name : string) (default : PyVal) (setter : Setter)
    (s s' : Self) (v : PyVal) :
  constructed c = Some (f, initial, fields) ->
  In (name, default, setter) fields ->
  setter s v = Ok s' ->
  s' = s \/ exists x, s' = setattr s ("_" ++ name) x.
Proof.
  intros Hc Hin H.
  destruct c; try discriminate; injection Hc as <- <- <-.
  5: { destruct (Legend_setter_writes _ _ _ _ _ _ Hin H) as [-> | (x & -> & _)];
       eauto. }
  all: simpl in Hin;
    repeat (destruct Hin as [Hin | Hin];
            [ injection Hin as <- <- <-; setter_writes H v | ]);
    contradiction.
Qed.

Lemma constructed_frame (c : OptionClass) (f : Dict -> Result Self)
    (initial : Self) (fields : list (string * PyVal * Setter))
    (name : string) (default : PyVal) (setter : Setter)
    (s : Self) (v : PyVal) (s' : Self) (a : string) :
  constructed c = Some (f, initial, fields) ->
  In (name, default, setter) fields ->
  setter s v = Ok s' ->
  a <> "_" ++ name -> dict_get a s' = dict_get a s.
Proof.
  intros Hc Hin H Hne.
  destruct (constructed_writes _ _ _ _ _ _ _ _ _ _ Hc Hin H) as [-> | (x & ->)];
    [reflexivity | ].
  unfold setattr. rewrite dict_get_dict_set.
  destruct (String.eqb_spec ("_" ++ name) a); [congruence | reflexivity].
Qed.

(** The keyword argument a recognised key arrives as. *)
Lemma constructed_argument (c : OptionClass) (f : Dict -> Result Self)
    (initial : Self) (fields : list (string * PyVal * Setter))
    (name key : string) (d1 d2 : PyVal) (d : Dict) :
  In (name, key, d1) (kwargs_fields c) ->
  dict_get_or name d2 (extracted_kwargs c d) = dict_get_or key d1 d.
Proof.
  intros Hk. rewrite extracted_kwargs_get_kwargs. unfold dict_get_or at 1.
  rewrite (dict_get_get_kwargs _ _ _ name key d1
             (proj2 (kwargs_fields_distinct c)) Hk).
  reflexivity.
Qed.

Lemma constructed_field (c : OptionClass) (f : Dict -> Result Self)
    (initial : Self) (fields : list (string * PyVal * Setter))
    (name key : string) (d1 d2 : PyVal) (setter : Setter) (d : Dict) (e : Self) :
  constructed c = Some (f, initial, fields) ->
  In (name, key, d1) (kwargs_fields c) ->
  In (name, d2, setter) fields ->
  f d = Ok e ->
  exists s0 s1,
    setter s0 (dict_get_or key d1 d) = Ok s1 /\
    dict_get ("_" ++ name) s0 = dict_get ("_" ++ name) initial /\
    dict_get ("_" ++ name) e = dict_get ("_" ++ name) s1.
Proof.
  intros Hc Hk Hin Hrun.
  rewrite (constructed_unfold _ _ _ _ d Hc) in Hrun.
  destruct (assign_kwargs fields initial (extracted_kwargs c d))
    as [[s' rest] | ] eqn:Ha; [ | discriminate].
  cbn [bind fst] in Hrun. injection Hrun as <-.
  destruct (assign_kwargs_field fields (constructed_distinct _ _ _ _ Hc)
              (fun n df st s v s2 a Hi Hs Hne =>
                 constructed_frame _ _ _ _ n df st s v s2 a Hc Hi Hs Hne)
              _ _ _ _ Ha name d2 setter Hin) as (s0 & s1 & Hs & H0 & Hg).
  rewrite (constructed_argument c f initial fields name key d1 d2 d Hk) in Hs.
  exists s0, s1. auto.
Qed.

Lemma constructed_fails (c : OptionClass) (f : Dict -> Result Self)
    (initial : Self) (fields : list (string * PyVal * Setter))
    (name key : string) (d1 d2 : PyVal) (setter : Setter) (d : Dict) :
  constructed c = Some (f, initial, fields) ->
  In (name, key, d1) (kwargs_fields c) ->
  In (name, d2, setter) fields ->
  (forall s, succeeded (setter s (dict_get_or key d1 d)) = false) ->
  succeeded (f d) = false.
Proof.
  intros Hc Hk Hin Hfail.
  rewrite (constructed_unfold _ _ _ _ d Hc).
  pose proof (assign_kwargs_fails fields (constructed_distinct _ _ _ _ Hc)
                initial (extracted_kwargs c d) name d2 setter Hin) as H.
  rewrite (constructed_argument c f initial fields name key d1 d2 d Hk) in H.
  specialize (H Hfail).
  destruct (assign_kwargs fields initial (extracted_kwargs c d));
    [discriminate | reflexivity].
Qed.

End Constructed.

(** ** Building an instance from a mapping *)

Section FromDict.
Context {env : Collaborators}.

Lemma getattr_setattr (self : Self) (attr : string) (x : PyVal) :
  dict_get attr (setattr self attr x) = Some x.
Proof. unfold setattr. rewrite dict_get_dict_set, String.eqb_refl. reflexivity. Qed.

Lemma constructed_setter (c : OptionClass) (f : Dict -> Result Self)
    (initial : Self) (fields : list (string * PyVal * Setter))
    (name key : string) (d1 : PyVal) :
  constructed c = Some (f, initial, fields) ->
  In (name, key, d1) (kwargs_fields c) ->
  exists d2 setter, In (name, d2, setter) fields.
Proof.
  intros Hc Hk.
  apply (in_map (fun x : string * string * PyVal => fst (fst x))) in Hk.
  cbn [fst] in Hk. fold (field_names (kwargs_fields c)) in Hk.
  rewrite <- (proj1 (constructed_names _ _ _ _ Hc)) in Hk.
  apply in_map_iff in Hk as ([[n d2] st] & Hn & Hin). cbn [fst] in Hn. subst n.
  eauto.
Qed.

(** The default of a recognised key goes through the key's setter
    unchanged; the one default that its setter refuses is the border
    colour of [SelectState]. *)
Lemma default_stored (c : OptionClass) (f : Dict -> Result Self)
    (initial : Self) (fields : list (string * PyVal * Setter))
    (name key : string) (d1 d2 : PyVal) (setter : Setter) (s0 s1 : Self) :
  constructed c = Some (f, initial, fields) ->
  In (name, key, d1) (kwargs_fields c) ->
  In (name, d2, setter) fields ->
  setter s0 d1 = Ok s1 ->
  dict_get ("_" ++ name) s0 = dict_get ("_" ++ name) initial ->
  dict_get ("_" ++ name) s1 = Some d1.
Proof.
  intros Hc Hk Hin Hset H0.
  destruct c; try discriminate; injection Hc as <- <- <-.
  5: { destruct (Legend_tables_agree _ _ _ Hin) as (-> & key' & Hk' & _).
       assert (Hd : d1 = PyNone).
       { pose proof (dict_get_get_kwargs _ [] [] name key d1
                       (proj2 (kwargs_fields_distinct Legend_class)) Hk) as E1.
         pose proof (dict_get_get_kwargs _ [] [] name key' PyNone
                       (proj2 (kwargs_fields_distinct Legend_class)) Hk') as E2.
         rewrite E1 in E2. injection E2 as E2. exact E2. }
       subst d1.
       destruct (Legend_setter_accepts _ _ _ PyNone s0 Hin (Legend_range_None _))
         as [Hs | [_ Hs]]; rewrite Hs in Hset; injection Hset as <-.
       - apply getattr_setattr.
       - rewrite H0.
         pose proof (has_key_In _ _ (Legend_field_attr _ _ _ Hin)) as Hp.
         unfold has_key in Hp.
         destruct (dict_get ("_" ++ name) Legend_initial) as [x | ] eqn:Hx;
           [ | discriminate].
         rewrite (Legend_initial_values _ _ Hx). reflexivity. }
  all: simpl in Hk;
    repeat (destruct Hk as [Hk | Hk];
            [ injection Hk as <- <- <-; simpl in Hin;
              repeat (destruct Hin as [Hin | Hin];
                      [ first [ discriminate Hin
                              | injection Hin as <- <-; simpl in Hset;
                                first [ discriminate Hset
                                      | injection Hset as <-;
                                        apply getattr_setattr ] ]
                      | ]);
              contradiction
            | ]);
    contradiction.
Qed.


(** X5. [from_dict] hands the value under each recognised key, or the
    key's default when the key is missing, to the setter of the matching
    property.  If that setter refuses the value whatever the instance, the
    whole call fails, whatever else the mapping holds; and when the call
    returns an instance, the attribute holds what that setter stored for
    that value. *)
Theorem from_dict_runs_each_setter (c : OptionClass) (f : Dict -> Result Self)
    (initial : Self) (fields : list (string * PyVal * Setter))
    (name key : string) (d1 d2 : PyVal) (setter : Setter) (d : Dict) :
  constructed c = Some (f, initial, fields) ->
  In (name, key, d1) (kwargs_fields c) ->
  In (name, d2, setter) fields ->
  ((forall s, succeeded (setter s (dict_get_or key d1 d)) = false) ->
   succeeded (f d) = false) /\
  (forall e, f d = Ok e ->
     exists s0 s1,
       setter s0 (dict_get_or key d1 d) = Ok s1 /\
       getattr e ("_" ++ name) = getattr s1 ("_" ++ name)).
Proof.
  intros Hc Hk Hin. split.
  - apply (constructed_fails c f initial fields name key d1 d2 setter d Hc Hk Hin).
  - intros e He.
    destruct (constructed_field c f initial fields name key d1 d2 setter d e
                Hc Hk Hin He) as (s0 & s1 & Hs & _ & Hg).
    exists s0, s1. split; [exact Hs | ]. unfold getattr. rewrite Hg. reflexivity.
Qed.

(** X6. A key that is missing from the mapping leaves its attribute at the
    default of the [from_dict] table: [True] for [enabled] of the three
    state classes, [0.1] for the brightness of [HoverState], [0.2] for the
    opacity of [InactiveState], ['#cccccc'] for the colour of
    [SelectState], and [None] everywhere else. *)
Theorem missing_key_gives_default (c : OptionClass) (f : Dict -> Result Self)
    (initial : Self) (fields : list (string * PyVal * Setter))
    (name key : string) (default : PyVal) (d : Dict) (e : Self) :
  constructed c = Some (f, initial, fields) ->
  In (name, key, default) (kwargs_fields c) ->
  has_key key d = false ->
  f d = Ok e ->
  getattr e ("_" ++ name) = Ok default.
Proof.
  intros Hc Hk Hmiss He.
  destruct (constructed_setter c f initial fields name key default Hc Hk)
    as (d2 & setter & Hin).
  destruct (constructed_field c f initial fields name key default d2 setter d e
              Hc Hk Hin He) as (s0 & s1 & Hs & H0 & Hg).
  assert (Hv : dict_get_or key default d = default).
  { unfold dict_get_or. unfold has_key in Hmiss.
    destruct (dict_get key d); [discriminate | reflexivity]. }
  rewrite Hv in Hs.
  unfold getattr. rewrite Hg.
  rewrite (default_stored c f initial fields name key default d2 setter s0 s1
             Hc Hk Hin Hs H0).
  reflexivity.
Qed.

(** X7. [SelectState] cannot be built without a border colour: the default
    ['#000000'] that [__init__] and [from_dict] fall back on is a plain
    colour string, which the border colour's own setter refuses. *)
Theorem SelectState_default_border_color_is_refused (kwargs d : Dict) :
  has_key "border_color" kwargs = false ->
  has_key "borderColor" d = false ->
  succeeded (SelectState_init kwargs) = false /\
  succeeded (SelectState_from_dict d) = false.
Proof.
  intros Hkw Hd.
  assert (Hfail : forall s : Self,
             succeeded (SelectState_border_color_setter s (PyStr "#000000")) = false)
    by (intros s; reflexivity).
  split.
  - change (succeeded (r <- assign_kwargs SelectState_init_fields
                             SelectState_initial kwargs ;; Ok (fst r)) = false).
    assert (H : succeeded (assign_kwargs SelectState_init_fields
                             SelectState_initial kwargs) = false).
    { apply (assign_kwargs_fails SelectState_init_fields
               (constructed_distinct SelectState_class _ _ _ eq_refl)
               SelectState_initial kwargs "border_color" (PyStr "#000000")
               SelectState_border_color_setter).
      - right; left; reflexivity.
      - intros s. unfold dict_get_or. unfold has_key in Hkw.
        destruct (dict_get "border_color" kwargs); [discriminate | apply Hfail]. }
    destruct (assign_kwargs SelectState_init_fields SelectState_initial kwargs);
      [discriminate | reflexivity].
  - apply (constructed_fails SelectState_class SelectState_from_dict
             SelectState_initial SelectState_init_fields
             "border_color" "borderColor" (PyStr "#000000") (PyStr "#000000")
             SelectState_border_color_setter d eq_refl).
    + right; left; reflexivity.
    + right; left; reflexivity.
    + intros s. unfold dict_get_or. unfold has_key in Hd.
      destruct (dict_get "borderColor" d); [discriminate | apply Hfail].
Qed.

End FromDict.

Lemma from_dict_runs_each_setter_witness :
  succeeded (@Zone_from_dict reference_collaborators
               [("value", PyInt 3); ("dashStyle", PyStr "zigzag")]) = false /\
  exists s0 s1,
    @Zone_value_setter reference_collaborators s0 (PyInt 3) = Ok s1 /\
    getattr (setattr Zone_initial "_value" (PyInt 3)) "_value"
    = getattr s1 "_value".
Proof.
  split.
  - apply (proj1 (@from_dict_runs_each_setter reference_collaborators
                    Zone_class Zone_from_dict Zone_initial Zone_init_fields
                    "dash_style" "dashStyle" PyNone PyNone
                    Zone_dash_style_setter
                    [("value", PyInt 3); ("dashStyle", PyStr "zigzag")]
                    eq_refl
                    (or_intror (or_intror (or_introl eq_refl)))
                    (or_intror (or_intror (or_introl eq_refl))))).
    intros s. reflexivity.
  - apply (proj2 (@from_dict_runs_each_setter reference_collaborators
                    Zone_class Zone_from_dict Zone_initial Zone_init_fields
                    "value" "value" PyNone PyNone
                    Zone_value_setter [("value", PyInt 3)]
                    eq_refl
                    (or_intror (or_intror (or_intror (or_intror (or_introl eq_refl)))))
                    (or_intror (or_intror (or_intror (or_intror (or_introl eq_refl))))))).
    reflexivity.
Defined.

Lemma missing_key_gives_default_witness :
  exists e,
    @HoverState_from_dict reference_collaborators [("enabled", PyNone)] = Ok e /\
    getattr e "_brightness" = Ok (PyFloat float_0_1) /\
    getattr e "_enabled" = Ok PyNone.
Proof.
  exists [("_animation", PyNone); ("_border_color", PyNone);
          ("_brightness", PyFloat float_0_1); ("_color", PyNone);
          ("_enabled", PyNone)].
  split; [reflexivity | split; [ | reflexivity]].
  apply (@missing_key_gives_default reference_collaborators HoverState_class
           _ _ _ "brightness" "brightness" (PyFloat float_0_1)
           [("enabled", PyNone)] _ eq_refl).
  - right; right; left; reflexivity.
  - reflexivity.
  - reflexivity.
Defined.

Lemma SelectState_default_border_color_is_refused_witness :
  succeeded (@SelectState_init reference_collaborators [("enabled", PyBool false)])
  = false /\
  succeeded (@SelectState_from_dict reference_collaborators [("color", PyStr "red")])
  = false.
Proof.
  apply (@SelectState_default_border_color_is_refused reference_collaborators);
    reflexivity.
Defined.

(** ** Families of setters *)

Section SetterFamilies.
Context {env : Collaborators}.

Lemma resolving_setters_body (attr : string) (setter : Setter) :
  In (attr, setter) resolving_setters ->
  exists unresolved, setter = resolving_setter attr unresolved.
Proof.
  intros Hin. simpl in Hin.
  repeat (destruct Hin as [Hin | Hin];
          [injection Hin as <- <-; eexists; reflexivity | ]).
  contradiction.
Qed.

Lemma resolving_setter_agrees (a1 a2 : string) (e1 e2 : PyExc)
    (s1 s2 : Self) (value : PyVal) :
  match resolving_setter a1 e1 s1 value, resolving_setter a2 e2 s2 value with
  | Ok s1', Ok s2' => exists x, s1' = setattr s1 a1 x /\ s2' = setattr s2 a2 x
  | Raise _, Raise _ => True
  | _, _ => False
  end.
Proof.
  unfold resolving_setter.
  repeat match goal with
         | |- context [if ?b then _ else _] =>
             lazymatch type of b with
             | bool => destruct b
             end
         | |- context [bind ?r _] => destruct r; cbn [bind]
         end;
    first [exact I | eexists; split; reflexivity].
Qed.

(** X8. The ten resolving colour setters share one decision procedure: on
    the same value any two of them both fail or both succeed, and when they
    succeed each stores the same resolved value into its own attribute. *)
Theorem resolving_setters_agree (a1 a2 : string) (st1 st2 : Setter)
    (s1 s2 : Self) (value : PyVal) :
  In (a1, st1) resolving_setters ->
  In (a2, st2) resolving_setters ->
  match st1 s1 value, st2 s2 value with
  | Ok s1', Ok s2' => exists x, s1' = setattr s1 a1 x /\ s2' = setattr s2 a2 x
  | Raise _, Raise _ => True
  | _, _ => False
  end.
Proof.
  intros H1 H2.
  destruct (resolving_setters_body _ _ H1) as (e1 & ->).
  destruct (resolving_setters_body _ _ H2) as (e2 & ->).
  apply resolving_setter_agrees.
Qed.

(** X9. The numeric setters that pass [minimum = 0] store [None], zero and
    every positive number as given and raise [MinimumValueError] on every
    negative one; the numeric setters without a bound store every
    number, negative ones too. *)
Theorem numeric_setters_enforce_their_bound (attr : string) (setter : Setter)
    (self : Self) (v : PyVal) (q : Q) :
  validators.as_Q v = Some q ->
  (In (attr, setter) nonnegative_setters ->
   setter self PyNone = Ok (setattr self attr PyNone) /\
   setter self v = if Qle_bool 0 q then Ok (setattr self attr v)
                   else Raise MinimumValueError) /\
  (In (attr, setter) unbounded_setters ->
   setter self PyNone = Ok (setattr self attr PyNone) /\
   setter self v = Ok (setattr self attr v)).
Proof.
  intros Hq. split; intros Hin; simpl in Hin;
    repeat (destruct Hin as [Hin | Hin];
            [ injection Hin as <- <-; split; [reflexivity | ];
              destruct v; try discriminate; injection Hq as <-;
              cbv beta delta
                [Legend_item_distance_setter Legend_item_margin_bottom_setter
                 Legend_item_margin_top_setter Legend_item_width_setter
                 Legend_max_height_setter Legend_symbol_height_setter
                 Legend_symbol_width_setter HeatmapOptions_border_radius_setter
                 TreemapOptions_line_width_setter
                 TreemapOptions_point_interval_setter
                 Zone_value_setter HoverState_brightness_setter
                 InactiveState_opacity_setter Legend_border_radius_setter
                 Legend_border_width_setter Legend_margin_setter
                 Legend_padding_setter Legend_symbol_padding_setter
                 Legend_symbol_radius_setter HeatmapOptions_point_padding_setter
                 TreemapOptions_point_start_setter validators.numeric];
              cbn [bind validators.as_Q];
              match goal with
              | |- context [Qle_bool ?a ?b] => destruct (Qle_bool a b)
              | _ => idtac
              end; reflexivity
            | ]);
    contradiction.
Qed.

(** X10. [TreemapOptions.stacking] matches its input after lower-casing it:
    a non-empty string whose lower-cased form is one of the four stacking
    names is stored in that lower-cased form, any other non-empty string
    is refused. *)
Theorem TreemapOptions_stacking_matches_lowercased (self : Self) (s : string) :
  s <> "" ->
  TreemapOptions_stacking_setter self (PyStr s)
  = if str_in (lower s) ["normal"; "percent"; "stream"; "overlap"]
    then Ok (setattr self "_stacking" (PyStr (lower s)))
    else Raise stacking_error.
Proof.
  intros Hs. unfold TreemapOptions_stacking_setter, validators.string.
  rewrite (nonempty_truthy s Hs).
  cbn [negb andb is_str bind py_lower py_str_in].
  destruct (str_in (lower s) ["normal"; "percent"; "stream"; "overlap"]);
    reflexivity.
Qed.

End SetterFamilies.

Lemma resolving_setters_agree_witness :
  match @Zone_color_setter reference_collaborators [("_color", PyNone)]
          (PyDict [("linearGradient", PyDict [("x1", PyInt 0)])]),
        @TreemapOptions_negative_color_setter reference_collaborators
          [("_negative_color", PyNone)]
          (PyDict [("linearGradient", PyDict [("x1", PyInt 0)])]) with
  | Ok s1', Ok s2' =>
      exists x, s1' = setattr [("_color", PyNone)] "_color" x /\
                s2' = setattr [("_negative_color", PyNone)] "_negative_color" x
  | Raise _, Raise _ => True
  | _, _ => False
  end.
Proof.
  apply (@resolving_setters_agree reference_collaborators "_color" "_negative_color").
  - left. reflexivity.
  - do 9 right. left. reflexivity.
Defined.

Lemma numeric_setters_enforce_their_bound_witness :
  @Legend_item_distance_setter reference_collaborators
    [("_item_distance", PyNone)] (PyInt (-5)) = Raise MinimumValueError /\
  @Legend_margin_setter reference_collaborators
    [("_margin", PyNone)] (PyInt (-5)) = Ok [("_margin", PyInt (-5))].
Proof.
  split.
  - apply (proj2 (proj1 (@numeric_setters_enforce_their_bound reference_collaborators
                           "_item_distance" Legend_item_distance_setter
                           [("_item_distance", PyNone)] (PyInt (-5)) (inject_Z (-5))
                           eq_refl) (or_introl eq_refl))).
  - apply (proj2 (proj2 (@numeric_setters_enforce_their_bound reference_collaborators
                           "_margin" Legend_margin_setter
                           [("_margin", PyNone)] (PyInt (-5)) (inject_Z (-5))
                           eq_refl)
                    (or_intror (or_intror (or_intror (or_intror (or_intror
                       (or_introl eq_refl)))))))).
Defined.

Lemma TreemapOptions_stacking_matches_lowercased_witness :
  TreemapOptions_stacking_setter [("_stacking", PyNone)] (PyStr "Percent")
  = Ok [("_stacking", PyStr "percent")] /\
  TreemapOptions_stacking_setter [("_stacking", PyNone)] (PyStr "stacked")
  = Raise stacking_error.
Proof.
  split.
  - apply (TreemapOptions_stacking_matches_lowercased
             [("_stacking", PyNone)] "Percent"). discriminate.
  - apply (TreemapOptions_stacking_matches_lowercased
             [("_stacking", PyNone)] "stacked"). discriminate.
Defined.

(** ** Legend and Zone: what holds of every instance *)

Section Instances.
Context {env : Collaborators}.

Lemma getattr_dict_get (e : Self) (attr : string) (x : PyVal) :
  getattr e attr = Ok x -> dict_get attr e = Some x.
Proof.
  unfold getattr. destruct (dict_get attr e); intros H; [ | discriminate].
  injection H as <-. reflexivity.
Qed.

(** X11. Whatever a [Legend] has been built from and whatever has been
    assigned to its properties since, writing it out with
    [_to_untrimmed_dict] succeeds, and [from_dict] reads that mapping back
    to the same instance. *)
Theorem Legend_untrimmed_round_trip (e : Self) :
  Legend_built e ->
  exists u, Legend_to_untrimmed_dict e = Ok u /\ Legend_from_dict u = Ok e.
Proof.
  intros H. apply Legend_state_round_trip. apply Legend_built_state. exact H.
Qed.

(** X12. Every [Legend] carries the forty attributes of its constructor;
    [x] and [y] are [None] whatever was assigned to them; the three
    alignment fields hold [None] or one of their lower-case names; the
    seven bounded dimensions hold [None] or a number that is not negative;
    the seven flags hold [None] or a boolean. *)
Theorem Legend_attributes_in_range (e : Self) :
  Legend_built e ->
  dict_keys e = dict_keys Legend_initial /\
  getattr e "_x" = Ok PyNone /\
  getattr e "_y" = Ok PyNone /\
  (forall x, getattr e "_align" = Ok x ->
             none_or_one_of ["left"; "center"; "right"] x) /\
  (forall x, getattr e "_layout" = Ok x ->
             none_or_one_of ["horizontal"; "vertical"; "proximate"] x) /\
  (forall x, getattr e "_vertical_align" = Ok x ->
             none_or_one_of ["bottom"; "middle"; "top"] x) /\
  (forall attr x,
      In attr ["_item_distance"; "_item_margin_bottom"; "_item_margin_top";
               "_item_width"; "_max_height"; "_symbol_height"; "_symbol_width"] ->
      getattr e attr = Ok x -> none_or_nonnegative x) /\
  (forall attr x,
      In attr ["_align_columns"; "_enabled"; "_floating"; "_reversed"; "_rtl";
               "_square_symbol"; "_use_html"] ->
      getattr e attr = Ok x -> none_or_bool x).
Proof.
  intros Hb. destruct (Legend_built_state e Hb) as [Hkeys Hrange].
  assert (Hnone : forall attr,
             In attr ["_x"; "_y"] -> getattr e attr = Ok PyNone).
  { intros attr Hin.
    assert (Hk : has_key attr e = true).
    { apply has_key_In. rewrite Hkeys.
      destruct Hin as [<- | [<- | []]]; vm_compute; tauto. }
    unfold has_key in Hk. unfold getattr.
    destruct (dict_get attr e) as [v | ] eqn:Hv; [ | discriminate].
    pose proof (Hrange _ _ Hv) as Hr.
    destruct Hin as [<- | [<- | []]]; revert Hr; Legend_range_compute;
      intros <-; reflexivity. }
  split; [exact Hkeys | ].
  split; [apply Hnone; left; reflexivity | ].
  split; [apply Hnone; right; left; reflexivity | ].
  repeat split.
  - intros x Hg. apply getattr_dict_get in Hg.
    pose proof (Hrange _ _ Hg) as Hr. revert Hr. Legend_range_compute. tauto.
  - intros x Hg. apply getattr_dict_get in Hg.
    pose proof (Hrange _ _ Hg) as Hr. revert Hr. Legend_range_compute. tauto.
  - intros x Hg. apply getattr_dict_get in Hg.
    pose proof (Hrange _ _ Hg) as Hr. revert Hr. Legend_range_compute. tauto.
  - intros attr x Hin Hg. apply getattr_dict_get in Hg.
    pose proof (Hrange _ _ Hg) as Hr. revert Hr. simpl in Hin.
    repeat (destruct Hin as [<- | Hin]; [Legend_range_compute; tauto | ]).
    contradiction.
  - intros attr x Hin Hg. apply getattr_dict_get in Hg.
    pose proof (Hrange _ _ Hg) as Hr. revert Hr. simpl in Hin.
    repeat (destruct Hin as [<- | Hin]; [Legend_range_compute; tauto | ]).
    contradiction.
Qed.

(** X13. Assigning to a property of a [Legend] the value the property
    currently holds is accepted and leaves the instance exactly as it
    was. *)
Theorem Legend_reassigning_changes_nothing (e : Self) (name : string)
    (default : PyVal) (setter : Setter) (x : PyVal) :
  Legend_built e ->
  In (name, default, setter) Legend_init_fields ->
  getattr e ("_" ++ name) = Ok x ->
  setter e x = Ok e.
Proof.
  intros Hb Hin Hg. apply getattr_dict_get in Hg.
  destruct (Legend_built_state e Hb) as [_ Hrange].
  destruct (Legend_setter_accepts _ _ _ x e Hin (Hrange _ _ Hg))
    as [Hs | [-> Hs]]; [ | exact Hs].
  rewrite Hs. unfold setattr. rewrite (dict_set_same _ _ _ Hg). reflexivity.
Qed.

(** X14. An assignment to one property of a [Legend] changes no other
    attribute, and adds none to an instance that has the property's
    attribute already. *)
Theorem Legend_assignment_touches_one_attribute (name : string)
    (default : PyVal) (setter : Setter) (self self' : Self) (value : PyVal) :
  In (name, default, setter) Legend_init_fields ->
  setter self value = Ok self' ->
  (forall attr, attr <> "_" ++ name -> getattr self' attr = getattr self attr) /\
  (In ("_" ++ name) (dict_keys self) -> dict_keys self' = dict_keys self).
Proof.
  intros Hin Hset. split.
  - intros attr Hne. unfold getattr.
    rewrite (Legend_setter_frame _ _ _ _ _ _ _ Hin Hset Hne). reflexivity.
  - intros Hk.
    destruct (Legend_setter_writes _ _ _ _ _ _ Hin Hset) as [-> | (x & -> & _)];
      [reflexivity | ].
    apply dict_keys_setattr. exact Hk.
Qed.


(** X15. Every [Zone], however it was built and whatever has been assigned
    to it since, holds exactly its five attributes: the class name is
    [None] or a non-empty string, the dash style [None] or one of the
    supported names, the value [None] or a number, and each colour [None],
    a [Gradient], a [Pattern], or a string that names one of the two
    without parsing as it. *)
Theorem Zone_attributes_in_range (e : Self) : Zone_built e -> Zone_state e.
Proof. apply Zone_built_state. Qed.

(** X16. Assigning to a property of a [Zone] the value the property
    currently holds is accepted and leaves the instance exactly as it
    was. *)
Theorem Zone_reassigning_changes_nothing (e : Self) (name : string)
    (default : PyVal) (setter : Setter) (x : PyVal) :
  Zone_built e ->
  In (name, default, setter) Zone_init_fields ->
  getattr e ("_" ++ name) = Ok x ->
  setter e x = Ok e.
Proof.
  intros Hb Hin Hg.
  destruct (Zone_built_state e Hb)
    as (x1 & x2 & x3 & x4 & x5 & -> & P1 & P2 & P3 & P4 & P5).
  simpl in Hin.
  destruct Hin as [Hin | [Hin | [Hin | [Hin | [Hin | []]]]]];
    injection Hin as <- <- <-; simpl in Hg; injection Hg as <-.
  - unfold Zone_class_name_setter.
    rewrite (string_allow_empty_accepts _ P1). reflexivity.
  - exact (resolving_setter_accepts "_color" unresolved_color _ _ P2).
  - destruct P3 as [-> | (s & -> & Hs)]; [reflexivity | ].
    unfold Zone_dash_style_setter, validators.string.
    rewrite (nonempty_truthy s (supported_dash_style_nonempty s Hs)).
    cbn [negb andb is_str bind py_str_in]. rewrite Hs. reflexivity.
  - exact (resolving_setter_accepts "_fill_color" unresolved_color _ _ P4).
  - unfold Zone_value_setter.
    rewrite (numeric_unbounded_accepts _ P5). reflexivity.
Qed.

End Instances.

Lemma Legend_untrimmed_round_trip_witness :
  exists u,
    Legend_to_untrimmed_dict
      (setattr (setattr Legend_initial "_align" (PyStr "left"))
         "_item_distance" (PyInt 3)) = Ok u /\
    @Legend_from_dict reference_collaborators u
    = Ok (setattr (setattr Legend_initial "_align" (PyStr "left"))
            "_item_distance" (PyInt 3)).
Proof.
  apply (@Legend_untrimmed_round_trip reference_collaborators).
  apply (@Legend_built_by_init reference_collaborators
           [("align", PyStr "LEFT"); ("item_distance", PyInt 3)]).
  vm_compute. reflexivity.
Defined.

Lemma Legend_attributes_in_range_witness :
  getattr (setattr (setattr Legend_initial "_align" (PyStr "left"))
             "_item_distance" (PyInt 3)) "_x" = Ok PyNone /\
  none_or_one_of ["left"; "center"; "right"] (PyStr "left").
Proof.
  destruct (@Legend_attributes_in_range reference_collaborators
              (setattr (setattr Legend_initial "_align" (PyStr "left"))
                 "_item_distance" (PyInt 3)))
    as (_ & Hx & _ & Ha & _).
  - apply (@Legend_built_by_init reference_collaborators
             [("align", PyStr "LEFT"); ("item_distance", PyInt 3); ("x", PyInt 7)]).
    vm_compute. reflexivity.
  - split; [exact Hx | apply Ha; reflexivity].
Defined.

Lemma Legend_reassigning_changes_nothing_witness :
  Legend_align_setter
    (setattr (setattr Legend_initial "_align" (PyStr "left"))
       "_item_distance" (PyInt 3)) (PyStr "left")
  = Ok (setattr (setattr Legend_initial "_align" (PyStr "left"))
          "_item_distance" (PyInt 3)).
Proof.
  apply (@Legend_reassigning_changes_nothing reference_collaborators
           (setattr (setattr Legend_initial "_align" (PyStr "left"))
              "_item_distance" (PyInt 3))
           "align" PyNone Legend_align_setter (PyStr "left")).
  - apply (@Legend_built_by_init reference_collaborators
             [("align", PyStr "LEFT"); ("item_distance", PyInt 3)]).
    vm_compute. reflexivity.
  - right. left. reflexivity.
  - reflexivity.
Defined.

Lemma Legend_assignment_touches_one_attribute_witness :
  getattr (setattr Legend_initial "_enabled" (PyBool true)) "_align"
  = getattr Legend_initial "_align".
Proof.
  apply (proj1 (@Legend_assignment_touches_one_attribute reference_collaborators
                  "enabled" PyNone Legend_enabled_setter Legend_initial
                  (setattr Legend_initial "_enabled" (PyBool true)) (PyBool true)
                  ltac:(do 9 right; left; reflexivity) eq_refl)).
  discriminate.
Defined.

Lemma Zone_attributes_in_range_witness :
  @Zone_state reference_collaborators
    [("_class_name", PyNone); ("_color", PyNone);
     ("_dash_style", PyStr "Dash"); ("_fill_color", PyNone);
     ("_value", PyInt 10)].
Proof.
  apply (@Zone_attributes_in_range reference_collaborators).
  apply (@built_by_init reference_collaborators
           [("dash_style", PyStr "Dash"); ("value", PyInt 10)]).
  reflexivity.
Defined.

Lemma Zone_reassigning_changes_nothing_witness :
  Zone_dash_style_setter
    [("_class_name", PyNone); ("_color", PyNone);
     ("_dash_style", PyStr "Dash"); ("_fill_color", PyNone);
     ("_value", PyInt 10)] (PyStr "Dash")
  = Ok [("_class_name", PyNone); ("_color", PyNone);
        ("_dash_style", PyStr "Dash"); ("_fill_color", PyNone);
        ("_value", PyInt 10)].
Proof.
  apply (@Zone_reassigning_changes_nothing reference_collaborators
           [("_class_name", PyNone); ("_color", PyNone);
            ("_dash_style", PyStr "Dash"); ("_fill_color", PyNone);
            ("_value", PyInt 10)]
           "dash_style" PyNone Zone_dash_style_setter (PyStr "Dash")).
  - apply (@built_by_init reference_collaborators
             [("dash_style", PyStr "Dash"); ("value", PyInt 10)]).
    reflexivity.
  - right. right. left. reflexivity.
  - reflexivity.
Defined.

(** ** The order of the keys of a composed mapping *)

Lemma dict_keys_copied (p : Dict) (keys : list string) (own : Dict) :
  NoDup keys ->
  (forall k, In k keys -> has_key k p = true) ->
  dict_keys
    (fold_left
       (fun untrimmed key =>
          match dict_get key p with
          | Some v => dict_set key v untrimmed
          | None => untrimmed
          end) keys own)
  = (dict_keys own ++ filter (fun k => negb (has_key k own)) keys)%list.
Proof.
  revert own. induction keys as [ | key keys IH]; intros own Hnd Hp; simpl.
  - rewrite app_nil_r. reflexivity.
  - inversion Hnd as [ | ? ? Hnotin Hrest]; subst.
    pose proof (Hp key (or_introl eq_refl)) as Hk. unfold has_key in Hk.
    destruct (dict_get key p) as [v | ]; [ | discriminate].
    rewrite IH; [ | exact Hrest | intros k Hin; apply Hp; right; exact Hin].
    rewrite dict_keys_dict_set.
    assert (Hsame : filter (fun k => negb (has_key k (dict_set key v own))) keys
                    = filter (fun k => negb (has_key k own)) keys).
    { apply filter_ext_in. intros k Hin. unfold has_key.
      rewrite dict_get_dict_set.
      destruct (String.eqb_spec key k) as [-> | _]; [contradiction | reflexivity]. }
    rewrite Hsame.
    destruct (has_key key own); simpl; [reflexivity | ].
    rewrite <- app_assoc. reflexivity.
Qed.

(** X17. The mapping [SankeyOptions._to_untrimmed_dict] returns starts with
    the class's own key, [linkColorMode], and continues with the keys of
    the parent's mapping in the parent's order, [linkColorMode] left out
    there: a parent that carries that key replaces the value, not the
    position. *)
Theorem SankeyOptions_untrimmed_key_order
    (DependencyWheelOptions_to_untrimmed_dict : Self -> PyVal -> Result Dict)
    (self : Self) (in_cls : PyVal) (parent_as_dict merged : Dict) :
  DependencyWheelOptions_to_untrimmed_dict self in_cls = Ok parent_as_dict ->
  NoDup (dict_keys parent_as_dict) ->
  SankeyOptions_to_untrimmed_dict DependencyWheelOptions_to_untrimmed_dict
    self in_cls = Ok merged ->
  dict_keys merged
  = "linkColorMode"
    :: filter (fun k => negb ("linkColorMode" =? k)%string)
         (dict_keys parent_as_dict).
Proof.
  intros Hparent Hnd. unfold SankeyOptions_to_untrimmed_dict.
  cbn [read_properties]. unfold getattr.
  destruct (dict_get "_link_color_mode" self) as [v | ]; [ | discriminate].
  cbn [bind]. rewrite Hparent. cbn [bind]. intros H. injection H as <-.
  unfold copy_parent_items.
  rewrite dict_keys_copied; [ | exact Hnd | intros k Hin; apply has_key_In; exact Hin].
  cbn [dict_keys map fst app]. f_equal. apply filter_ext. intros k.
  unfold has_key. cbn [dict_get].
  destruct ("linkColorMode" =? k)%string; reflexivity.
Qed.

Lemma SankeyOptions_untrimmed_key_order_witness :
  dict_keys
    (copy_parent_items
       [("nodeWidth", PyInt 20); ("linkColorMode", PyStr "to"); ("colors", PyNone)]
       [("linkColorMode", PyStr "from")])
  = ["linkColorMode"; "nodeWidth"; "colors"].
Proof.
  apply (SankeyOptions_untrimmed_key_order
           (fun _ _ => Ok [("nodeWidth", PyInt 20); ("linkColorMode", PyStr "to");
                           ("colors", PyNone)])
           [("_link_color_mode", PyStr "from")] PyNone
           [("nodeWidth", PyInt 20); ("linkColorMode", PyStr "to"); ("colors", PyNone)]
           (copy_parent_items
              [("nodeWidth", PyInt 20); ("linkColorMode", PyStr "to"); ("colors", PyNone)]
              [("linkColorMode", PyStr "from")])).
  - reflexivity.
  - apply NoDup_strings_check. reflexivity.
  - reflexivity.
Defined.

(** ** The attributes of an instance *)

Section AttributeSet.
Context {env : Collaborators}.

Lemma constructed_attr (c : OptionClass) (f : Dict -> Result Self)
    (initial : Self) (fields : list (string * PyVal * Setter))
    (name : string) (default : PyVal) (setter : Setter) :
  constructed c = Some (f, initial, fields) ->
  In (name, default, setter) fields ->
  In ("_" ++ name) (dict_keys initial).
Proof.
  intros Hc Hin. rewrite <- (proj2 (constructed_names _ _ _ _ Hc)).
  apply (in_map (fun x : string * PyVal * Setter => "_" ++ fst (fst x))) in Hin.
  exact Hin.
Qed.

Lemma constructed_keeps_keys (c : OptionClass) (f : Dict -> Result Self)
    (initial : Self) (fields : list (string * PyVal * Setter))
    (name : string) (default : PyVal) (setter : Setter)
    (s : Self) (v : PyVal) (s' : Self) :
  constructed c = Some (f, initial, fields) ->
  In (name, default, setter) fields ->
  setter s v = Ok s' ->
  dict_keys s = dict_keys initial ->
  dict_keys s' = dict_keys initial.
Proof.
  intros Hc Hin Hset Hk.
  destruct (constructed_writes _ _ _ _ _ _ _ _ _ _ Hc Hin Hset) as [-> | (x & ->)];
    [exact Hk | ].
  rewrite dict_keys_setattr; [exact Hk | ].
  rewrite Hk. eapply constructed_attr; eauto.
Qed.

(** X18. The attributes of an instance are fixed by its class: what
    [from_dict] returns has exactly the attributes that [__init__] creates
    first, in that order, and no assignment to a property adds, removes or
    reorders one. *)
Theorem attribute_set_is_fixed (c : OptionClass) (f : Dict -> Result Self)
    (initial : Self) (fields : list (string * PyVal * Setter)) :
  constructed c = Some (f, initial, fields) ->
  (forall d e, f d = Ok e -> dict_keys e = dict_keys initial) /\
  (forall name default setter s v s',
      In (name, default, setter) fields ->
      dict_keys s = dict_keys initial ->
      setter s v = Ok s' ->
      dict_keys s' = dict_keys initial).
Proof.
  intros Hc. split.
  - intros d e He. rewrite (constructed_unfold _ _ _ _ d Hc) in He.
    destruct (assign_kwargs fields initial (extracted_kwargs c d))
      as [[s' rest] | ] eqn:Ha; [ | discriminate].
    cbn [bind fst] in He. injection He as <-.
    apply (assign_kwargs_preserves
             (fun s => dict_keys s = dict_keys initial)
             fields initial s' (extracted_kwargs c d) rest);
      [ | reflexivity | exact Ha].
    intros n df st s v s2 Hin Hs Hk.
    exact (constructed_keeps_keys c f initial fields n df st s v s2 Hc Hin Hs Hk).
  - intros name default setter s v s' Hin Hk Hs.
    exact (constructed_keeps_keys c f initial fields name default setter s v s'
             Hc Hin Hs Hk).
Qed.

End AttributeSet.

Lemma attribute_set_is_fixed_witness :
  exists e,
    @InactiveState_from_dict reference_collaborators [("opacity", PyInt 1)] = Ok e /\
    dict_keys e = ["_animation"; "_enabled"; "_opacity"].
Proof.
  exists [("_animation", PyNone); ("_enabled", PyBool true); ("_opacity", PyInt 1)].
  split; [reflexivity | ].
  apply (proj1 (@attribute_set_is_fixed reference_collaborators
                  InactiveState_class _ _ _ eq_refl) [("opacity", PyInt 1)]).
  reflexivity.
Defined.

